(** * prodscope backend: provider orchestration and analysis sessions

    A shallow embedding of

    - [backend/src/services/llm_service.py]  (the provider registry and [chat]),
    - [backend/src/llm/llm_manager.py]       (task routing, client cache, cost),
    - [backend/src/api/main.py]              (the analysis session endpoints),

    followed by the properties of the design document that concern them.

    Python values are modelled as the interpreter has them: [str] is a
    sequence of Unicode code points, [float] is an IEEE 754 binary64 number
    (Rocq's primitive floats), [int] is [Z], an insertion-ordered [dict] is an
    association list, and a dict whose order is never observed is a [gmap]. *)

From Stdlib Require Import ZArith NArith QArith List String Ascii Lia Floats.
From Stdlib Require Import DecimalString.
From Stdlib Require DecimalPos DecimalZ.
From Stdlib Require Import Sorted.
From stdpp Require Import gmap list option.

Set Warnings "-inexact-float".

(* ===================================================================== *)
(** * Python values *)
(* ===================================================================== *)

Module py.

(** ** [str]: a sequence of code points *)

Abbreviation str := (list N) (only parsing).

Definition byte_of (a : ascii) : N := N_of_ascii a.

(** Source literals are written in UTF-8; [decode] turns the bytes of a
    literal into its code points (one, two, three and four byte forms). *)
Fixpoint decode (bs : list N) : str :=
  match bs with
  | [] => []
  | b :: r =>
      if (b <? 128)%N then b :: decode r
      else if (b <? 224)%N then
        match r with
        | c1 :: r1 => ((b - 192) * 64 + (c1 - 128))%N :: decode r1
        | _ => []
        end
      else if (b <? 240)%N then
        match r with
        | c1 :: c2 :: r2 =>
            ((b - 224) * 4096 + (c1 - 128) * 64 + (c2 - 128))%N :: decode r2
        | _ => []
        end
      else
        match r with
        | c1 :: c2 :: c3 :: r3 =>
            ((b - 240) * 262144 + (c1 - 128) * 4096 + (c2 - 128) * 64
             + (c3 - 128))%N :: decode r3
        | _ => []
        end
  end.

Definition u (s : string) : str := decode (map byte_of (list_ascii_of_string s)).

(** [p + q] on strings is list append; [s[:n]] is [take n s]. *)

(** [s.startswith(p)] *)
Fixpoint startswith (s p : str) : bool :=
  match p, s with
  | [], _ => true
  | _ :: _, [] => false
  | a :: p', b :: s' => (a =? b)%N && startswith s' p'
  end.

(** [needle in hay] *)
Fixpoint contains (needle hay : str) : bool :=
  startswith hay needle
  || match hay with
     | [] => false
     | _ :: t => contains needle t
     end.

(** Truthiness of a string: [bool(s)] is [len(s) > 0]. *)
Definition truthy (s : str) : bool :=
  match s with [] => false | _ :: _ => true end.

(** Truthiness of an optional string ([None] is falsy). *)
Definition otruthy (o : option str) : bool :=
  match o with Some s => truthy s | None => false end.

(** [str(z)] for an [int]: decimal digits, with a minus sign when negative. *)
Definition str_of_int (z : Z) : str :=
  map byte_of (list_ascii_of_string (NilZero.string_of_int (Z.to_int z))).

(** ** [float]: binary64 *)

(** [float(z)] for an [int].  [PrimFloat.of_uint63] is exact below [2^53],
    which covers every integer this development converts. *)
Definition float_of_int (z : Z) : float :=
  if (z <? 0)%Z then PrimFloat.opp (PrimFloat.of_uint63 (Uint63.of_Z (- z)))
  else PrimFloat.of_uint63 (Uint63.of_Z z).

(** [a / b] on two [int]s (true division).  Python rounds the exact quotient
    to the nearest double; when both operands are below [2^53] in magnitude
    they are doubles themselves and IEEE division returns that same value. *)
Definition truediv (a b : Z) : float :=
  PrimFloat.div (float_of_int a) (float_of_int b).

(** [int(f)]: truncation towards zero.  Python raises on an infinity or a
    NaN; the callers below only pass finite values, and the model returns [0]
    there. *)
Definition int_of_float (f : float) : Z :=
  match Prim2SF f with
  | S754_finite s m e =>
      let v := if (0 <=? e)%Z then (Z.pos m * 2 ^ e)%Z
               else (Z.pos m / 2 ^ (- e))%Z in
      if s then (- v)%Z else v
  | _ => 0%Z
  end.

(** ** [dict] with observable insertion order *)

Abbreviation dict V := (list (list N * V)) (only parsing).

Fixpoint dict_get {V} (d : dict V) (k : str) : option V :=
  match d with
  | [] => None
  | (k', v) :: r => if bool_decide (k' = k) then Some v else dict_get r k
  end.

(** [k in d] *)
Definition dict_mem {V} (d : dict V) (k : str) : bool :=
  match dict_get d k with Some _ => true | None => false end.

(** [d[k] = v]: an existing key keeps its position, a new one goes last. *)
Fixpoint dict_set {V} (d : dict V) (k : str) (v : V) : dict V :=
  match d with
  | [] => [(k, v)]
  | (k', v') :: r =>
      if bool_decide (k' = k) then (k, v) :: r else (k', v') :: dict_set r k v
  end.

(** [list(d.keys())] *)
Definition dict_keys {V} (d : dict V) : list str := map fst d.

(** Truthiness of a dict: [bool(d)] is [len(d) > 0]. *)
Definition truthy_dict {V} (d : dict V) : bool :=
  match d with [] => false | _ :: _ => true end.

End py.

Import py.

(* ===================================================================== *)
(** * The provider clients (LangChain), as the backend sees them *)
(* ===================================================================== *)

Module langchain.

Inductive chat_class := ChatOpenAI | ChatAnthropic | ChatGoogleGenerativeAI.

(** A client object is determined by the arguments it was constructed with. *)
Record BaseChatModel := {
  cls : chat_class;
  api_key : str;
  base_url : option str;
  model : str;
  temperature : float
}.

Inductive BaseMessage := SystemMessage (content : str) | HumanMessage (content : str).

(** What [chat] reads off a reply: [response.content] and the two keys of
    [response.response_metadata] it asks for. *)
Record AIMessage := {
  content : str;
  token_usage : option (dict Z);
  model_name : option str
}.

(** The outside world, as far as the backend can tell: the calls made so far
    (oldest first). *)
Definition call := (BaseChatModel * list BaseMessage)%type.
Definition world := list call.

Definition chat_class_eqb (a b : chat_class) : bool :=
  match a, b with
  | ChatOpenAI, ChatOpenAI
  | ChatAnthropic, ChatAnthropic
  | ChatGoogleGenerativeAI, ChatGoogleGenerativeAI => true
  | _, _ => false
  end.

(** Two handles denote the same client when they were built alike. *)
Definition same_client (a b : BaseChatModel) : bool :=
  chat_class_eqb (cls a) (cls b)
  && bool_decide (api_key a = api_key b)
  && bool_decide (base_url a = base_url b)
  && bool_decide (model a = model b)
  && PrimFloat.eqb (temperature a) (temperature b).

(** How many times client [c] was invoked in [w]. *)
Definition invocations (c : BaseChatModel) (w : world) : nat :=
  length (filter (fun k => same_client (fst k) c = true) w).

End langchain.

Import langchain.

(* ===================================================================== *)
(** * services/llm_service.py *)
(* ===================================================================== *)

Module llm_service.

Record ChatResult := {
  response : str;
  llm_provider : str;
  tokens_used : dict Z;
  model : str
}.

Record LLMService := { providers : dict BaseChatModel }.

(** The canned replies of [_generate_mock_response]. *)
Definition mock_holiday : str := u
"基于您的查询，我已经分析了沃尔玛圣诞装饰品的相关数据。

🎄 **市场表现洞察**：
- 圣诞装饰品类目在11-12月销量激增，同比增长43%
- 价格区间集中在$15-$45，性价比产品最受欢迎
- LED灯串和人造圣诞树是核心品类

📊 **用户偏好分析**：
- 消费者更偏向多功能、易安装的装饰品
- 环保材质成为新的购买决策因素
- 个性化定制需求明显上升

🔍 **建议优化方向**：
1. 增加智能控制功能的装饰品
2. 开发更多环保材质选项
3. 提供DIY套装满足个性化需求

需要我为您启动完整的六层洞察分析吗？".

Definition mock_reviews : str := u
"我已经分析了产品评价数据中的常见问题模式。

⚠️ **主要痛点识别**：
1. **质量问题** (32%): 材质易损坏、使用寿命短
2. **物流问题** (24%): 包装不当、配送延迟
3. **功能问题** (21%): 说明书不清晰、组装困难
4. **性价比问题** (15%): 价格与质量不匹配

🔧 **解决方案建议**：
- 改进产品材质和工艺标准
- 优化包装设计和物流流程
- 提供更清晰的安装指南和视频教程
- 重新调整价格策略

是否需要我深入分析特定类目的问题模式？".

Definition mock_generic_head : str := u "感谢您的提问！我已经收到您关于".

Definition mock_generic_tail : str := u
"的查询。

作为Prodscope产品推荐系统，我可以帮助您：

🎯 **产品分析服务**：
- 市场宏观趋势分析
- 供应链痛点识别
- 创新机会发现
- 定价策略优化
- 竞争对手分析

📈 **数据驱动洞察**：
- 基于37,891条真实产品数据
- 结合多个LLM模型分析
- 实时趋势数据支持

需要启动完整的六层洞察分析流程吗？".

(** The quotation mark around the echoed query. *)
Definition quote : str := [34%N].

Definition _generate_mock_response (message : str) : ChatResult :=
  let response :=
    if contains (u "沃尔玛") message || contains (u "圣诞") message then
      mock_holiday
    else if contains (u "评价") message || contains (u "问题") message then
      mock_reviews
    else
      mock_generic_head ++ quote ++ take 50 message ++ u "..." ++ quote
      ++ mock_generic_tail in
  {| response := response;
     llm_provider := u "mock";
     tokens_used := [];
     model := u "mock-model" |}.

Section service.

(** [os.getenv]. *)
Variable getenv : str -> option str.

(** Whether the provider library's constructor returns (it may raise). *)
Variable constructs : BaseChatModel -> bool.

(** [llm.ainvoke(messages)] after the calls of [w]: a reply, or [None] when
    the call raised (timeout, transport fault) or the reply lacked what
    [chat] reads from it; both happen inside the [try] of [chat]. *)
Variable ainvoke : world -> BaseChatModel -> list BaseMessage -> option AIMessage.

(** [os.getenv(name, default)] *)
Definition getenv_or (name default : str) : str :=
  match getenv name with Some v => v | None => default end.

(** The test every block of [_initialize_providers] opens with:
    [key and not key.startswith("your_")]. *)
Definition configured (key : option str) : bool :=
  match key with
  | Some k => truthy k && negb (startswith k (u "your_"))
  | None => false
  end.

(** One block of [_initialize_providers]: under that test, construct the
    client inside a [try] and store it under [name]. *)
Definition register (providers : dict BaseChatModel) (name : str)
    (key : option str) (make : str -> BaseChatModel) : dict BaseChatModel :=
  if configured key then
    let client := make (default [] key) in
    if constructs client then dict_set providers name client else providers
  else providers.

Definition openai_compatible (base model key : str) : BaseChatModel :=
  {| cls := ChatOpenAI; api_key := key; base_url := Some base;
     langchain.model := model; temperature := 0.7 |}.

(** The preference order of the default provider. *)
Definition primary_order : list str :=
  [u "deepseek"; u "moonshot"; u "volcengine"; u "xai"; u "google";
   u "anthropic"; u "openai"].

Fixpoint choose_primary (order : list str) (providers : dict BaseChatModel)
    : dict BaseChatModel :=
  match order with
  | [] => providers
  | name :: rest =>
      match dict_get providers name with
      | Some c => dict_set providers (u "primary") c
      | None => choose_primary rest providers
      end
  end.

Definition _initialize_providers : dict BaseChatModel :=
  let openai_key := getenv (u "OPENAI_API_KEY") in
  let anthropic_key := getenv (u "ANTHROPIC_API_KEY") in
  let google_key := getenv (u "GOOGLE_API_KEY") in
  let providers := [] in
  let providers := register providers (u "openai") openai_key (fun k =>
    {| cls := ChatOpenAI; api_key := k; base_url := None;
       langchain.model := u "gpt-4o-mini"; temperature := 0.7 |}) in
  let providers := register providers (u "anthropic") anthropic_key (fun k =>
    {| cls := ChatAnthropic; api_key := k; base_url := None;
       langchain.model := u "claude-3-haiku-20240307"; temperature := 0.7 |}) in
  let google_key :=
    if otruthy google_key then google_key else getenv (u "GEMINI_API_KEY") in
  let providers := register providers (u "google") google_key (fun k =>
    {| cls := ChatGoogleGenerativeAI; api_key := k; base_url := None;
       langchain.model := u "gemini-1.5-flash"; temperature := 0.7 |}) in
  let providers := register providers (u "xai") (getenv (u "XAI_API_KEY"))
    (openai_compatible (getenv_or (u "XAI_BASE_URL") (u "https://api.x.ai/v1"))
       (u "grok-2-latest")) in
  let providers :=
    register providers (u "deepseek") (getenv (u "DEEPSEEK_API_KEY"))
      (openai_compatible
         (getenv_or (u "DEEPSEEK_BASE_URL") (u "https://api.deepseek.com"))
         (u "deepseek-chat")) in
  let providers :=
    register providers (u "moonshot") (getenv (u "MOONSHOT_API_KEY"))
      (openai_compatible
         (getenv_or (u "MOONSHOT_BASE_URL") (u "https://api.moonshot.cn/v1"))
         (u "moonshot-v1-8k")) in
  let providers :=
    register providers (u "volcengine") (getenv (u "VOLCENGINE_API_KEY"))
      (openai_compatible
         (getenv_or (u "VOLCENGINE_BASE_URL")
            (u "https://ark.cn-beijing.volces.com/api/v3"))
         (u "ep-20241212110452-zk2nd")) in
  if truthy_dict providers then choose_primary primary_order providers
  else providers.

(** [LLMService()] *)
Definition new : LLMService := {| providers := _initialize_providers |}.

(** The message list [chat] sends. *)
Definition build_messages (message : str) (system_prompt : option str)
    : list BaseMessage :=
  (if otruthy system_prompt
   then [SystemMessage (default [] system_prompt)] else [])
  ++ [HumanMessage message].

(** The [try] block of [chat], once a client is chosen. *)
Definition call_llm (llm : BaseChatModel) (llm_name message : str)
    (system_prompt : option str) (w : world) : ChatResult * world :=
  let messages := build_messages message system_prompt in
  let w' := w ++ [(llm, messages)] in
  match ainvoke w llm messages with
  | Some reply =>
      ({| response := content reply;
          llm_provider := llm_name;
          tokens_used := default [] (token_usage reply);
          model := default (u "unknown") (model_name reply) |}, w')
  | None => (_generate_mock_response message, w')
  end.

Definition chat (self : LLMService) (message : str)
    (system_prompt provider : option str) (w : world) : ChatResult * world :=
  let named :=
    match provider with
    | Some p => if truthy p then dict_get (providers self) p else None
    | None => None
    end in
  match named with
  | Some llm => call_llm llm (default [] provider) message system_prompt w
  | None =>
      match dict_get (providers self) (u "primary") with
      | Some llm => call_llm llm (u "primary") message system_prompt w
      | None =>
          match providers self with
          | (llm_name, llm) :: _ => call_llm llm llm_name message system_prompt w
          | [] => (_generate_mock_response message, w)
          end
      end
  end.

Definition get_available_providers (self : LLMService) : list str :=
  dict_keys (providers self).

Definition task_llm_mapping : dict str :=
  [(u "market_trends", u "google");
   (u "sentiment_analysis", u "anthropic");
   (u "innovation", u "openai");
   (u "report_generation", u "anthropic");
   (u "data_analysis", u "primary")].

Definition _get_task_specific_prompt (task_type : str) : str :=
  default (u "你是一个产品分析专家。")
    (dict_get
       [(u "market_trends", u "你是一个市场趋势分析专家，擅长识别市场模式和预测趋势。");
        (u "sentiment_analysis", u "你是一个情感分析专家，擅长从用户评价中提取情感和观点。");
        (u "innovation", u "你是一个产品创新专家，擅长发现市场机会和创新点。");
        (u "report_generation", u "你是一个专业的分析报告撰写专家，擅长生成结构化的洞察报告。");
        (u "data_analysis", u "你是一个数据分析专家，擅长从数据中提取有价值的洞察。")]
       task_type).

Definition analyze_with_best_llm (self : LLMService) (task_type content : str)
    (w : world) : ChatResult * world :=
  let preferred_llm := default (u "primary") (dict_get task_llm_mapping task_type) in
  let system_prompt := _get_task_specific_prompt task_type in
  chat self content (Some system_prompt) (Some preferred_llm) w.

End service.

End llm_service.

(* ===================================================================== *)
(** * llm/llm_manager.py *)
(* ===================================================================== *)

Module llm_manager.

Inductive TaskType :=
  | TREND_ANALYSIS
  | PAIN_POINT_ANALYSIS
  | OPPORTUNITY_IDENTIFICATION
  | SENTIMENT_ANALYSIS
  | KEYWORD_EXTRACTION
  | TEXT_CLASSIFICATION
  | EXECUTIVE_SUMMARY
  | DETAILED_REPORT
  | PRODUCT_RECOMMENDATIONS.

Definition value (t : TaskType) : str :=
  match t with
  | TREND_ANALYSIS => u "trend_analysis"
  | PAIN_POINT_ANALYSIS => u "pain_point_analysis"
  | OPPORTUNITY_IDENTIFICATION => u "opportunity_identification"
  | SENTIMENT_ANALYSIS => u "sentiment_analysis"
  | KEYWORD_EXTRACTION => u "keyword_extraction"
  | TEXT_CLASSIFICATION => u "text_classification"
  | EXECUTIVE_SUMMARY => u "executive_summary"
  | DETAILED_REPORT => u "detailed_report"
  | PRODUCT_RECOMMENDATIONS => u "product_recommendations"
  end.

(** [Union[TaskType, str]], and the [isinstance] test that opens both
    [get_llm_for_task] and [estimate_cost]. *)
Definition task := (TaskType + str)%type.

Definition task_name (t : task) : str :=
  match t with inl e => value e | inr s => s end.

(** ** The configuration document

    The YAML document is a nested dict; every level may lack any key.  A
    [{provider, model}] entry is a dict from key to string. *)

Record ModelEntry := {
  description : option str;
  max_tokens : option Z;
  temperature : option float;
  cost_per_1k_tokens : option float;
  use_cases : option (list str)
}.

Record ProviderEntry := {
  api_key_env : option str;
  models : option (gmap str ModelEntry)
}.

Abbreviation candidate := (gmap (list N) (list N)) (only parsing).
Abbreviation assignment :=
  (gmap (list N) (gmap (list N) (list N))) (only parsing).

Record Settings := {
  retry_attempts : option Z;
  timeout_seconds : option Z;
  fallback_enabled : option bool
}.

Record Config := {
  providers : option (gmap str ProviderEntry);
  task_assignments : option (gmap str assignment);
  settings : option Settings;
  override_all_to : option candidate     (* config["development"]["override_all_to"] *)
}.

Definition _get_default_config : Config :=
  {| providers := Some {[ u "google" :=
       {| api_key_env := Some (u "GOOGLE_API_KEY");
          models := Some {[ u "gemini-1.5-flash" :=
            {| description := Some (u "Default model");
               max_tokens := Some 8192%Z;
               temperature := Some 0.7%float;
               cost_per_1k_tokens := Some 0.0005%float;
               use_cases := Some [u "all"] |} ]} |} ]};
     task_assignments := Some ∅;
     settings := Some {| retry_attempts := Some 3%Z;
                         timeout_seconds := Some 60%Z;
                         fallback_enabled := Some true |};
     override_all_to := None |}.

(** ** Exceptions that leave a method *)

Inductive exn := KeyError (key : str).

Definition result (A : Type) := (exn + A)%type.

(** [d[k]] on a [{provider, model}] dict. *)
Definition subscript (d : candidate) (k : str) : result str :=
  match d !! k with Some v => inr v | None => inl (KeyError k) end.

(** [self.config.get("task_assignments", {}).get(task, {})] *)
Definition assignment_of (c : Config) (task : str) : assignment :=
  default ∅ (default ∅ (task_assignments c) !! task).

(** [assignment.get("primary", {})] *)
Definition primary_of (a : assignment) : candidate :=
  default ∅ (a !! u "primary").

Record LLMManager := {
  config : Config;
  llm_cache : gmap str BaseChatModel;
  development_mode : bool
}.

(** One value of the dict [list_available_providers] returns. *)
Module ProviderInfo.
Record t := { models : list str; has_api_key : bool; status : str }.
End ProviderInfo.

Section manager.

Variable getenv : str -> option str.
Variable constructs : BaseChatModel -> bool.

Definition getenv_or (name default : str) : str :=
  match getenv name with Some v => v | None => default end.

(** [config["providers"][provider]["models"][model]], [None] on a [KeyError]. *)
Definition model_entry (c : Config) (provider model : str) : option ModelEntry :=
  ps ← providers c; p ← ps !! provider; ms ← models p; ms !! model.

Definition _get_model_temperature (self : LLMManager) (provider model : str)
    : float :=
  match model_entry (config self) provider model ≫= temperature with
  | Some t => t
  | None => 0.7%float
  end.

(** A constructor call inside the [try] of [_create_llm]: an exception gives
    [None]. *)
Definition construct (c : BaseChatModel) : option BaseChatModel :=
  if constructs c then Some c else None.

Definition _create_llm (self : LLMManager) (provider model : str)
    : option BaseChatModel :=
  if bool_decide (provider = u "google") then
    let api_key := getenv (u "GOOGLE_API_KEY") in
    if negb (otruthy api_key) then None
    else construct
      {| cls := ChatGoogleGenerativeAI; api_key := default [] api_key;
         base_url := None; langchain.model := model;
         langchain.temperature := _get_model_temperature self provider model |}
  else if bool_decide (provider = u "openai") then
    let api_key := getenv (u "OPENAI_API_KEY") in
    if negb (otruthy api_key) then None
    else construct
      {| cls := ChatOpenAI; api_key := default [] api_key;
         base_url := None; langchain.model := model;
         langchain.temperature := _get_model_temperature self provider model |}
  else if bool_decide (provider = u "anthropic") then
    let api_key := getenv (u "ANTHROPIC_API_KEY") in
    if negb (otruthy api_key) then None
    else construct
      {| cls := ChatAnthropic; api_key := default [] api_key;
         base_url := None; langchain.model := model;
         langchain.temperature := _get_model_temperature self provider model |}
  else if bool_decide (provider = u "xai") then
    let api_key := getenv (u "XAI_API_KEY") in
    let base := getenv_or (u "XAI_BASE_URL") (u "https://api.x.ai/v1") in
    if negb (otruthy api_key) then None
    else construct
      {| cls := ChatOpenAI; api_key := default [] api_key;
         base_url := Some base; langchain.model := model;
         langchain.temperature := _get_model_temperature self provider model |}
  else None.

Definition cache_key (provider model : str) : str := provider ++ u ":" ++ model.

(** [get_llm] returns the client and the manager with its cache updated. *)
Definition get_llm (self : LLMManager) (provider model : str)
    : option BaseChatModel * LLMManager :=
  match llm_cache self !! cache_key provider model with
  | Some llm => (Some llm, self)
  | None =>
      match _create_llm self provider model with
      | Some llm =>
          (Some llm,
           {| config := config self;
              llm_cache := <[cache_key provider model := llm]> (llm_cache self);
              development_mode := development_mode self |})
      | None => (None, self)
      end
  end.

Definition _get_default_llm (self : LLMManager)
    : option BaseChatModel * LLMManager :=
  get_llm self (u "google") (u "gemini-1.5-flash").

(** [self.get_llm(d["provider"], d["model"])] *)
Definition get_llm_of (self : LLMManager) (d : candidate)
    : result (option BaseChatModel * LLMManager) :=
  match subscript d (u "provider") with
  | inl e => inl e
  | inr provider =>
      match subscript d (u "model") with
      | inl e => inl e
      | inr model => inr (get_llm self provider model)
      end
  end.

(** The part of [get_llm_for_task] after the primary was tried. *)
Definition try_fallback (self : LLMManager) (a : assignment)
    : result (option BaseChatModel * LLMManager) :=
  let enabled :=
    default true (settings (config self) ≫= fallback_enabled) in
  let fallback := default ∅ (a !! u "fallback") in
  if enabled && negb (bool_decide (fallback = ∅)) then
    match get_llm_of self fallback with
    | inl e => inl e
    | inr (Some llm, self') => inr (Some llm, self')
    | inr (None, self') => inr (_get_default_llm self')
    end
  else inr (_get_default_llm self).

Definition get_llm_for_task (self : LLMManager) (t : task)
    : result (option BaseChatModel * LLMManager) :=
  let task := task_name t in
  let override :=
    if development_mode self then default ∅ (override_all_to (config self))
    else ∅ in
  if negb (bool_decide (override = ∅)) then get_llm_of self override
  else
    let a := assignment_of (config self) task in
    if bool_decide (a = ∅) then inr (_get_default_llm self)
    else
      let primary := primary_of a in
      if negb (bool_decide (primary = ∅)) then
        match get_llm_of self primary with
        | inl e => inl e
        | inr (Some llm, self') => inr (Some llm, self')
        | inr (None, self') => try_fallback self' a
        end
      else try_fallback self a.

(** [config["providers"][provider]["models"][model]["cost_per_1k_tokens"]],
    [None] on a [KeyError]. *)
Definition price (c : Config) (provider model : str) : option float :=
  model_entry c provider model ≫= cost_per_1k_tokens.

(** [estimate_cost]: the price lookup and the arithmetic are inside a [try]
    that turns a [KeyError] into [0.0]; the two subscripts of [primary] are
    not. *)
Definition estimate_cost (self : LLMManager) (t : task)
    (input_tokens output_tokens : Z) : result float :=
  let task := task_name t in
  let a := assignment_of (config self) task in
  let primary := primary_of a in
  if bool_decide (primary = ∅) then inr 0%float
  else
    match subscript primary (u "provider") with
    | inl e => inl e
    | inr provider =>
        match subscript primary (u "model") with
        | inl e => inl e
        | inr model =>
            match price (config self) provider model with
            | Some cost_per_1k =>
                let total_tokens := (input_tokens + output_tokens)%Z in
                inr (PrimFloat.mul (truediv total_tokens 1000) cost_per_1k)
            | None => inr 0%float
            end
        end
    end.

(** [list(config.get("models", {}).keys())]: the names of a model table in
    the order of the configuration document, which the table itself does not
    record. *)
Variable model_names : gmap str ModelEntry -> list str.

Definition list_available_providers (self : LLMManager)
    : gmap str ProviderInfo.t :=
  (fun config : ProviderEntry =>
     let api_key_env := api_key_env config in
     let has_key :=
       if otruthy api_key_env
       then otruthy (getenv (default [] api_key_env)) else false in
     let models := model_names (default ∅ (models config)) in
     {| ProviderInfo.models := models;
        ProviderInfo.has_api_key := has_key;
        ProviderInfo.status :=
          if has_key then u "available" else u "missing_api_key" |})
  <$> default ∅ (providers (config self)).

End manager.

(** What every resolution of a client keeps: the configuration and the mode
    stay, the cache only grows, and a client that is returned is in the
    cache. *)
Definition grown (self self' : LLMManager) (o : option BaseChatModel) : Prop :=
  config self' = config self
  /\ development_mode self' = development_mode self
  /\ llm_cache self ⊆ llm_cache self'
  /\ forall llm, o = Some llm -> exists key, llm_cache self' !! key = Some llm.

End llm_manager.

(* ===================================================================== *)
(** * api/main.py *)
(* ===================================================================== *)

Module main.

Local Open Scope Z_scope.

(** A [datetime] is counted in microseconds; [datetime.now()] and
    [time.time()] are readings of the clock handed to the handlers. *)
Abbreviation datetime := Z (only parsing).

(** [(a - b).total_seconds()] *)
Definition total_seconds (a b : datetime) : float := truediv (a - b) 1000000.

Module ChatMessage.
Record t := { message : str; user_id : option str; session_id : option str }.
End ChatMessage.

Module ChatResponse.
Record t := {
  response : str;
  timestamp : datetime;
  processing_time : float;
  llm_provider : str;
  data_sources_used : list str;
  analysis_id : option str
}.
End ChatResponse.

Module AnalysisRequest.
Record t := { query : str; analysis_type : str; user_id : option str }.
End AnalysisRequest.

Module AnalysisStatus.
Record t := {
  analysis_id : str;
  status : str;
  progress : Z;
  current_step : str;
  estimated_time_remaining : option Z
}.
End AnalysisStatus.

Module InsightResult.
Record t := {
  insight_id : Z;
  title : str;
  content : str;
  confidence : float;
  data_sources : list str;
  recommendations : list str
}.
End InsightResult.

(** The dict stored per analysis.  The first six keys are set at creation;
    the others appear later ([session.get] gives [None] until then). *)
Module Session.
Record t := {
  status : str;
  progress : Z;
  current_step : str;
  query : str;
  start_time : datetime;
  insights : list InsightResult.t;
  estimated_time_remaining : option Z;
  completion_time : option datetime;
  total_processing_time : option float;
  error_message : option str
}.
End Session.

(** What [start_analysis] and [get_analysis_results] return. *)
Module Started.
Record t := { analysis_id : str; status : str; message : str }.
End Started.

Module Results.
Record t := {
  analysis_id : str;
  query : str;
  insights : list InsightResult.t;
  completion_time : option datetime;
  total_processing_time : option float
}.
End Results.

Inductive response (A : Type) :=
  | Ok (a : A)
  | HTTPException (status_code : Z) (detail : str).
Arguments Ok {A} a.
Arguments HTTPException {A} status_code detail.

Definition running : str := Eval vm_compute in u "running".
Definition completed : str := Eval vm_compute in u "completed".
Definition error : str := Eval vm_compute in u "error".

(** ** The process state

    [analysis_sessions] maps an id to a dict object; the background task of
    an analysis keeps its own reference to that object.  Objects live in
    [heap] and are named by their index; none is ever freed. *)
Record server := {
  heap : list Session.t;
  analysis_sessions : gmap str nat
}.

Definition empty_session : Session.t :=
  {| Session.status := []; Session.progress := 0; Session.current_step := [];
     Session.query := []; Session.start_time := 0; Session.insights := [];
     Session.estimated_time_remaining := None; Session.completion_time := None;
     Session.total_processing_time := None; Session.error_message := None |}.

(** The object at an address.  Every address that [analysis_sessions] or a
    task holds was allocated (see [wf_start_analysis], [wf_resume]); the
    default is never read. *)
Definition deref (srv : server) (r : nat) : Session.t :=
  default empty_session (heap srv !! r).

(** In-place mutation of the object at [r]. *)
Definition mutate (r : nat) (f : Session.t -> Session.t) (srv : server) : server :=
  {| heap := alter f r (heap srv); analysis_sessions := analysis_sessions srv |}.

(** ** POST /api/chat/message *)

Section converse.

(** [str.lower()], a table of the Unicode database. *)
Variable lower : str -> str.

(** [str(e)] for the [HTTPException] raised inside the handler's [try]. *)
Variable str_of_HTTPException : Z -> str -> str.

Variable ainvoke : world -> BaseChatModel -> list BaseMessage -> option AIMessage.

Definition assistant_prompt : str := u
"你是Prodscope产品推荐系统的AI助手，专门帮助用户分析产品数据、识别市场趋势、发现商业机会。请用中文回复，提供专业的产品分析洞察。".

(** [t0] and [t1] are the two readings of [time.time()], [now] the one of
    [datetime.now()]. *)
Definition send_chat_message (llm_service : option llm_service.LLMService)
    (chat_message : ChatMessage.t) (t0 t1 : float) (now : datetime) (w : world)
    : response ChatResponse.t * world :=
  let start_time := t0 in
  match llm_service with
  | None =>
      (HTTPException 500
         (u "消息处理失败: "
          ++ str_of_HTTPException 500 (u "LLM服务未初始化")), w)
  | Some service =>
      let '(llm_result, w') :=
        llm_service.chat ainvoke service (ChatMessage.message chat_message)
          (Some assistant_prompt) None w in
      let processing_time := PrimFloat.sub t1 start_time in
      let data_sources := [u "MindsDB"] in
      let data_sources :=
        if contains (u "搜索") (ChatMessage.message chat_message)
           || contains (u "trend") (lower (ChatMessage.message chat_message))
        then data_sources ++ [u "Vertex AI"] else data_sources in
      let data_sources :=
        if contains (u "趋势") (ChatMessage.message chat_message)
        then data_sources ++ [u "PyTrends"] else data_sources in
      (Ok {| ChatResponse.response := llm_service.response llm_result;
             ChatResponse.timestamp := now;
             ChatResponse.processing_time := processing_time;
             ChatResponse.llm_provider := llm_service.llm_provider llm_result;
             ChatResponse.data_sources_used := data_sources;
             ChatResponse.analysis_id := None |}, w')
  end.

End converse.

(** ** POST /api/analysis/start *)

(** The coroutine [run_six_layer_analysis(analysis_id, request)] between two
    runs of the event loop: scheduled and not yet run, suspended in the sleep
    of step [i] holding its session object, returned, or dead from an
    exception that left it. *)
Inductive task :=
  | Created (analysis_id : str) (request : AnalysisRequest.t)
  | Sleeping (session : nat) (analysis_id : str) (request : AnalysisRequest.t)
      (i : nat)
  | Finished
  | Crashed.

(** [f"analysis_{int(t)}"] *)
Definition id_of (t : float) : str :=
  u "analysis_" ++ str_of_int (int_of_float t).

(** [t] is the reading of [time.time()], [now] the one of [datetime.now()].
    Nothing in the handler's [try] raises. *)
Definition start_analysis (t : float) (now : datetime)
    (analysis_request : AnalysisRequest.t) (srv : server)
    : Started.t * server * task :=
  let analysis_id := id_of t in
  let session :=
    {| Session.status := running;
       Session.progress := 0;
       Session.current_step := u "初始化分析...";
       Session.query := AnalysisRequest.query analysis_request;
       Session.start_time := now;
       Session.insights := [];
       Session.estimated_time_remaining := None;
       Session.completion_time := None;
       Session.total_processing_time := None;
       Session.error_message := None |} in
  let srv' :=
    {| heap := heap srv ++ [session];
       analysis_sessions :=
         <[analysis_id := length (heap srv)]> (analysis_sessions srv) |} in
  ({| Started.analysis_id := analysis_id;
      Started.status := u "started";
      Started.message := u "六层洞察分析已启动" |},
   srv', Created analysis_id analysis_request).

(** ** GET /api/analysis/{analysis_id}/status *)

Definition get_analysis_status (srv : server) (analysis_id : str)
    : response AnalysisStatus.t :=
  match analysis_sessions srv !! analysis_id with
  | None => HTTPException 404 (u "分析ID不存在")
  | Some r =>
      let session := deref srv r in
      Ok {| AnalysisStatus.analysis_id := analysis_id;
            AnalysisStatus.status := Session.status session;
            AnalysisStatus.progress := Session.progress session;
            AnalysisStatus.current_step := Session.current_step session;
            AnalysisStatus.estimated_time_remaining :=
              Session.estimated_time_remaining session |}
  end.

(** ** GET /api/analysis/{analysis_id}/results *)

Definition get_analysis_results (srv : server) (analysis_id : str)
    : response Results.t :=
  match analysis_sessions srv !! analysis_id with
  | None => HTTPException 404 (u "分析ID不存在")
  | Some r =>
      let session := deref srv r in
      if bool_decide (Session.status session ≠ completed) then
        HTTPException 400 (u "分析尚未完成")
      else
        Ok {| Results.analysis_id := analysis_id;
              Results.query := Session.query session;
              Results.insights := Session.insights session;
              Results.completion_time := Session.completion_time session;
              Results.total_processing_time :=
                Session.total_processing_time session |}
  end.

(** ** The background task *)

Definition steps : list str :=
  [u "市场宏观趋势 & 视觉偏好分析";
   u "产品弱点 & 供应链痛点分析";
   u "潜在市场需求 & 产品创新机会";
   u "季节性销售 & 定价策略分析";
   u "产品功能 & 用户痛点关联性";
   u "品牌表现 & 竞争分析"].

(** [int((i / len(steps)) * 100)] *)
Definition step_progress (i : nat) : Z :=
  int_of_float
    (PrimFloat.mul (truediv (Z.of_nat i) (Z.of_nat (length steps))) 100).

(** The three assignments that open an iteration of the loop. *)
Definition begin_step (i : nat) (step : str) (s : Session.t) : Session.t :=
  {| Session.status := Session.status s;
     Session.progress := step_progress i;
     Session.current_step := u "正在执行: " ++ step;
     Session.query := Session.query s;
     Session.start_time := Session.start_time s;
     Session.insights := Session.insights s;
     Session.estimated_time_remaining :=
       Some ((Z.of_nat (length steps) - Z.of_nat i) * 30)%Z;
     Session.completion_time := Session.completion_time s;
     Session.total_processing_time := Session.total_processing_time s;
     Session.error_message := Session.error_message s |}.

Definition make_insight (request : AnalysisRequest.t) (i : nat) (step : str)
    : InsightResult.t :=
  {| InsightResult.insight_id := (Z.of_nat i + 1)%Z;
     InsightResult.title := step;
     InsightResult.content :=
       u "基于" ++ AnalysisRequest.query request ++ u "的" ++ step
       ++ u "分析结果...";
     InsightResult.confidence :=
       PrimFloat.add 0.85 (PrimFloat.mul (float_of_int (Z.of_nat i)) 0.02);
     InsightResult.data_sources := [u "MindsDB"; u "Vertex AI"; u "PyTrends"];
     InsightResult.recommendations :=
       map (fun j : Z =>
              u "建议" ++ str_of_int (j + 1) ++ u ": 针对" ++ step
              ++ u "的优化方案")
           [0; 1]%Z |}.

(** [session["insights"].append(insight)] *)
Definition append_insight (insight : InsightResult.t) (s : Session.t)
    : Session.t :=
  {| Session.status := Session.status s;
     Session.progress := Session.progress s;
     Session.current_step := Session.current_step s;
     Session.query := Session.query s;
     Session.start_time := Session.start_time s;
     Session.insights := Session.insights s ++ [insight];
     Session.estimated_time_remaining := Session.estimated_time_remaining s;
     Session.completion_time := Session.completion_time s;
     Session.total_processing_time := Session.total_processing_time s;
     Session.error_message := Session.error_message s |}.

(** The five assignments after the loop. *)
Definition complete (now : datetime) (s : Session.t) : Session.t :=
  {| Session.status := completed;
     Session.progress := 100;
     Session.current_step := u "分析完成";
     Session.query := Session.query s;
     Session.start_time := Session.start_time s;
     Session.insights := Session.insights s;
     Session.estimated_time_remaining := Session.estimated_time_remaining s;
     Session.completion_time := Some now;
     Session.total_processing_time :=
       Some (total_seconds now (Session.start_time s));
     Session.error_message := Session.error_message s |}.

(** The [except] handler. *)
Definition fail (e : str) (s : Session.t) : Session.t :=
  {| Session.status := error;
     Session.progress := Session.progress s;
     Session.current_step := Session.current_step s;
     Session.query := Session.query s;
     Session.start_time := Session.start_time s;
     Session.insights := Session.insights s;
     Session.estimated_time_remaining := Session.estimated_time_remaining s;
     Session.completion_time := Session.completion_time s;
     Session.total_processing_time := Session.total_processing_time s;
     Session.error_message := Some e |}.

(** The head of the loop for index [i]: either the next iteration starts and
    the task suspends in its sleep, or the loop is over and the analysis is
    completed. *)
Definition enter (r : nat) (analysis_id : str) (request : AnalysisRequest.t)
    (i : nat) (now : datetime) (srv : server) : task * server :=
  match steps !! i with
  | Some step =>
      (Sleeping r analysis_id request i, mutate r (begin_step i step) srv)
  | None => (Finished, mutate r (complete now) srv)
  end.

(** One run of the task by the event loop, up to its next suspension.
    [fault] is what the pending [await] delivers: [None] when it returns,
    [Some e] when the step's work raises an exception whose text is [e]
    (a task that was never run has no pending [await]).  [now] is the reading
    of [datetime.now()], used on completion. *)
Definition resume (t : task) (fault : option str) (now : datetime)
    (srv : server) : task * server :=
  match t with
  | Created analysis_id request =>
      match analysis_sessions srv !! analysis_id with
      | Some r => enter r analysis_id request 0 now srv
      | None => (Crashed, srv)   (* KeyError, then [session] is unbound in the handler *)
      end
  | Sleeping r analysis_id request i =>
      match fault with
      | None =>
          let step := default [] (steps !! i) in
          let srv := mutate r (append_insight (make_insight request i step)) srv in
          enter r analysis_id request (S i) now srv
      | Some e => (Finished, mutate r (fail e) srv)
      end
  | Finished => (Finished, srv)
  | Crashed => (Crashed, srv)
  end.

(** A series of runs of the task: where it stands after all of [evs],
    and the state of the process then. *)
Definition exec (t : task) (evs : list (option str * datetime)) (srv : server)
    : task * server :=
  foldl (fun ts ev => resume ts.1 ev.1 ev.2 ts.2) (t, srv) evs.

(** The insights of a session whose first [k] steps are done. *)
Definition insights_of (request : AnalysisRequest.t) (k : nat)
    : list InsightResult.t :=
  imap (make_insight request) (take k steps).

(** The session while its task sleeps in step [k], the steps before it
    done. *)
Definition in_progress (request : AnalysisRequest.t) (now : datetime)
    (k : nat) (step : str) : Session.t :=
  {| Session.status := running;
     Session.progress := step_progress k;
     Session.current_step := u "正在执行: " ++ step;
     Session.query := AnalysisRequest.query request;
     Session.start_time := now;
     Session.insights := insights_of request k;
     Session.estimated_time_remaining :=
       Some ((Z.of_nat (length steps) - Z.of_nat k) * 30);
     Session.completion_time := None;
     Session.total_processing_time := None;
     Session.error_message := None |}.

(** No address stored under an id dangles. *)
Definition wf (srv : server) : Prop :=
  forall (analysis_id : str) (r : nat),
    analysis_sessions srv !! analysis_id = Some r -> (r < length (heap srv))%nat.

(** What a task in state [t] leaves in the session object [s] it runs for,
    when that task belongs to the analysis filed under [analysis_id] at
    address [r]. *)
Definition in_step (analysis_id : str) (r : nat) (t : task) (s : Session.t)
    : Prop :=
  match t with
  | Created analysis_id' _ =>
      analysis_id' = analysis_id
      /\ Session.status s = running /\ Session.progress s = 0
  | Sleeping r' _ _ i =>
      r' = r /\ (i < length steps)%nat
      /\ Session.status s = running /\ Session.progress s = step_progress i
  | Finished =>
      (Session.status s = completed /\ Session.progress s = 100)
      \/ (Session.status s = error /\ 0 <= Session.progress s < 100)
  | Crashed => False
  end.

(** ** The event loop

    One thread serves the start requests and runs the tasks that
    [asyncio.create_task] has scheduled, one at a time and each up to its
    next suspension; status and results requests only read the state. *)
Inductive event :=
  | Serve (t : float) (now : datetime) (request : AnalysisRequest.t)
  | Run (k : nat) (fault : option str) (now : datetime).

Record process := { state : server; tasks : list task }.

Definition boot : process :=
  {| state := {| heap := []; analysis_sessions := ∅ |}; tasks := [] |}.

Definition step (p : process) (e : event) : process :=
  match e with
  | Serve t now request =>
      let started := start_analysis t now request (state p) in
      {| state := started.1.2; tasks := tasks p ++ [started.2] |}
  | Run k fault now =>
      match tasks p !! k with
      | Some task =>
          let resumed := resume task fault now (state p) in
          {| state := resumed.2; tasks := <[k := resumed.1]> (tasks p) |}
      | None => p
      end
  end.

(** The process after each of a series of events, and after all of them. *)
Fixpoint history (p : process) (evs : list event) : list process :=
  match evs with
  | [] => []
  | e :: rest => step p e :: history (step p e) rest
  end.

Definition finally (p : process) (evs : list event) : process := foldl step p evs.

(** The event is a start request that is given the id [analysis_id]. *)
Definition issues (analysis_id : str) (e : event) : Prop :=
  match e with
  | Serve t _ _ => id_of t = analysis_id
  | Run _ _ _ => False
  end.


(** What the [k]-th task is delivered, run by run. *)
Definition runs_of (k : nat) (evs : list event) : list (option str * datetime) :=
  omap (fun e => match e with
                 | Run k' fault now =>
                     if decide (k' = k) then Some (fault, now) else None
                 | Serve _ _ _ => None
                 end) evs.

(** Facts of every reachable state: no id names a missing object, no two
    ids name the same object, no task holds a missing object. *)
Definition sound (p : process) : Prop :=
  wf (state p)
  /\ (forall (k1 k2 : str) (r : nat),
        analysis_sessions (state p) !! k1 = Some r ->
        analysis_sessions (state p) !! k2 = Some r -> k1 = k2)
  /\ (forall (j r : nat) k q i,
        tasks p !! j = Some (Sleeping r k q i) ->
        (r < length (heap (state p)))%nat).

(** No task is waiting to look [analysis_id] up. *)
Definition unissued (analysis_id : str) (p : process) : Prop :=
  forall (j : nat) q, tasks p !! j <> Some (Created analysis_id q).

(** Task [t] neither holds the object at [r] nor will look it up under
    [analysis_id]. *)
Definition foreign (analysis_id : str) (r : nat) (t : task) : Prop :=
  match t with
  | Created k _ => k <> analysis_id
  | Sleeping r' _ _ _ => r' <> r
  | Finished | Crashed => True
  end.

(** The session filed under [analysis_id] lives at [r], the [j]-th task is
    the one that runs for it, and no other task touches it. *)
Definition owned (analysis_id : str) (r j : nat) (p : process) : Prop :=
  analysis_sessions (state p) !! analysis_id = Some r
  /\ (r < length (heap (state p)))%nat
  /\ (exists t, tasks p !! j = Some t
                /\ in_step analysis_id r t (deref (state p) r))
  /\ (forall (j' : nat) t, j' <> j -> tasks p !! j' = Some t ->
        foreign analysis_id r t).

(** Every task that has not run yet will find its id in the table, and no
    task has died of a missing one. *)
Definition bound (p : process) : Prop :=
  forall (j : nat) t, tasks p !! j = Some t ->
    match t with
    | Created k _ => is_Some (analysis_sessions (state p) !! k)
    | Crashed => False
    | _ => True
    end.

End main.

(* ===================================================================== *)
(** * Reference values and concrete deployments *)
(* ===================================================================== *)

Module exact.

(** The rational a finite double stands for (zero for the others). *)
Definition Q_of_float (f : float) : Q :=
  match Prim2SF f with
  | S754_finite s m e =>
      let v := if (0 <=? e)%Z then inject_Z (Z.pos m * 2 ^ e)
               else Qmake (Z.pos m) (2 ^ Z.to_pos (- e))%positive in
      if s then Qopp v else v
  | _ => 0%Q
  end.

(** The formula of [estimate_cost] evaluated over the rationals, where no
    operation rounds. *)
Definition estimate (rate : float) (input_tokens output_tokens : Z) : Q :=
  (inject_Z (input_tokens + output_tokens) / 1000 * Q_of_float rate)%Q.

End exact.

(** ** Concrete deployments *)

Module examples.

Import llm_service.

(** An environment with a Google and a DeepSeek key. *)
Definition env_two (name : str) : option str :=
  if bool_decide (name = u "GOOGLE_API_KEY") then Some (u "AIza-live-key")
  else if bool_decide (name = u "DEEPSEEK_API_KEY") then Some (u "sk-live-key")
  else None.

(** An environment where the Google key still holds the placeholder of the
    sample file. *)
Definition env_placeholder (name : str) : option str :=
  if bool_decide (name = u "GOOGLE_API_KEY")
  then Some (u "your_google_api_key_here")
  else None.

Definition always_constructs (c : BaseChatModel) : bool := true.

Definition google_client : BaseChatModel :=
  {| cls := ChatGoogleGenerativeAI; api_key := u "AIza-live-key";
     base_url := None; langchain.model := u "gemini-1.5-flash";
     temperature := 0.7 |}.

Definition deepseek_client : BaseChatModel :=
  {| cls := ChatOpenAI; api_key := u "sk-live-key";
     base_url := Some (u "https://api.deepseek.com");
     langchain.model := u "deepseek-chat"; temperature := 0.7 |}.

Definition service_two : LLMService := new env_two always_constructs.

Definition reply : AIMessage :=
  {| content := u "ok"; token_usage := None; model_name := Some (u "deepseek-chat") |}.

(** Google's endpoint times out; every other client answers. *)
Definition google_down (w : world) (llm : BaseChatModel) (ms : list BaseMessage)
    : option AIMessage :=
  if chat_class_eqb (cls llm) ChatGoogleGenerativeAI then None else Some reply.

(** A process that has served no request yet, and the request of the
    end-to-end scenario. *)
Definition fresh_server : main.server :=
  {| main.heap := []; main.analysis_sessions := ∅ |}.

Definition earbuds : main.AnalysisRequest.t :=
  {| main.AnalysisRequest.query := u "wireless earbuds market";
     main.AnalysisRequest.analysis_type := u "six_layer_insight";
     main.AnalysisRequest.user_id := Some (u "default") |}.

(** The built-in configuration with one task routed: trend analysis goes
    to Gemini Flash first and to GPT-4o mini as fallback. *)
Definition config_routed : llm_manager.Config :=
  {| llm_manager.providers := llm_manager.providers llm_manager._get_default_config;
     llm_manager.task_assignments := Some {[ u "trend_analysis" :=
       {[ u "primary" :=
            ({[ u "provider" := u "google"; u "model" := u "gemini-1.5-flash" ]}
               : gmap str str);
          u "fallback" :=
            ({[ u "provider" := u "openai"; u "model" := u "gpt-4o-mini" ]}
               : gmap str str) ]} ]};
     llm_manager.settings := llm_manager.settings llm_manager._get_default_config;
     llm_manager.override_all_to := None |}.

(** [LLMManager()] over a configuration, with [DEBUG] unset. *)
Definition manager_of (c : llm_manager.Config) : llm_manager.LLMManager :=
  {| llm_manager.config := c; llm_manager.llm_cache := ∅;
     llm_manager.development_mode := false |}.

(** A second request, and a life of the process around the analysis of the
    end-to-end scenario: one analysis is already under way when it starts,
    a third one is started while it runs, and the tasks of the three are run
    in turn. *)
Definition speakers : main.AnalysisRequest.t :=
  {| main.AnalysisRequest.query := u "bluetooth speakers";
     main.AnalysisRequest.analysis_type := u "six_layer_insight";
     main.AnalysisRequest.user_id := Some (u "default") |}.

Definition earlier : list main.event :=
  [main.Serve 1700000000.25 1700000000250000 speakers;
   main.Run 0 None 1700000000260000].

Definition later : list main.event :=
  [main.Run 1 None 1700000003510000;
   main.Run 0 None 1700000003520000;
   main.Run 1 None 1700000006510000;
   main.Serve 1700000007.5 1700000007500000 speakers;
   main.Run 0 (Some (u "timeout")) 1700000006520000;
   main.Run 2 None 1700000007510000;
   main.Run 1 None 1700000009510000;
   main.Run 1 None 1700000012510000;
   main.Run 2 None 1700000010510000;
   main.Run 1 None 1700000015510000;
   main.Run 1 None 1700000018510000;
   main.Run 0 None 1700000018520000;
   main.Run 1 None 1700000021510000].

(** The same, with the third step of the analysis failing. *)
Definition later_failing : list main.event :=
  [main.Run 1 None 1700000003510000;
   main.Run 0 None 1700000003520000;
   main.Run 1 None 1700000006510000;
   main.Serve 1700000007.5 1700000007500000 speakers;
   main.Run 1 None 1700000009510000;
   main.Run 2 None 1700000007510000;
   main.Run 1 (Some (u "timeout")) 1700000012510000;
   main.Run 2 None 1700000010510000;
   main.Run 1 None 1700000015510000].

(** What follows the failure in that schedule. *)
Definition after_failure : list main.event :=
  [main.Run 1 None 1700000018510000;
   main.Serve 1700000020.5 1700000020500000 speakers;
   main.Run 0 None 1700000021520000;
   main.Run 3 None 1700000021530000;
   main.Run 1 None 1700000024510000].

(** An environment with an OpenAI key only, and one with a Google and an
    OpenAI key. *)
Definition env_openai (name : str) : option str :=
  if bool_decide (name = u "OPENAI_API_KEY") then Some (u "sk-openai-key")
  else None.

Definition env_google_openai (name : str) : option str :=
  if bool_decide (name = u "GOOGLE_API_KEY") then Some (u "AIza-live-key")
  else if bool_decide (name = u "OPENAI_API_KEY") then Some (u "sk-openai-key")
  else None.

Definition openai_client : BaseChatModel :=
  {| cls := ChatOpenAI; api_key := u "sk-openai-key"; base_url := None;
     langchain.model := u "gpt-4o-mini"; temperature := 0.7 |}.

(** The routed configuration in development mode, with every task pinned to
    GPT-4o mini. *)
Definition manager_pinned : llm_manager.LLMManager :=
  {| llm_manager.config :=
       {| llm_manager.providers := llm_manager.providers config_routed;
          llm_manager.task_assignments :=
            llm_manager.task_assignments config_routed;
          llm_manager.settings := llm_manager.settings config_routed;
          llm_manager.override_all_to :=
            Some {[ u "provider" := u "openai"; u "model" := u "gpt-4o-mini" ]} |};
     llm_manager.llm_cache := ∅;
     llm_manager.development_mode := true |}.




(** An environment without any variable, and the model names of a table in
    the order of their code points. *)
Definition env_none (name : str) : option str := None.

Definition names_sorted (ms : gmap str llm_manager.ModelEntry) : list str :=
  (map_to_list ms).*1.

End examples.

(* ===================================================================== *)
(** * Properties of the provider layer *)
(* ===================================================================== *)

Section chat_properties.

Import llm_service.

Variable ainvoke : world -> BaseChatModel -> list BaseMessage -> option AIMessage.

Lemma mock_is_tagged message :
  llm_provider (_generate_mock_response message) = u "mock".
Proof. reflexivity. Qed.

(** A call whose invocation raises ends in the mock reply, after that one
    invocation. *)
Lemma call_llm_raises llm name message system_prompt w :
  ainvoke w llm (build_messages message system_prompt) = None ->
  call_llm ainvoke llm name message system_prompt w
  = (_generate_mock_response message,
     w ++ [(llm, build_messages message system_prompt)]).
Proof. intros H. unfold call_llm. now rewrite H. Qed.

(** Whatever the outcome, [call_llm] invokes its client once and no other. *)
Lemma call_llm_log llm name message system_prompt w :
  snd (call_llm ainvoke llm name message system_prompt w)
  = w ++ [(llm, build_messages message system_prompt)].
Proof. unfold call_llm. now destruct (ainvoke _ _ _). Qed.

(** [chat] makes at most one invocation, whoever it selects. *)
Lemma chat_invokes_at_most_once self message system_prompt provider w :
  let r := chat ainvoke self message system_prompt provider w in
  (r = (_generate_mock_response message, w))
  \/ (exists llm,
        snd r = w ++ [(llm, build_messages message system_prompt)]
        /\ (ainvoke w llm (build_messages message system_prompt) = None ->
            fst r = _generate_mock_response message)).
Proof.
  assert (Hcall : forall llm name,
    exists llm',
      snd (call_llm ainvoke llm name message system_prompt w)
      = w ++ [(llm', build_messages message system_prompt)]
      /\ (ainvoke w llm' (build_messages message system_prompt) = None ->
          fst (call_llm ainvoke llm name message system_prompt w)
          = _generate_mock_response message)).
  { intros llm name. exists llm. split; [apply call_llm_log|].
    intros H. now rewrite call_llm_raises. }
  unfold chat.
  destruct provider as [p|]; simpl;
    [destruct (truthy p); simpl;
       [destruct (dict_get (providers self) p); [right; apply Hcall|]|]|];
    (destruct (dict_get (providers self) (u "primary"));
       [right; apply Hcall|]);
    (destruct (providers self) as [|[? ?] ?]; [now left|right; apply Hcall]).
Qed.

(** C2 (registry side): an environment without credentials registers
    nothing. *)
Lemma no_credentials_no_providers getenv constructs :
  (forall name, getenv name = None) ->
  _initialize_providers getenv constructs = [].
Proof.
  intros H. unfold _initialize_providers. cbv zeta.
  rewrite (H (u "OPENAI_API_KEY")), (H (u "ANTHROPIC_API_KEY")),
    (H (u "GOOGLE_API_KEY")), (H (u "GEMINI_API_KEY")), (H (u "XAI_API_KEY")),
    (H (u "DEEPSEEK_API_KEY")), (H (u "MOONSHOT_API_KEY")),
    (H (u "VOLCENGINE_API_KEY")).
  reflexivity.
Qed.

(** C2. With zero providers registered, [chat] answers with the mock reply
    without invoking anything, and the Converse handler returns a response
    tagged [mock]; neither has a failure outcome. *)
Theorem converse_without_providers
    (lower : str -> str) (str_of_HTTPException : Z -> str -> str)
    (chat_message : main.ChatMessage.t) (system_prompt provider : option str)
    (t0 t1 : float) (now : main.datetime) (w : world) :
  chat ainvoke {| providers := [] |} (main.ChatMessage.message chat_message)
       system_prompt provider w
  = (_generate_mock_response (main.ChatMessage.message chat_message), w)
  /\ exists r,
       main.send_chat_message lower str_of_HTTPException ainvoke
         (Some {| providers := [] |}) chat_message t0 t1 now w
       = (main.Ok r, w)
       /\ main.ChatResponse.llm_provider r = u "mock"
       /\ main.ChatResponse.response r
          = response (_generate_mock_response (main.ChatMessage.message chat_message)).
Proof.
  split.
  - unfold chat; simpl. destruct provider as [p|]; [|reflexivity].
    now destruct (truthy p).
  - unfold main.send_chat_message, chat; simpl. eexists. split; [reflexivity|].
    split; reflexivity.
Qed.

(** C10. Naming a provider that is not in the registry is not an error: the
    call goes to the [primary] entry, else to the first registered provider,
    else it is answered by the mock reply, exactly as when no provider is
    named. *)
Theorem chat_unknown_provider_ignored self message system_prompt p w :
  dict_get (providers self) p = None ->
  chat ainvoke self message system_prompt (Some p) w
  = chat ainvoke self message system_prompt None w
  /\ chat ainvoke self message system_prompt (Some p) w
     = match dict_get (providers self) (u "primary") with
       | Some llm => call_llm ainvoke llm (u "primary") message system_prompt w
       | None =>
           match providers self with
           | (llm_name, llm) :: _ =>
               call_llm ainvoke llm llm_name message system_prompt w
           | [] => (_generate_mock_response message, w)
           end
       end.
Proof.
  intros H. unfold chat. rewrite H. simpl.
  split; now destruct (truthy p).
Qed.

End chat_properties.


Section chat_examples.

Import llm_service examples.

Example service_two_registry :
  providers service_two
  = [(u "google", google_client); (u "deepseek", deepseek_client);
     (u "primary", deepseek_client)].
Proof. vm_compute. reflexivity. Qed.

(** C1, as stated, fails: the task [market_trends] is routed to the Google
    client, whose invocation raises; the DeepSeek client, registered and
    answering, is not invoked, and the caller gets the mock reply. *)
Lemma fallback_not_invoked_after_failure :
  let r := analyze_with_best_llm google_down service_two
             (u "market_trends") (u "hello") [] in
  dict_get (providers service_two) (u "google") = Some google_client
  /\ dict_get (providers service_two) (u "primary") = Some deepseek_client
  /\ google_down [] google_client
       (build_messages (u "hello")
          (Some (_get_task_specific_prompt (u "market_trends")))) = None
  /\ google_down (snd r) deepseek_client
       (build_messages (u "hello")
          (Some (_get_task_specific_prompt (u "market_trends")))) = Some reply
  /\ invocations google_client (snd r) = 1%nat
  /\ invocations deepseek_client (snd r) = 0%nat
  /\ fst r = _generate_mock_response (u "hello").
Proof. vm_compute. repeat apply conj; reflexivity. Qed.

(** C10 at a concrete registry: [openai] is not registered, the call is
    served under the name [primary]. *)
Lemma chat_unknown_provider_ignored_witness :
  dict_get (providers service_two) (u "openai") = None
  /\ (chat google_down service_two (u "hello") None (Some (u "openai")) []
      = chat google_down service_two (u "hello") None None []
      /\ chat google_down service_two (u "hello") None (Some (u "openai")) []
         = match dict_get (providers service_two) (u "primary") with
           | Some llm => call_llm google_down llm (u "primary") (u "hello") None []
           | None =>
               match providers service_two with
               | (llm_name, llm) :: _ =>
                   call_llm google_down llm llm_name (u "hello") None []
               | [] => (_generate_mock_response (u "hello"), [])
               end
           end).
Proof.
  split.
  - vm_compute. reflexivity.
  - apply (chat_unknown_provider_ignored google_down service_two (u "hello")
             None (u "openai") []).
    vm_compute. reflexivity.
Defined.

Example chat_unknown_provider_served_by_primary :
  llm_provider
    (fst (chat google_down service_two (u "hello") None (Some (u "openai")) []))
  = u "primary".
Proof. vm_compute. reflexivity. Qed.

End chat_examples.

(* ===================================================================== *)
(** * Properties of the task router and the cost estimator *)
(* ===================================================================== *)

Section manager_properties.

Import llm_manager.

Variable getenv : str -> option str.
Variable constructs : BaseChatModel -> bool.

Lemma subscript_Some (d : candidate) k v : d !! k = Some v -> subscript d k = inr v.
Proof. intros H. unfold subscript. now rewrite H. Qed.

Lemma candidate_nonempty (d : gmap str str) k v : d !! k = Some v -> d ≠ ∅.
Proof. intros H ->. now rewrite lookup_empty in H. Qed.

Lemma assignment_nonempty (a : gmap str (gmap str str)) k v :
  a !! k = Some v -> a ≠ ∅.
Proof. intros H ->. now rewrite lookup_empty in H. Qed.

(** What the router returns for a task with both candidates configured
    when no development override is in force: the primary's client when
    [get_llm] obtains it, and only otherwise, if fallback is enabled, the
    fallback's (else the default client). *)
Lemma get_llm_for_task_configured (self : LLMManager) (t : task)
    (a : assignment) (p f : candidate) (pp pm fp fm : str) :
  development_mode self = false
  \/ default ∅ (override_all_to (config self)) = ∅ ->
  assignment_of (config self) (task_name t) = a ->
  a !! u "primary" = Some p ->
  p !! u "provider" = Some pp -> p !! u "model" = Some pm ->
  a !! u "fallback" = Some f ->
  f !! u "provider" = Some fp -> f !! u "model" = Some fm ->
  get_llm_for_task getenv constructs self t
  = inr match get_llm getenv constructs self pp pm with
        | (Some llm, self') => (Some llm, self')
        | (None, self') =>
            if default true (settings (config self') ≫= fallback_enabled) then
              match get_llm getenv constructs self' fp fm with
              | (Some llm, self'') => (Some llm, self'')
              | (None, self'') => _get_default_llm getenv constructs self''
              end
            else _get_default_llm getenv constructs self'
        end.
Proof.
  intros Hdev Ha Hp Hpp Hpm Hf Hfp Hfm.
  assert (Hov : (if development_mode self
                 then default ∅ (override_all_to (config self)) else ∅)
                = (∅ : gmap str str)).
  { destruct Hdev as [-> | H]; [reflexivity|].
    now destruct (development_mode self). }
  unfold get_llm_for_task. cbv zeta. rewrite Hov, Ha.
  rewrite (bool_decide_eq_true_2 (∅ = ∅)) by reflexivity. simpl.
  rewrite (bool_decide_eq_false_2 _ (assignment_nonempty _ _ _ Hp)).
  unfold primary_of. rewrite Hp. simpl.
  rewrite (bool_decide_eq_false_2 _ (candidate_nonempty _ _ _ Hpp)). simpl.
  unfold get_llm_of at 1. rewrite (subscript_Some _ _ _ Hpp), (subscript_Some _ _ _ Hpm).
  destruct (get_llm getenv constructs self pp pm) as [[llm|] self'] eqn:E;
    [reflexivity|].
  assert (self' = self) as ->.
  { unfold get_llm in E.
    destruct (llm_cache self !! cache_key pp pm); [discriminate|].
    destruct (_create_llm _ _ _ _ _); [discriminate|]. now inversion E. }
  unfold try_fallback. rewrite Hf. simpl.
  rewrite (bool_decide_eq_false_2 _ (candidate_nonempty _ _ _ Hfp)).
  destruct (default true (settings (config self) ≫= fallback_enabled)); simpl;
    [|reflexivity].
  unfold get_llm_of. rewrite (subscript_Some _ _ _ Hfp), (subscript_Some _ _ _ Hfm).
  now destruct (get_llm getenv constructs self fp fm) as [[?|] ?].
Qed.

(** A failed [get_llm] leaves the manager as it was. *)
Lemma get_llm_None (self self' : LLMManager) (provider model : str) :
  get_llm getenv constructs self provider model = (None, self') -> self' = self.
Proof.
  unfold get_llm.
  destruct (llm_cache self !! cache_key provider model); [discriminate|].
  destruct (_create_llm _ _ _ _ _); [discriminate|]. now intros [= <-].
Qed.

(** With the development override in force, every task is resolved to the
    override's client. *)
Lemma get_llm_for_task_overridden (self : LLMManager) (t : task)
    (d : candidate) (op om : str) :
  development_mode self = true ->
  override_all_to (config self) = Some d ->
  d !! u "provider" = Some op -> d !! u "model" = Some om ->
  get_llm_for_task getenv constructs self t
  = inr (get_llm getenv constructs self op om).
Proof.
  intros Hdev Hov Hop Hom. unfold get_llm_for_task. cbv zeta.
  rewrite Hdev, Hov. cbn [default from_option id].
  rewrite (bool_decide_eq_false_2 _ (candidate_nonempty _ _ _ Hop)).
  cbn [negb]. unfold get_llm_of.
  now rewrite (subscript_Some _ _ _ Hop), (subscript_Some _ _ _ Hom).
Qed.

End manager_properties.

(** C1 (amended). For a task with a primary and a fallback candidate, each
    naming a provider and a model, the fallback is consulted when the client
    is resolved, not when a call fails.  When no development override is in
    force (development mode is off, or no override is configured), the
    router returns the primary's client whenever [get_llm] obtains it; when
    [get_llm] does not obtain it, the router returns the fallback's client if
    fallback is enabled and [get_llm] obtains that one, and the default
    client otherwise.  When the development override is in force, the router
    returns the override's client for every task.  And [chat] makes at most
    one invocation per call, answering with the mock reply, and invoking no
    other client, when that invocation raises. *)
Theorem fallback_only_at_resolution
    (getenv : str -> option str) (constructs : BaseChatModel -> bool)
    (ainvoke : world -> BaseChatModel -> list BaseMessage -> option AIMessage)
    (self : llm_manager.LLMManager) (t : llm_manager.task)
    (a : llm_manager.assignment) (p f : llm_manager.candidate)
    (pp pm fp fm : str) :
  llm_manager.assignment_of (llm_manager.config self) (llm_manager.task_name t) = a ->
  a !! u "primary" = Some p ->
  p !! u "provider" = Some pp -> p !! u "model" = Some pm ->
  a !! u "fallback" = Some f ->
  f !! u "provider" = Some fp -> f !! u "model" = Some fm ->
  (llm_manager.development_mode self = false
   \/ default ∅ (llm_manager.override_all_to (llm_manager.config self)) = ∅ ->
   (forall llm self',
      llm_manager.get_llm getenv constructs self pp pm = (Some llm, self') ->
      llm_manager.get_llm_for_task getenv constructs self t
      = inr (Some llm, self'))
   /\ ((llm_manager.get_llm getenv constructs self pp pm).1 = None ->
       llm_manager.get_llm_for_task getenv constructs self t
       = inr (if default true (llm_manager.settings (llm_manager.config self)
                               ≫= llm_manager.fallback_enabled) then
                match llm_manager.get_llm getenv constructs self fp fm with
                | (Some llm, self') => (Some llm, self')
                | (None, self') =>
                    llm_manager._get_default_llm getenv constructs self'
                end
              else llm_manager._get_default_llm getenv constructs self)))
  /\ (forall (d : llm_manager.candidate) (op om : str),
        llm_manager.development_mode self = true ->
        llm_manager.override_all_to (llm_manager.config self) = Some d ->
        d !! u "provider" = Some op -> d !! u "model" = Some om ->
        llm_manager.get_llm_for_task getenv constructs self t
        = inr (llm_manager.get_llm getenv constructs self op om))
  /\ (forall service message system_prompt provider w,
        let r := llm_service.chat ainvoke service message system_prompt provider w in
        r = (llm_service._generate_mock_response message, w)
        \/ exists llm,
             snd r = w ++ [(llm, llm_service.build_messages message system_prompt)]
             /\ (ainvoke w llm (llm_service.build_messages message system_prompt) = None ->
                 fst r = llm_service._generate_mock_response message)).
Proof.
  intros Ha Hp Hpp Hpm Hf Hfp Hfm.
  split; [|split].
  - intros Hdev.
    pose proof (get_llm_for_task_configured getenv constructs self t a p f
                  pp pm fp fm Hdev Ha Hp Hpp Hpm Hf Hfp Hfm) as H.
    split.
    + intros llm self' E. now rewrite H, E.
    + intros E.
      destruct (llm_manager.get_llm getenv constructs self pp pm)
        as [[llm|] self'] eqn:E'; [discriminate E|].
      apply get_llm_None in E'. subst self'. exact H.
  - intros d op om Hdev Hov Hop Hom.
    now apply (get_llm_for_task_overridden getenv constructs self t d op om).
  - intros. apply chat_invokes_at_most_once.
Qed.

Section router_examples.

Import llm_manager examples.

(** C1 (amended) at the routed configuration.  With a Google key the
    primary's client, Gemini, is obtained and the fallback is not consulted;
    with an OpenAI key only, Gemini cannot be obtained and the fallback's
    client, GPT-4o mini, is returned; and in development mode with every
    task pinned to GPT-4o mini, that client is returned although Gemini's
    can be obtained. *)
Lemma fallback_only_at_resolution_witness :
  (get_llm_for_task env_two always_constructs (manager_of config_routed)
     (inl TREND_ANALYSIS)
   = inr (get_llm env_two always_constructs (manager_of config_routed)
            (u "google") (u "gemini-1.5-flash"))
   /\ (get_llm env_two always_constructs (manager_of config_routed)
         (u "google") (u "gemini-1.5-flash")).1
      = Some google_client)
  /\ ((get_llm env_openai always_constructs (manager_of config_routed)
         (u "google") (u "gemini-1.5-flash")).1 = None
      /\ get_llm_for_task env_openai always_constructs
           (manager_of config_routed) (inl TREND_ANALYSIS)
         = inr (get_llm env_openai always_constructs (manager_of config_routed)
                  (u "openai") (u "gpt-4o-mini"))
      /\ (get_llm env_openai always_constructs (manager_of config_routed)
            (u "openai") (u "gpt-4o-mini")).1
         = Some openai_client)
  /\ ((get_llm env_google_openai always_constructs manager_pinned
         (u "google") (u "gemini-1.5-flash")).1 = Some google_client
      /\ get_llm_for_task env_google_openai always_constructs manager_pinned
           (inl TREND_ANALYSIS)
         = inr (get_llm env_google_openai always_constructs manager_pinned
                  (u "openai") (u "gpt-4o-mini"))
      /\ (get_llm env_google_openai always_constructs manager_pinned
            (u "openai") (u "gpt-4o-mini")).1
         = Some openai_client).
Proof.
  split; [|split].
  - destruct (fallback_only_at_resolution env_two always_constructs google_down
      (manager_of config_routed) (inl TREND_ANALYSIS)
      (assignment_of config_routed (u "trend_analysis"))
      {[ u "provider" := u "google"; u "model" := u "gemini-1.5-flash" ]}
      {[ u "provider" := u "openai"; u "model" := u "gpt-4o-mini" ]}
      (u "google") (u "gemini-1.5-flash") (u "openai") (u "gpt-4o-mini")
      eq_refl) as [H _]; try (vm_compute; reflexivity).
    destruct H as [H _]; [left; reflexivity|].
    split; [|vm_compute; reflexivity].
    rewrite (H google_client
               (get_llm env_two always_constructs (manager_of config_routed)
                  (u "google") (u "gemini-1.5-flash")).2)
      by (vm_compute; reflexivity).
    vm_compute. reflexivity.
  - destruct (fallback_only_at_resolution env_openai always_constructs google_down
      (manager_of config_routed) (inl TREND_ANALYSIS)
      (assignment_of config_routed (u "trend_analysis"))
      {[ u "provider" := u "google"; u "model" := u "gemini-1.5-flash" ]}
      {[ u "provider" := u "openai"; u "model" := u "gpt-4o-mini" ]}
      (u "google") (u "gemini-1.5-flash") (u "openai") (u "gpt-4o-mini")
      eq_refl) as [H _]; try (vm_compute; reflexivity).
    destruct H as [_ H]; [left; reflexivity|].
    split; [vm_compute; reflexivity|].
    split; [|vm_compute; reflexivity].
    rewrite H by (vm_compute; reflexivity).
    vm_compute. reflexivity.
  - destruct (fallback_only_at_resolution env_google_openai always_constructs
      google_down manager_pinned (inl TREND_ANALYSIS)
      (assignment_of config_routed (u "trend_analysis"))
      {[ u "provider" := u "google"; u "model" := u "gemini-1.5-flash" ]}
      {[ u "provider" := u "openai"; u "model" := u "gpt-4o-mini" ]}
      (u "google") (u "gemini-1.5-flash") (u "openai") (u "gpt-4o-mini")
      eq_refl) as (_ & H & _); try (vm_compute; reflexivity).
    split; [vm_compute; reflexivity|].
    split; [|vm_compute; reflexivity].
    apply (H {[ u "provider" := u "openai"; u "model" := u "gpt-4o-mini" ]});
      vm_compute; reflexivity.
Defined.

End router_examples.

Section cost_properties.

Import llm_manager.

(** The estimate of a priced task is the double-precision product the code
    writes. *)
Lemma estimate_cost_priced (self : LLMManager) (t : task) (p : gmap str str)
    (provider model : str) (rate : float) (a b : Z) :
  primary_of (assignment_of (config self) (task_name t)) = p ->
  p !! u "provider" = Some provider ->
  p !! u "model" = Some model ->
  price (config self) provider model = Some rate ->
  estimate_cost self t a b
  = inr (PrimFloat.mul (truediv (a + b) 1000) rate).
Proof.
  intros Hp Hpp Hpm Hr. unfold estimate_cost. rewrite Hp.
  rewrite (bool_decide_eq_false_2 _ (candidate_nonempty _ _ _ Hpp)).
  rewrite (subscript_Some _ _ _ Hpp), (subscript_Some _ _ _ Hpm), Hr.
  reflexivity.
Qed.

(** Over the rationals the formula is additive. *)
Lemma exact_estimate_additive (rate : float) (a1 b1 a2 b2 : Z) :
  (exact.estimate rate a1 b1 + exact.estimate rate a2 b2
   == exact.estimate rate (a1 + a2) (b1 + b2))%Q.
Proof.
  unfold exact.estimate.
  replace (a1 + a2 + (b1 + b2))%Z with ((a1 + b1) + (a2 + b2))%Z by lia.
  rewrite (inject_Z_plus (a1 + b1) (a2 + b2)). field.
Qed.

(** C6 (amended). For a task whose primary candidate is priced, and token
    counts whose totals a double holds exactly, each estimate is the
    double-precision value of [((input + output) / 1000) * rate]; it depends
    on the two counts only through their sum; and the additivity of the
    formula holds over the rationals, where nothing is rounded. *)
Theorem estimate_cost_formula (self : LLMManager) (t : task) (p : gmap str str)
    (provider model : str) (rate : float) (a1 b1 a2 b2 : Z) :
  primary_of (assignment_of (config self) (task_name t)) = p ->
  p !! u "provider" = Some provider ->
  p !! u "model" = Some model ->
  price (config self) provider model = Some rate ->
  (0 <= a1 /\ 0 <= b1 /\ a1 + b1 < 2 ^ 53)%Z ->
  (0 <= a2 /\ 0 <= b2 /\ a2 + b2 < 2 ^ 53)%Z ->
  estimate_cost self t a1 b1
  = inr (PrimFloat.mul (truediv (a1 + b1) 1000) rate)
  /\ estimate_cost self t a2 b2
     = inr (PrimFloat.mul (truediv (a2 + b2) 1000) rate)
  /\ ((a1 + b1 = a2 + b2)%Z ->
      estimate_cost self t a1 b1 = estimate_cost self t a2 b2)
  /\ (exact.estimate rate a1 b1 + exact.estimate rate a2 b2
      == exact.estimate rate (a1 + a2) (b1 + b2))%Q.
Proof.
  intros Hp Hpp Hpm Hr _ _.
  rewrite !(estimate_cost_priced self t p provider model rate) by assumption.
  repeat split.
  - now intros ->.
  - apply exact_estimate_additive.
Qed.


(** A task without any assignment has no primary. *)
Lemma primary_of_unassigned (c : Config) (task : str) :
  assignment_of c task = ∅ -> primary_of (assignment_of c task) = ∅.
Proof.
  intros ->. unfold primary_of.
  now rewrite lookup_empty.
Qed.

(** The price is missing whenever the provider, its model table, the model
    or the model's price is. *)
Lemma price_missing (c : Config) (provider model : str) :
  providers c = None
  \/ (exists ps, providers c = Some ps /\ ps !! provider = None)
  \/ (exists ps e, providers c = Some ps /\ ps !! provider = Some e
                   /\ models e = None)
  \/ (exists ps e ms, providers c = Some ps /\ ps !! provider = Some e
                      /\ models e = Some ms /\ ms !! model = None)
  \/ (exists ps e ms m, providers c = Some ps /\ ps !! provider = Some e
                        /\ models e = Some ms /\ ms !! model = Some m
                        /\ cost_per_1k_tokens m = None) ->
  price c provider model = None.
Proof.
  unfold price, model_entry.
  intros [H | [(ps & H & H1) | [(ps & e & H & H1 & H2)
    | [(ps & e & ms & H & H1 & H2 & H3)
      | (ps & e & ms & m & H & H1 & H2 & H3 & H4)]]]];
    rewrite H; simpl; try rewrite H1; simpl; try rewrite H2; simpl;
    try rewrite H3; simpl; try rewrite H4; reflexivity.
Qed.

End cost_properties.

Section cost_examples.

Import llm_manager examples.

(** C6, as stated, fails on doubles: at the built-in price of 0.0005 per
    thousand tokens, the estimates for 100 and for 200 input tokens do not
    sum to the estimate for 300. *)
Lemma estimate_cost_not_additive :
  exists x y z,
    estimate_cost (manager_of config_routed) (inl TREND_ANALYSIS) 100 0 = inr x
    /\ estimate_cost (manager_of config_routed) (inl TREND_ANALYSIS) 200 0 = inr y
    /\ estimate_cost (manager_of config_routed) (inl TREND_ANALYSIS) 300 0 = inr z
    /\ PrimFloat.eqb (PrimFloat.add x y) z = false
    /\ PrimFloat.ltb z (PrimFloat.add x y) = true.
Proof.
  do 3 eexists. repeat split; vm_compute; reflexivity.
Qed.

Lemma estimate_cost_formula_witness :
  estimate_cost (manager_of config_routed) (inl TREND_ANALYSIS) 1000 500
  = inr (PrimFloat.mul (truediv (1000 + 500) 1000) 0.0005)
  /\ estimate_cost (manager_of config_routed) (inl TREND_ANALYSIS) 700 800
     = inr (PrimFloat.mul (truediv (700 + 800) 1000) 0.0005)
  /\ ((1000 + 500 = 700 + 800)%Z ->
      estimate_cost (manager_of config_routed) (inl TREND_ANALYSIS) 1000 500
      = estimate_cost (manager_of config_routed) (inl TREND_ANALYSIS) 700 800)
  /\ (exact.estimate 0.0005 1000 500 + exact.estimate 0.0005 700 800
      == exact.estimate 0.0005 (1000 + 700) (500 + 800))%Q.
Proof.
  apply (estimate_cost_formula (manager_of config_routed) (inl TREND_ANALYSIS)
           {[ u "provider" := u "google"; u "model" := u "gemini-1.5-flash" ]}
           (u "google") (u "gemini-1.5-flash") 0.0005 1000 500 700 800);
    try (vm_compute; reflexivity);
    (split; [|split]); vm_compute; congruence.
Defined.



(** A primary that names a model the provider table does not list. *)
Example estimate_cost_unknown_model :
  estimate_cost
    (manager_of
       {| providers := providers _get_default_config;
          task_assignments := Some {[ u "trend_analysis" :=
            {[ u "primary" :=
                 ({[ u "provider" := u "google"; u "model" := u "gemini-2" ]}
                    : gmap str str) ]} ]};
          settings := None; override_all_to := None |})
    (inr (u "trend_analysis")) 1000 500
  = inr 0%float.
Proof. vm_compute. reflexivity. Qed.

End cost_examples.

(* ===================================================================== *)
(** * Credentials *)
(* ===================================================================== *)

Ltac names_differ :=
  let E := fresh "E" in intro E; vm_compute in E; discriminate E.

Section credential_properties.

Variable getenv : str -> option str.
Variable constructs : BaseChatModel -> bool.

Lemma configured_empty :
  llm_service.configured None = false /\ llm_service.configured (Some []) = false.
Proof. split; reflexivity. Qed.

Lemma configured_placeholder (k : str) :
  startswith k (u "your_") = true -> llm_service.configured (Some k) = false.
Proof.
  intros H. unfold llm_service.configured. rewrite H.
  now destruct (truthy k).
Qed.

Lemma dict_get_set_ne {V} (d : dict V) (k k' : str) (v : V) :
  k <> k' -> dict_get (dict_set d k v) k' = dict_get d k'.
Proof.
  intros Hne. induction d as [|[k0 v0] d IH]; simpl.
  - now rewrite bool_decide_eq_false_2.
  - destruct (bool_decide (k0 = k)) eqn:E; simpl.
    + apply bool_decide_eq_true_1 in E. subst k0.
      now rewrite !bool_decide_eq_false_2.
    + now rewrite IH.
Qed.

Lemma register_unconfigured providers name key make :
  llm_service.configured key = false ->
  llm_service.register constructs providers name key make = providers.
Proof. intros H. unfold llm_service.register. now rewrite H. Qed.

Lemma dict_get_register_ne providers name key make (k : str) :
  name <> k ->
  dict_get (llm_service.register constructs providers name key make) k
  = dict_get providers k.
Proof.
  intros Hne. unfold llm_service.register.
  destruct (llm_service.configured key); [|reflexivity].
  destruct (constructs _); [|reflexivity].
  now apply dict_get_set_ne.
Qed.

Lemma dict_get_choose_primary order providers (k : str) :
  u "primary" <> k ->
  dict_get (llm_service.choose_primary order providers) k = dict_get providers k.
Proof.
  intros Hne. induction order as [|n order IH]; simpl; [reflexivity|].
  destruct (dict_get providers n); [|exact IH].
  now apply dict_get_set_ne.
Qed.

(** The registry holds no entry for a provider whose credential fails the
    test of [_initialize_providers], whatever the other credentials are. *)
Lemma registry_excludes name (d : dict BaseChatModel) :
  u "primary" <> name ->
  dict_get d name = None ->
  dict_get (if truthy_dict d
            then llm_service.choose_primary llm_service.primary_order d
            else d) name = None.
Proof.
  intros Hne H. destruct (truthy_dict d); [|exact H].
  now rewrite dict_get_choose_primary.
Qed.

Ltac skip_blocks H :=
  repeat first
    [ rewrite dict_get_register_ne by names_differ
    | rewrite (register_unconfigured _ _ _ _ H) ];
  reflexivity.

(** C9, registry side: each of the seven providers is left out, without an
    error, when its credential is unset, empty or a placeholder. *)
Lemma unconfigured_provider_not_registered :
  let registry := llm_service._initialize_providers getenv constructs in
  (llm_service.configured (getenv (u "OPENAI_API_KEY")) = false ->
   dict_get registry (u "openai") = None)
  /\ (llm_service.configured (getenv (u "ANTHROPIC_API_KEY")) = false ->
      dict_get registry (u "anthropic") = None)
  /\ (llm_service.configured
        (if otruthy (getenv (u "GOOGLE_API_KEY"))
         then getenv (u "GOOGLE_API_KEY") else getenv (u "GEMINI_API_KEY"))
      = false ->
      dict_get registry (u "google") = None)
  /\ (llm_service.configured (getenv (u "XAI_API_KEY")) = false ->
      dict_get registry (u "xai") = None)
  /\ (llm_service.configured (getenv (u "DEEPSEEK_API_KEY")) = false ->
      dict_get registry (u "deepseek") = None)
  /\ (llm_service.configured (getenv (u "MOONSHOT_API_KEY")) = false ->
      dict_get registry (u "moonshot") = None)
  /\ (llm_service.configured (getenv (u "VOLCENGINE_API_KEY")) = false ->
      dict_get registry (u "volcengine") = None).
Proof.
  cbv zeta. unfold llm_service._initialize_providers. cbv zeta.
  repeat apply conj; intros H; apply registry_excludes;
    try names_differ; skip_blocks H.
Qed.

(** C9, construction side, for a credential that is unset or empty. *)
Lemma _create_llm_without_credential self model :
  (otruthy (getenv (u "GOOGLE_API_KEY")) = false ->
   llm_manager._create_llm getenv constructs self (u "google") model = None)
  /\ (otruthy (getenv (u "OPENAI_API_KEY")) = false ->
      llm_manager._create_llm getenv constructs self (u "openai") model = None)
  /\ (otruthy (getenv (u "ANTHROPIC_API_KEY")) = false ->
      llm_manager._create_llm getenv constructs self (u "anthropic") model = None)
  /\ (otruthy (getenv (u "XAI_API_KEY")) = false ->
      llm_manager._create_llm getenv constructs self (u "xai") model = None).
Proof.
  repeat apply conj; intros H; unfold llm_manager._create_llm;
    repeat (rewrite bool_decide_eq_false_2 by names_differ);
    rewrite bool_decide_eq_true_2 by reflexivity; now rewrite H.
Qed.

(** [_create_llm] tests the credential for emptiness only: any non-empty
    value, a placeholder included, is handed to the constructor. *)
Lemma _create_llm_google_nonempty self model k :
  getenv (u "GOOGLE_API_KEY") = Some k -> truthy k = true ->
  llm_manager._create_llm getenv constructs self (u "google") model
  = llm_manager.construct constructs
      {| cls := ChatGoogleGenerativeAI; api_key := k; base_url := None;
         langchain.model := model;
         temperature := llm_manager._get_model_temperature self (u "google") model |}.
Proof.
  intros H Hk. unfold llm_manager._create_llm.
  rewrite bool_decide_eq_true_2 by reflexivity. rewrite H. simpl. now rewrite Hk.
Qed.

End credential_properties.

Section credential_examples.

Import examples.

(** C9 at the sample placeholder: the registry of [LLMService] leaves Google
    out, while [_create_llm] builds a Gemini client around the placeholder. *)
Lemma placeholder_key_builds_client :
  startswith (u "your_google_api_key_here") (u "your_") = true
  /\ llm_service.configured (env_placeholder (u "GOOGLE_API_KEY")) = false
  /\ dict_get (llm_service._initialize_providers env_placeholder always_constructs)
       (u "google") = None
  /\ llm_manager._create_llm env_placeholder always_constructs
       (manager_of llm_manager._get_default_config)
       (u "google") (u "gemini-1.5-flash")
     = Some {| cls := ChatGoogleGenerativeAI;
               api_key := u "your_google_api_key_here";
               base_url := None;
               langchain.model := u "gemini-1.5-flash";
               temperature := 0.7 |}.
Proof. repeat apply conj; vm_compute; reflexivity. Qed.

End credential_examples.

(* ===================================================================== *)
(** * Properties of the analysis sessions *)
(* ===================================================================== *)

Section session_properties.

Import main.
Local Open Scope Z_scope.

Lemma steps_length : length steps = 6%nat.
Proof. reflexivity. Qed.

Lemma step_progress_values :
  map step_progress (seq 0 6) = [0; 16; 33; 50; 66; 83].
Proof. vm_compute. reflexivity. Qed.

Lemma step_progress_0 : step_progress 0 = 0.
Proof. vm_compute. reflexivity. Qed.

Lemma step_progress_bounds (i : nat) :
  (i < 6)%nat -> 0 <= step_progress i < 100.
Proof.
  intros H. do 6 (destruct i as [|i]; [vm_compute; split; congruence|]). lia.
Qed.

Lemma step_progress_mono (i : nat) :
  (S i < 6)%nat -> step_progress i <= step_progress (S i).
Proof.
  intros H. do 5 (destruct i as [|i]; [vm_compute; congruence|]). lia.
Qed.

Lemma status_distinct : running <> completed /\ error <> completed /\ running <> error.
Proof. repeat apply conj; discriminate. Qed.

(** ** The heap *)

Lemma deref_mutate_eq (srv : server) (r : nat) f :
  deref (mutate r f srv) r
  = match heap srv !! r with Some s => f s | None => empty_session end.
Proof.
  unfold deref, mutate; simpl. rewrite list_lookup_alter_eq.
  now destruct (heap srv !! r).
Qed.

Lemma deref_mutate_live (srv : server) (r : nat) f :
  (r < length (heap srv))%nat -> deref (mutate r f srv) r = f (deref srv r).
Proof.
  intros H. rewrite deref_mutate_eq. unfold deref.
  destruct (lookup_lt_is_Some_2 _ _ H) as [s ->]. reflexivity.
Qed.

Lemma deref_mutate_ne (srv : server) (r r' : nat) f :
  r <> r' -> deref (mutate r f srv) r' = deref srv r'.
Proof.
  intros H. unfold deref, mutate; simpl. now rewrite list_lookup_alter_ne.
Qed.

Lemma heap_length_mutate (srv : server) (r : nat) f :
  length (heap (mutate r f srv)) = length (heap srv).
Proof. unfold mutate; simpl. apply length_alter. Qed.

(** ** [start_analysis] *)

Lemma start_analysis_id t now request srv :
  Started.analysis_id (start_analysis t now request srv).1.1 = id_of t.
Proof. reflexivity. Qed.

Lemma start_analysis_task t now request srv :
  (start_analysis t now request srv).2 = Created (id_of t) request.
Proof. reflexivity. Qed.

Lemma start_analysis_lookup t now request srv :
  analysis_sessions (start_analysis t now request srv).1.2 !! id_of t
  = Some (length (heap srv)).
Proof. unfold start_analysis; simpl. apply lookup_insert_eq. Qed.

Lemma start_analysis_lookup_ne t now request srv (analysis_id : str) :
  analysis_id <> id_of t ->
  analysis_sessions (start_analysis t now request srv).1.2 !! analysis_id
  = analysis_sessions srv !! analysis_id.
Proof.
  intros H. unfold start_analysis; simpl. now apply lookup_insert_ne.
Qed.

Lemma start_analysis_heap t now request srv :
  heap (start_analysis t now request srv).1.2
  = heap srv
    ++ [ {| Session.status := running;
            Session.progress := 0;
            Session.current_step := u "初始化分析...";
            Session.query := AnalysisRequest.query request;
            Session.start_time := now;
            Session.insights := [];
            Session.estimated_time_remaining := None;
            Session.completion_time := None;
            Session.total_processing_time := None;
            Session.error_message := None |} ].
Proof. reflexivity. Qed.

Lemma start_analysis_deref t now request srv :
  deref (start_analysis t now request srv).1.2 (length (heap srv))
  = {| Session.status := running;
       Session.progress := 0;
       Session.current_step := u "初始化分析...";
       Session.query := AnalysisRequest.query request;
       Session.start_time := now;
       Session.insights := [];
       Session.estimated_time_remaining := None;
       Session.completion_time := None;
       Session.total_processing_time := None;
       Session.error_message := None |}.
Proof.
  unfold deref. rewrite start_analysis_heap.
  now rewrite list_lookup_middle.
Qed.

(** Objects already allocated are not touched by a later start. *)
Lemma start_analysis_frame t now request srv (r : nat) :
  (r < length (heap srv))%nat ->
  deref (start_analysis t now request srv).1.2 r = deref srv r.
Proof.
  intros H. unfold deref. rewrite start_analysis_heap.
  now rewrite lookup_app_l.
Qed.

Lemma wf_start_analysis t now request srv :
  wf srv -> wf (start_analysis t now request srv).1.2.
Proof.
  intros Hwf k r H. rewrite start_analysis_heap, length_app.
  destruct (decide (k = id_of t)) as [->|Hne].
  - rewrite start_analysis_lookup in H. injection H as <-. simpl. lia.
  - rewrite start_analysis_lookup_ne in H by assumption.
    apply Hwf in H. simpl. lia.
Qed.

End session_properties.

Section runner_properties.

Import main.
Local Open Scope Z_scope.

Lemma enter_some r analysis_id request (i : nat) now srv step :
  steps !! i = Some step ->
  enter r analysis_id request i now srv
  = (Sleeping r analysis_id request i, mutate r (begin_step i step) srv).
Proof. intros H. unfold enter. now rewrite H. Qed.

Lemma enter_none r analysis_id request (i : nat) now srv :
  steps !! i = None ->
  enter r analysis_id request i now srv
  = (Finished, mutate r (complete now) srv).
Proof. intros H. unfold enter. now rewrite H. Qed.

(** A run of the task changes neither the id table nor the number of
    objects. *)
Lemma resume_table t fault now srv :
  analysis_sessions (resume t fault now srv).2 = analysis_sessions srv
  /\ length (heap (resume t fault now srv).2) = length (heap srv).
Proof.
  destruct t as [k q|r k q i| |]; simpl; try (split; reflexivity).
  - destruct (analysis_sessions srv !! k); [|split; reflexivity].
    unfold enter. destruct (steps !! 0%nat); simpl; split;
      try reflexivity; apply length_alter.
  - destruct fault; simpl; [split; [reflexivity|apply length_alter]|].
    unfold enter. destruct (steps !! S i); simpl; split; try reflexivity;
      now rewrite !length_alter.
Qed.

Lemma wf_resume t fault now srv : wf srv -> wf (resume t fault now srv).2.
Proof.
  intros Hwf k r. destruct (resume_table t fault now srv) as [-> ->].
  apply Hwf.
Qed.

(** A run of a task leaves every object but its own untouched. *)
Lemma resume_frame r k q (i : nat) fault now srv (r' : nat) :
  r <> r' ->
  deref (resume (Sleeping r k q i) fault now srv).2 r' = deref srv r'.
Proof.
  intros Hne. simpl. destruct fault; simpl.
  - now rewrite deref_mutate_ne.
  - unfold enter. destruct (steps !! S i); simpl;
      now rewrite !deref_mutate_ne.
Qed.

Lemma in_step_good analysis_id r t s :
  in_step analysis_id r t s ->
  (Session.progress s = 100 <-> Session.status s = completed)
  /\ 0 <= Session.progress s <= 100.
Proof.
  destruct status_distinct as (Hrc & Hec & Hre).
  destruct t as [k q|r' k q i| |]; simpl.
  - intros (_ & Hs & Hp). rewrite Hs, Hp. split; [split; [lia|congruence]|lia].
  - intros (_ & Hi & Hs & Hp). rewrite ?steps_length in Hi.
    pose proof (step_progress_bounds i Hi). rewrite Hs, Hp.
    split; [split; [lia|congruence]|lia].
  - intros [[Hs Hp]|[Hs Hp]]; rewrite Hs.
    + rewrite Hp. split; [tauto|lia].
    + split; [split; [lia|congruence]|lia].
  - tauto.
Qed.

(** One run of the task that owns the object at [r]: the task stays in
    step with its object, progress does not go down, and a move to [error]
    keeps it. *)
Lemma resume_in_step analysis_id r t fault now srv :
  analysis_sessions srv !! analysis_id = Some r ->
  (r < length (heap srv))%nat ->
  in_step analysis_id r t (deref srv r) ->
  in_step analysis_id r (resume t fault now srv).1
    (deref (resume t fault now srv).2 r)
  /\ Session.progress (deref srv r)
     <= Session.progress (deref (resume t fault now srv).2 r)
  /\ (Session.status (deref (resume t fault now srv).2 r) = error ->
      Session.progress (deref (resume t fault now srv).2 r)
      = Session.progress (deref srv r)).
Proof.
  intros Hk Hr Hin.
  destruct status_distinct as (Hrc & Hec & Hre).
  destruct t as [k q|r' k q i| |]; simpl in Hin.
  - destruct Hin as (-> & Hs & Hp). simpl. rewrite Hk.
    destruct (lookup_lt_is_Some_2 steps 0%nat) as [step Hstep];
      [rewrite steps_length; lia|].
    rewrite (enter_some _ _ _ _ _ _ _ Hstep). simpl.
    rewrite deref_mutate_live by assumption. simpl.
    rewrite Hs, Hp, step_progress_0, ?steps_length.
    repeat apply conj; try reflexivity; try lia; try congruence.
  - destruct Hin as (-> & Hi & Hs & Hp). simpl.
    destruct fault as [e|]; simpl.
    + rewrite deref_mutate_live by assumption. simpl.
      rewrite ?steps_length in Hi. pose proof (step_progress_bounds i Hi).
      rewrite Hp. repeat apply conj; try reflexivity; try lia.
      right. split; [reflexivity|lia].
    + destruct (steps !! S i) as [step|] eqn:Hstep.
      * rewrite (enter_some _ _ _ _ _ _ _ Hstep). simpl.
        rewrite !deref_mutate_live
          by (rewrite ?heap_length_mutate; assumption). simpl.
        apply lookup_lt_Some in Hstep.
        rewrite Hs, Hp. rewrite ?steps_length in Hstep.
        pose proof (step_progress_mono i Hstep).
        repeat apply conj; try reflexivity; try lia; try congruence.
      * rewrite (enter_none _ _ _ _ _ _ Hstep). simpl.
        rewrite !deref_mutate_live
          by (rewrite ?heap_length_mutate; assumption). simpl.
        rewrite ?steps_length in Hi. pose proof (step_progress_bounds i Hi).
        rewrite Hp. repeat apply conj; try lia.
        -- left. split; reflexivity.
        -- intros E. symmetry in E. contradiction.
  - simpl. repeat apply conj; [exact Hin|lia|reflexivity].
  - contradiction.
Qed.

End runner_properties.

Section polling.

Import main.
Local Open Scope Z_scope.

(** What a status poll of [analysis_id] reports when the id is filed at
    address [r]. *)
Lemma get_analysis_status_at srv analysis_id r :
  analysis_sessions srv !! analysis_id = Some r ->
  get_analysis_status srv analysis_id
  = Ok {| AnalysisStatus.analysis_id := analysis_id;
          AnalysisStatus.status := Session.status (deref srv r);
          AnalysisStatus.progress := Session.progress (deref srv r);
          AnalysisStatus.current_step := Session.current_step (deref srv r);
          AnalysisStatus.estimated_time_remaining :=
            Session.estimated_time_remaining (deref srv r) |}.
Proof. intros H. unfold get_analysis_status. now rewrite H. Qed.

(** C3. A status request for an id that is not a key of the session table
    is refused with 404 (session not found); a results request for a stored
    session whose status is not [completed] is refused with 400 (session not
    ready), and so is one for a session that was just started. *)
Theorem unknown_and_unfinished_sessions_refused
    (srv : server) (analysis_id : str) (r : nat) (t : float) (now : datetime)
    (request : AnalysisRequest.t) :
  (analysis_sessions srv !! analysis_id = None ->
   get_analysis_status srv analysis_id
   = HTTPException 404 (u "分析ID不存在"))
  /\ (analysis_sessions srv !! analysis_id = Some r ->
      Session.status (deref srv r) <> completed ->
      get_analysis_results srv analysis_id
      = HTTPException 400 (u "分析尚未完成"))
  /\ get_analysis_results (start_analysis t now request srv).1.2
       (Started.analysis_id (start_analysis t now request srv).1.1)
     = HTTPException 400 (u "分析尚未完成").
Proof.
  repeat apply conj.
  - intros H. unfold get_analysis_status. now rewrite H.
  - intros H Hs. unfold get_analysis_results. rewrite H.
    now rewrite bool_decide_eq_true_2.
  - rewrite start_analysis_id. unfold get_analysis_results.
    rewrite start_analysis_lookup, start_analysis_deref. reflexivity.
Qed.

End polling.

Section completion.

Import main.
Local Open Scope Z_scope.

Lemma exec_snoc t evs fault now srv :
  exec t (evs ++ [(fault, now)]) srv
  = resume (exec t evs srv).1 fault now (exec t evs srv).2.
Proof. unfold exec. now rewrite foldl_app. Qed.

Lemma insights_of_S request (k : nat) step :
  steps !! k = Some step ->
  insights_of request (S k) = insights_of request k ++ [make_insight request k step].
Proof.
  intros H. unfold insights_of. rewrite (take_S_r _ _ _ H), imap_app. simpl.
  rewrite length_take_le by (apply lookup_lt_Some in H; lia).
  now rewrite Nat.add_0_r.
Qed.

(** After the task was run once and then [k] more times with every step
    succeeding, it sleeps in step [k] and the session holds the insights of
    the steps before, in order. *)
Lemma exec_steps_done t now request srv fault0 now0 (nows : list datetime) :
  (length nows < length steps)%nat ->
  exists step srv',
    steps !! length nows = Some step
    /\ exec (start_analysis t now request srv).2
         ((fault0, now0) :: map (fun n => (None, n)) nows)
         (start_analysis t now request srv).1.2
       = (Sleeping (length (heap srv)) (id_of t) request (length nows), srv')
    /\ analysis_sessions srv' !! id_of t = Some (length (heap srv))
    /\ (length (heap srv) < length (heap srv'))%nat
    /\ deref srv' (length (heap srv))
       = in_progress request now (length nows) step.
Proof.
  pose proof (start_analysis_lookup t now request srv) as Hk.
  pose proof (start_analysis_deref t now request srv) as Hd0.
  assert (Hr : (length (heap srv)
                < length (heap (start_analysis t now request srv).1.2))%nat).
  { rewrite start_analysis_heap, length_app. simpl. lia. }
  rewrite start_analysis_task.
  generalize dependent ((start_analysis t now request srv).1.2).
  generalize (length (heap srv)). intros r srv1 Hk Hd0 Hr.
  induction nows as [|n nows IH] using rev_ind; intros Hlen.
  - destruct (lookup_lt_is_Some_2 steps 0%nat Hlen) as [step Hstep].
    exists step, (mutate r (begin_step 0 step) srv1).
    repeat apply conj; try assumption.
    + unfold exec. cbn [map foldl fst snd resume]. rewrite Hk.
      now rewrite (enter_some _ _ _ _ _ _ _ Hstep).
    + now rewrite heap_length_mutate.
    + rewrite deref_mutate_live by assumption.
      rewrite Hd0. reflexivity.
  - rewrite length_app in Hlen |- *. cbn [length] in Hlen |- *.
    replace (length nows + 1)%nat with (S (length nows)) in * by lia.
    destruct IH as (step & srv' & Hstep & Hexec & Hk' & Hr' & Hd); [lia|].
    destruct (lookup_lt_is_Some_2 steps (S (length nows)) Hlen) as [step' Hstep'].
    exists step',
      (mutate r (begin_step (S (length nows)) step')
         (mutate r (append_insight (make_insight request (length nows) step)) srv')).
    repeat apply conj; try assumption.
    + rewrite map_app. cbn [map].
      rewrite app_comm_cons, exec_snoc, Hexec. cbn [fst snd resume].
      rewrite Hstep. cbn [from_option id].
      now rewrite (enter_some _ _ _ _ _ _ _ Hstep').
    + now rewrite !heap_length_mutate.
    + rewrite !deref_mutate_live by (rewrite ?heap_length_mutate; assumption).
      rewrite Hd. unfold in_progress, begin_step, append_insight.
      cbn [Session.status Session.progress Session.current_step Session.query
           Session.start_time Session.insights Session.estimated_time_remaining
           Session.completion_time Session.total_processing_time
           Session.error_message].
      now rewrite (insights_of_S _ _ _ Hstep).
Qed.

End completion.

Section end_to_end.

Import main.
Local Open Scope Z_scope.

Lemma steps_done : steps !! 6%nat = None.
Proof. reflexivity. Qed.

End end_to_end.

Section session_ids.

Import main.
Local Open Scope Z_scope.

Lemma byte_of_inj a b : byte_of a = byte_of b -> a = b.
Proof.
  unfold byte_of. intros H.
  rewrite <- (ascii_N_embedding a), <- (ascii_N_embedding b). now rewrite H.
Qed.

Lemma map_byte_of_inj (l1 : list ascii) : forall l2,
  map byte_of l1 = map byte_of l2 -> l1 = l2.
Proof.
  induction l1 as [|a l1 IH]; intros [|b l2] H; try discriminate; [reflexivity|].
  simpl in H. injection H as Hab Hl.
  f_equal; [now apply byte_of_inj|now apply IH].
Qed.

Lemma list_ascii_of_string_inj s1 s2 :
  list_ascii_of_string s1 = list_ascii_of_string s2 -> s1 = s2.
Proof.
  intros H. rewrite <- (string_of_list_ascii_of_string s1),
    <- (string_of_list_ascii_of_string s2). now rewrite H.
Qed.

Lemma to_int_proper (z : Z) :
  Z.to_int z <> Decimal.Pos Decimal.Nil /\ Z.to_int z <> Decimal.Neg Decimal.Nil.
Proof.
  destruct z as [|p|p]; simpl; split; try discriminate;
    intros [= H]; now apply (DecimalPos.Unsigned.to_uint_nonnil p).
Qed.

(** [str] is injective on integers. *)
Lemma str_of_int_inj (x y : Z) : str_of_int x = str_of_int y -> x = y.
Proof.
  unfold str_of_int. intros H.
  apply map_byte_of_inj in H.
  apply list_ascii_of_string_inj in H.
  apply DecimalZ.to_int_inj.
  destruct (to_int_proper x) as [Hx1 Hx2], (to_int_proper y) as [Hy1 Hy2].
  pose proof (NilZero.isi _ Hx1 Hx2) as Ex.
  pose proof (NilZero.isi _ Hy1 Hy2) as Ey.
  rewrite H in Ex. rewrite Ex in Ey. now injection Ey.
Qed.

(** Two readings of the clock give the same id exactly when they fall in
    the same second. *)
Lemma id_of_eq_iff (t1 t2 : float) :
  id_of t1 = id_of t2 <-> int_of_float t1 = int_of_float t2.
Proof.
  unfold id_of. split.
  - intros H. apply app_inv_head in H. now apply str_of_int_inj.
  - now intros ->.
Qed.

(** Two starts whose clock readings differ in their whole seconds make two
    sessions, each reachable under its own id. *)
Lemma start_analysis_distinct_seconds t1 now1 request1 t2 now2 request2 srv :
  int_of_float t1 <> int_of_float t2 ->
  let first := start_analysis t1 now1 request1 srv in
  let second := start_analysis t2 now2 request2 first.1.2 in
  Started.analysis_id first.1.1 <> Started.analysis_id second.1.1
  /\ analysis_sessions second.1.2 !! Started.analysis_id first.1.1
     = Some (length (heap srv))
  /\ analysis_sessions second.1.2 !! Started.analysis_id second.1.1
     = Some (S (length (heap srv))).
Proof.
  intros Hne. cbv zeta. rewrite !start_analysis_id.
  assert (Hid : id_of t1 <> id_of t2) by now rewrite id_of_eq_iff.
  repeat apply conj; [exact Hid| |].
  - rewrite start_analysis_lookup_ne by exact Hid. apply start_analysis_lookup.
  - rewrite start_analysis_lookup, start_analysis_heap, length_app. simpl.
    f_equal. lia.
Qed.

(** Two starts within one second get the same id: the table then files the
    second session under it, and the first session's object, still there
    for its task, is filed under no id that it was not filed under before. *)
Lemma start_analysis_same_second t1 now1 request1 t2 now2 request2 srv :
  int_of_float t1 = int_of_float t2 ->
  let first := start_analysis t1 now1 request1 srv in
  let second := start_analysis t2 now2 request2 first.1.2 in
  Started.analysis_id first.1.1 = Started.analysis_id second.1.1
  /\ analysis_sessions first.1.2 !! Started.analysis_id first.1.1
     = Some (length (heap srv))
  /\ analysis_sessions second.1.2 !! Started.analysis_id first.1.1
     = Some (S (length (heap srv)))
  /\ length (heap second.1.2) = S (S (length (heap srv)))
  /\ analysis_sessions second.1.2
     = <[id_of t1 := S (length (heap srv))]> (analysis_sessions srv).
Proof.
  intros He. cbv zeta. rewrite !start_analysis_id.
  assert (Hid : id_of t1 = id_of t2) by now rewrite id_of_eq_iff.
  repeat apply conj; [exact Hid|apply start_analysis_lookup| | |].
  - rewrite Hid, start_analysis_lookup, start_analysis_heap, length_app.
    simpl. f_equal. lia.
  - rewrite !start_analysis_heap, !length_app. simpl. lia.
  - unfold start_analysis. simpl. rewrite <- Hid, insert_insert_eq.
    rewrite length_app. simpl. f_equal. lia.
Qed.

End session_ids.

Section session_examples.

Import main examples.
Local Open Scope Z_scope.

(** C3 on a process without sessions, and on the session of the end-to-end
    scenario right after its start. *)
Lemma unknown_and_unfinished_sessions_refused_witness :
  (analysis_sessions fresh_server !! u "analysis_42" = None ->
   get_analysis_status fresh_server (u "analysis_42")
   = HTTPException 404 (u "分析ID不存在"))
  /\ (analysis_sessions fresh_server !! u "analysis_42" = Some 0%nat ->
      Session.status (deref fresh_server 0) <> completed ->
      get_analysis_results fresh_server (u "analysis_42")
      = HTTPException 400 (u "分析尚未完成"))
  /\ get_analysis_results
       (start_analysis 1700000000.25 1700000000250000 earbuds fresh_server).1.2
       (Started.analysis_id
          (start_analysis 1700000000.25 1700000000250000 earbuds fresh_server).1.1)
     = HTTPException 400 (u "分析尚未完成").
Proof.
  exact (unknown_and_unfinished_sessions_refused fresh_server (u "analysis_42")
           0%nat 1700000000.25 1700000000250000 earbuds).
Defined.

(** C5, as stated, fails: two start requests a half second apart get the same
    id, and the table keeps one entry, naming the second session. *)
Lemma start_twice_in_one_second :
  let first :=
    start_analysis 1700000000.25 1700000000250000 earbuds fresh_server in
  let second :=
    start_analysis 1700000000.75 1700000000750000 earbuds first.1.2 in
  Started.analysis_id first.1.1 = u "analysis_1700000000"
  /\ Started.analysis_id second.1.1 = u "analysis_1700000000"
  /\ length (heap second.1.2) = 2%nat
  /\ analysis_sessions second.1.2 = {[ u "analysis_1700000000" := 1%nat ]}
  /\ Session.start_time (deref second.1.2 1) = 1700000000750000.
Proof.
  cbv zeta. repeat apply conj; vm_compute; reflexivity.
Qed.

(** The end-to-end scenario, evaluated: the status right after the start,
    and what the six insights are numbered. *)
Example earbuds_just_started :
  get_analysis_status
    (start_analysis 1700000000.25 1700000000250000 earbuds fresh_server).1.2
    (u "analysis_1700000000")
  = Ok {| AnalysisStatus.analysis_id := u "analysis_1700000000";
          AnalysisStatus.status := running;
          AnalysisStatus.progress := 0;
          AnalysisStatus.current_step := u "初始化分析...";
          AnalysisStatus.estimated_time_remaining := None |}.
Proof. vm_compute. reflexivity. Qed.

End session_examples.

(* ===================================================================== *)
(** * Sessions in the running process *)
(* ===================================================================== *)

Section event_loop.

Import main.
Local Open Scope Z_scope.

Lemma sound_boot : sound boot.
Proof.
  repeat apply conj.
  - intros k r H. simpl in H. now rewrite lookup_empty in H.
  - intros k1 k2 r H. simpl in H. now rewrite lookup_empty in H.
  - intros j r k q i H. discriminate H.
Qed.


Lemma step_Serve p t now request :
  step p (Serve t now request)
  = {| state := (start_analysis t now request (state p)).1.2;
       tasks := tasks p ++ [Created (id_of t) request] |}.
Proof. reflexivity. Qed.

Lemma step_Run p k fault now t :
  tasks p !! k = Some t ->
  step p (Run k fault now)
  = {| state := (resume t fault now (state p)).2;
       tasks := <[k := (resume t fault now (state p)).1]> (tasks p) |}.
Proof. intros H. unfold step. now rewrite H. Qed.

Lemma step_Run_idle p k fault now :
  tasks p !! k = None -> step p (Run k fault now) = p.
Proof. intros H. unfold step. now rewrite H. Qed.


Lemma resume_holds t fault now srv r k q (i : nat) :
  wf srv ->
  (forall r0 k0 q0 (i0 : nat),
     t = Sleeping r0 k0 q0 i0 -> (r0 < length (heap srv))%nat) ->
  (resume t fault now srv).1 = Sleeping r k q i ->
  (r < length (heap srv))%nat.
Proof.
  intros Hwf Hheld. destruct t as [k' q'|r' k' q' i'| |]; simpl; try discriminate.
  - destruct (analysis_sessions srv !! k') as [r0|] eqn:E; [|discriminate].
    unfold enter. destruct (steps !! 0%nat); [|discriminate].
    intros [= <- _ _ _]. exact (Hwf _ _ E).
  - destruct fault; [discriminate|].
    unfold enter. destruct (steps !! S i'); [|discriminate].
    intros [= <- _ _ _]. now apply (Hheld r' k' q' i').
Qed.

Lemma sound_step p e : sound p -> sound (step p e).
Proof.
  intros (Hwf & Hinj & Hheld). destruct e as [t now request|k fault now].
  - rewrite step_Serve. repeat apply conj; cbn [state tasks].
    + now apply wf_start_analysis.
    + intros k1 k2 r.
      destruct (decide (k1 = id_of t)) as [->|H1],
               (decide (k2 = id_of t)) as [->|H2]; try reflexivity.
      * rewrite start_analysis_lookup, start_analysis_lookup_ne by assumption.
        intros [= <-] H%Hwf. lia.
      * rewrite start_analysis_lookup, start_analysis_lookup_ne by assumption.
        intros H%Hwf [= <-]. lia.
      * rewrite !start_analysis_lookup_ne by assumption. apply Hinj.
    + intros j r k q i H. rewrite start_analysis_heap, length_app.
      cbn [length].
      apply lookup_app_Some in H as [H|[_ H]].
      * apply Hheld in H. lia.
      * destruct (j - length (tasks p))%nat; discriminate H.
  - destruct (tasks p !! k) as [tk|] eqn:Ek;
      [|rewrite step_Run_idle by assumption; repeat apply conj; assumption].
    rewrite (step_Run _ _ _ _ _ Ek).
    destruct (resume_table tk fault now (state p)) as [Ht Hl].
    repeat apply conj; cbn [state tasks].
    + now apply wf_resume.
    + rewrite Ht. exact Hinj.
    + intros j r k' q i H. rewrite Hl.
      destruct (decide (j = k)) as [->|Hne].
      * rewrite list_lookup_insert_eq in H by (now apply lookup_lt_Some in Ek).
        injection H as H.
        apply (resume_holds tk fault now (state p) r k' q i Hwf); [|exact H].
        intros r0 k0 q0 i0 ->. exact (Hheld _ _ _ _ _ Ek).
      * rewrite list_lookup_insert_ne in H by congruence.
        exact (Hheld _ _ _ _ _ H).
Qed.


Lemma sound_finally evs : forall p, sound p -> sound (finally p evs).
Proof.
  induction evs as [|e evs IH]; intros p H; [exact H|].
  apply IH. now apply sound_step.
Qed.


(** Serving a start request whose id no waiting task will look up puts the
    new session in the hands of the task created with it. *)
Lemma owned_start p t now request :
  sound p -> unissued (id_of t) p ->
  owned (id_of t) (length (heap (state p))) (length (tasks p))
    (step p (Serve t now request)).
Proof.
  intros (Hwf & Hinj & Hheld) Hun. rewrite step_Serve.
  repeat apply conj; cbn [state tasks].
  - apply start_analysis_lookup.
  - rewrite start_analysis_heap, length_app. simpl. lia.
  - exists (Created (id_of t) request). split.
    + apply list_lookup_middle. reflexivity.
    + rewrite start_analysis_deref. simpl. auto.
  - intros j' tk Hne H. apply lookup_app_Some in H as [H|[Hge H]].
    + destruct tk as [k q|r k q i| |]; simpl; trivial.
      * intros ->. exact (Hun _ _ H).
      * apply Hheld in H. lia.
    + destruct (j' - length (tasks p))%nat eqn:E; [lia|discriminate H].
Qed.

(** A run of a task that is foreign to the session at [r] leaves that
    session as it is, and the task foreign. *)
Lemma resume_foreign analysis_id r t fault now srv :
  (forall (k1 k2 : str) (r : nat),
     analysis_sessions srv !! k1 = Some r ->
     analysis_sessions srv !! k2 = Some r -> k1 = k2) ->
  analysis_sessions srv !! analysis_id = Some r ->
  foreign analysis_id r t ->
  deref (resume t fault now srv).2 r = deref srv r
  /\ foreign analysis_id r (resume t fault now srv).1.
Proof.
  intros Hinj Hk Hf. destruct t as [k q|r' k q i| |]; simpl in Hf.
  - simpl. destruct (analysis_sessions srv !! k) as [r0|] eqn:E;
      [|split; [reflexivity|exact I]].
    assert (Hne : r0 <> r).
    { intros ->. apply Hf. exact (Hinj _ _ _ E Hk). }
    unfold enter. destruct (steps !! 0%nat); simpl;
      (split; [now apply deref_mutate_ne|trivial]).
  - split; [now apply resume_frame|].
    simpl. destruct fault; [exact I|].
    unfold enter. destruct (steps !! S i); simpl; trivial.
  - split; [reflexivity|exact I].
  - split; [reflexivity|exact I].
Qed.

(** An event that is neither a run of the owning task nor a start request
    given the same id leaves the session, its table entry and its task as
    they are. *)
Lemma step_other analysis_id r j p e :
  sound p -> owned analysis_id r j p -> ~ issues analysis_id e ->
  (forall fault now, e <> Run j fault now) ->
  tasks (step p e) !! j = tasks p !! j
  /\ deref (state (step p e)) r = deref (state p) r
  /\ analysis_sessions (state (step p e)) !! analysis_id = Some r
  /\ (r < length (heap (state (step p e))))%nat
  /\ (forall (j' : nat) t, j' <> j -> tasks (step p e) !! j' = Some t ->
        foreign analysis_id r t).
Proof.
  intros (Hwf & Hinj & Hheld) (Hk & Hr & (tj & Hj & Hin) & Hothers) Hno Hrun.
  destruct e as [t now request|k fault now].
  - rewrite step_Serve. cbn [state tasks]. simpl in Hno.
    repeat apply conj.
    + apply lookup_app_l. now apply lookup_lt_Some in Hj.
    + now apply start_analysis_frame.
    + rewrite start_analysis_lookup_ne by congruence. exact Hk.
    + rewrite start_analysis_heap, length_app. lia.
    + intros j' tk Hne H. apply lookup_app_Some in H as [H|[_ H]].
      * exact (Hothers _ _ Hne H).
      * destruct (j' - length (tasks p))%nat; [|discriminate H].
        injection H as <-. simpl. congruence.
  - assert (Hne : k <> j) by (intros ->; exact (Hrun fault now eq_refl)).
    destruct (tasks p !! k) as [tk|] eqn:Ek;
      [|rewrite step_Run_idle by assumption;
        repeat apply conj; try reflexivity; assumption].
    rewrite (step_Run _ _ _ _ _ Ek). cbn [state tasks].
    destruct (resume_table tk fault now (state p)) as [Ht Hl].
    destruct (resume_foreign analysis_id r tk fault now (state p) Hinj Hk
                (Hothers _ _ Hne Ek)) as [Hd Hf].
    repeat apply conj.
    + now apply list_lookup_insert_ne.
    + exact Hd.
    + now rewrite Ht.
    + now rewrite Hl.
    + intros j' t' Hne' H. destruct (decide (j' = k)) as [->|Hne''].
      * rewrite list_lookup_insert_eq in H by (now apply lookup_lt_Some in Ek).
        injection H as <-. exact Hf.
      * rewrite list_lookup_insert_ne in H by congruence.
        exact (Hothers _ _ Hne' H).
Qed.

(** Every event but a start request given the same id keeps the session in
    the hands of its task, and moves its progress as a run of that task
    does. *)
Lemma owned_step analysis_id r j p e :
  sound p -> owned analysis_id r j p -> ~ issues analysis_id e ->
  owned analysis_id r j (step p e)
  /\ Session.progress (deref (state p) r)
     <= Session.progress (deref (state (step p e)) r)
  /\ (Session.status (deref (state (step p e)) r) = error ->
      Session.progress (deref (state (step p e)) r)
      = Session.progress (deref (state p) r)).
Proof.
  intros Hsound Hown Hno.
  assert (Hrun : (exists fault now, e = Run j fault now)
                 \/ (forall fault now, e <> Run j fault now)).
  { destruct e as [t now request|k fault now]; [right; discriminate|].
    destruct (decide (k = j)) as [->|Hne]; [left; eauto|].
    right. intros f n [= ?]. contradiction. }
  destruct Hrun as [(fault & now & ->)|Hrun].
  - destruct Hown as (Hk & Hr & (tj & Hj & Hin) & Hothers).
    rewrite (step_Run _ _ _ _ _ Hj). cbn [state tasks].
    destruct (resume_table tj fault now (state p)) as [Ht Hl].
    destruct (resume_in_step analysis_id r tj fault now (state p) Hk Hr Hin)
      as (Hin' & Hle & Herr).
    split; [|split; assumption].
    repeat apply conj; cbn [state tasks].
    + now rewrite Ht.
    + now rewrite Hl.
    + eexists. split; [|exact Hin'].
      apply list_lookup_insert_eq. now apply lookup_lt_Some in Hj.
    + intros j' t' Hne H. rewrite list_lookup_insert_ne in H by congruence.
      exact (Hothers _ _ Hne H).
  - destruct (step_other analysis_id r j p e Hsound Hown Hno Hrun)
      as (Hj' & Hd & Hk' & Hr' & Hothers').
    destruct Hown as (Hk & Hr & (tj & Hj & Hin) & Hothers).
    rewrite Hd. split; [|split; [lia|reflexivity]].
    repeat apply conj; try assumption.
    exists tj. split; [now rewrite Hj'|now rewrite Hd].
Qed.

Lemma owned_good analysis_id r j p :
  owned analysis_id r j p ->
  Session.progress (deref (state p) r) = 100
  <-> Session.status (deref (state p) r) = completed.
Proof.
  intros (_ & _ & (tj & _ & Hin) & _). apply (in_step_good _ _ _ _ Hin).
Qed.

Lemma owned_bounds analysis_id r j p :
  owned analysis_id r j p ->
  0 <= Session.progress (deref (state p) r) <= 100
  /\ (Session.status (deref (state p) r) = running
      \/ Session.status (deref (state p) r) = completed
      \/ Session.status (deref (state p) r) = error).
Proof.
  intros (_ & _ & (tj & _ & Hin) & _).
  split; [apply (in_step_good _ _ _ _ Hin)|].
  destruct tj as [k q|r' k q i| |]; simpl in Hin.
  - left. apply Hin.
  - left. apply Hin.
  - destruct Hin as [[H _]|[H _]]; auto.
  - contradiction.
Qed.

Lemma history_owned analysis_id r j evs : forall p,
  sound p -> owned analysis_id r j p ->
  Forall (fun e => ~ issues analysis_id e) evs ->
  Forall (owned analysis_id r j) (history p evs).
Proof.
  induction evs as [|e evs IH]; intros p Hsound Hown Hno; [constructor|].
  inversion Hno as [|? ? Hno1 Hno2]; subst.
  destruct (owned_step analysis_id r j p e Hsound Hown Hno1) as (Hown' & _).
  cbn [history]. constructor; [exact Hown'|].
  apply IH; [now apply sound_step|exact Hown'|exact Hno2].
Qed.

(** The sessions a poller can see along the life of the process. *)
Lemma history_observed analysis_id r j evs : forall p,
  sound p -> owned analysis_id r j p ->
  Forall (fun e => ~ issues analysis_id e) evs ->
  Forall (fun p' => analysis_sessions (state p') !! analysis_id = Some r)
    (history p evs)
  /\ Forall (fun p' =>
       (Session.progress (deref (state p') r) = 100
        <-> Session.status (deref (state p') r) = completed)
       /\ Session.progress (deref (state p) r)
          <= Session.progress (deref (state p') r))
       (history p evs)
  /\ StronglySorted Z.le
       (map (fun p' => Session.progress (deref (state p') r))
          (p :: history p evs))
  /\ (forall (i : nat) a b,
        (p :: history p evs) !! i = Some a ->
        (p :: history p evs) !! S i = Some b ->
        Session.status (deref (state b) r) = error ->
        Session.progress (deref (state b) r)
        = Session.progress (deref (state a) r)).
Proof.
  induction evs as [|e evs IH]; intros p Hsound Hown Hno.
  - simpl. repeat apply conj; try constructor; try constructor.
    intros i a b _ Hb. destruct i; discriminate Hb.
  - inversion Hno as [|? ? Hno1 Hno2]; subst.
    destruct (owned_step analysis_id r j p e Hsound Hown Hno1)
      as (Hown' & Hle & Herr).
    destruct (IH (step p e) (sound_step p e Hsound) Hown' Hno2)
      as (IH1 & IH2 & IH3 & IH4).
    cbn [history]. repeat apply conj.
    + constructor; [apply Hown'|exact IH1].
    + constructor.
      * split; [exact (owned_good _ _ _ _ Hown')|exact Hle].
      * eapply Forall_impl; [|exact IH2]. simpl.
        intros s [? ?]. split; [assumption|lia].
    + cbn [map]. cbn [map] in IH3. constructor; [exact IH3|].
      constructor; [exact Hle|].
      apply Forall_map. eapply Forall_impl; [|exact IH2].
      simpl. intros s [? ?]. lia.
    + intros i a b Ha Hb Hs. destruct i as [|i].
      * simpl in Ha, Hb. injection Ha as <-. injection Hb as <-.
        now apply Herr.
      * apply (IH4 i a b); assumption.
Qed.

Lemma exec_cons t fault now evs srv :
  exec t ((fault, now) :: evs) srv
  = exec (resume t fault now srv).1 evs (resume t fault now srv).2.
Proof.
  unfold exec. cbn [foldl fst snd].
  now destruct (resume t fault now srv).
Qed.

Lemma runs_of_own j fault now evs :
  runs_of j (Run j fault now :: evs) = (fault, now) :: runs_of j evs.
Proof.
  unfold runs_of. cbn [omap list_omap].
  now destruct (decide (j = j)).
Qed.

Lemma runs_of_other j e evs :
  (forall fault now, e <> Run j fault now) ->
  runs_of j (e :: evs) = runs_of j evs.
Proof.
  intros H. unfold runs_of. cbn [omap list_omap].
  destruct e as [t now request|k fault now]; [reflexivity|].
  destruct (decide (k = j)) as [->|Hne]; [|reflexivity].
  now destruct (H fault now).
Qed.

(** A run of the owning task does to its session what it does to that
    session in any other state of the process that files it at the same
    address with the same contents. *)
Lemma resume_congr analysis_id r t fault now a b :
  analysis_sessions a !! analysis_id = Some r ->
  analysis_sessions b !! analysis_id = Some r ->
  (r < length (heap a))%nat -> (r < length (heap b))%nat ->
  deref a r = deref b r ->
  in_step analysis_id r t (deref a r) ->
  (resume t fault now a).1 = (resume t fault now b).1
  /\ deref (resume t fault now a).2 r = deref (resume t fault now b).2 r.
Proof.
  intros Ha Hb Hla Hlb Hd Hin. destruct t as [k q|r' k q i| |]; simpl in Hin.
  - destruct Hin as (-> & _). simpl. rewrite Ha, Hb.
    unfold enter. destruct (steps !! 0%nat); simpl;
      (split; [reflexivity|]);
      rewrite !deref_mutate_live by assumption; now rewrite Hd.
  - destruct Hin as (-> & _). simpl. destruct fault as [e|].
    + simpl. split; [reflexivity|].
      rewrite !deref_mutate_live by assumption. now rewrite Hd.
    + unfold enter. destruct (steps !! S i); simpl;
        (split; [reflexivity|]);
        rewrite !deref_mutate_live
          by (rewrite ?heap_length_mutate; assumption);
        now rewrite Hd.
  - simpl. split; [reflexivity|exact Hd].
  - contradiction.
Qed.

(** Whatever else the process does meanwhile, the session ends up as its
    task's own runs alone leave it. *)
Lemma finally_simulates analysis_id r j evs : forall p tj srv,
  sound p -> owned analysis_id r j p -> tasks p !! j = Some tj ->
  Forall (fun e => ~ issues analysis_id e) evs ->
  analysis_sessions srv !! analysis_id = Some r ->
  (r < length (heap srv))%nat ->
  deref srv r = deref (state p) r ->
  analysis_sessions (state (finally p evs)) !! analysis_id = Some r
  /\ deref (state (finally p evs)) r
     = deref (exec tj (runs_of j evs) srv).2 r.
Proof.
  induction evs as [|e evs IH]; intros p tj srv Hsound Hown Hj Hno Hk Hr Hd.
  - split; [apply Hown|]. symmetry. exact Hd.
  - inversion Hno as [|? ? Hno1 Hno2]; subst.
    change (finally p (e :: evs)) with (finally (step p e) evs).
    destruct (owned_step analysis_id r j p e Hsound Hown Hno1) as (Hown' & _).
    pose proof (sound_step p e Hsound) as Hsound'.
    assert (Hrun : (exists fault now, e = Run j fault now)
                   \/ (forall fault now, e <> Run j fault now)).
    { destruct e as [t now request|k fault now]; [right; discriminate|].
      destruct (decide (k = j)) as [->|Hne]; [left; eauto|].
      right. intros f n [= ?]. contradiction. }
    destruct Hrun as [(fault & now & ->)|Hrun].
    + rewrite runs_of_own, exec_cons.
      destruct Hown as (Hk0 & Hr0 & (tj' & Hj' & Hin) & _).
      assert (tj' = tj) as -> by congruence.
      destruct (resume_congr analysis_id r tj fault now (state p) srv
                  Hk0 Hk Hr0 Hr (eq_sym Hd) Hin) as [Et Ed].
      destruct (resume_table tj fault now srv) as [Ht Hl].
      rewrite <- Et. apply IH; try assumption.
      * rewrite (step_Run _ _ _ _ _ Hj). cbn [tasks].
        apply list_lookup_insert_eq. now apply lookup_lt_Some in Hj.
      * now rewrite Ht.
      * now rewrite Hl.
      * rewrite (step_Run _ _ _ _ _ Hj). cbn [state]. now symmetry.
    + rewrite (runs_of_other _ _ _ Hrun).
      destruct (step_other analysis_id r j p e Hsound Hown Hno1 Hrun)
        as (Hj' & Hd' & _).
      apply IH; try assumption.
      * now rewrite Hj'.
      * now rewrite Hd'.
Qed.

(** The session of an analysis after the seven runs of its task that take
    it through its six steps. *)
Lemma exec_six_steps t now request srv fault0 (n0 n1 n2 n3 n4 n5 n6 : datetime) :
  exists step,
    steps !! 5%nat = Some step
    /\ deref
         (exec (Created (id_of t) request)
            [(fault0, n0); (None, n1); (None, n2); (None, n3); (None, n4);
             (None, n5); (None, n6)]
            (start_analysis t now request srv).1.2).2 (length (heap srv))
       = complete n6
           (append_insight (make_insight request 5 step)
              (in_progress request now 5 step)).
Proof.
  destruct (exec_steps_done t now request srv fault0 n0 [n1; n2; n3; n4; n5])
    as (step & srv' & Hstep & Hexec & Hk & Hr & Hd);
    [rewrite steps_length; simpl; lia|].
  cbn [length] in Hstep, Hexec, Hd. cbn [map] in Hexec.
  rewrite start_analysis_task in Hexec.
  exists step. split; [exact Hstep|].
  change [(fault0, n0); (None, n1); (None, n2); (None, n3); (None, n4);
          (None, n5); (None, n6)]
    with ([(fault0, n0); (None, n1); (None, n2); (None, n3); (None, n4);
           (None, n5)] ++ [(@None str, n6)]).
  rewrite exec_snoc, Hexec. cbn [fst snd resume]. rewrite Hstep.
  cbn [from_option id]. rewrite (enter_none _ _ _ _ _ _ steps_done).
  cbn [snd].
  rewrite !deref_mutate_live by (rewrite ?heap_length_mutate; assumption).
  now rewrite Hd.
Qed.

(** X1. Polls while other analyses run. In a process that has served any
    requests and run any tasks in any order, an analysis is started under an
    id that no task is still waiting to look up, and no later start request
    is given that id. Then the statuses a poller reads under that id (right
    after the start and after every later event of the process: other start
    requests, runs of other tasks, runs of the analysis's own task with
    arbitrary step outcomes) have non-decreasing progress; progress is 100
    exactly when the status is [completed]; a status of [error] shows the
    progress of the status just before it; and every status is one of
    [running], [completed] and [error] with a progress between 0 and 100. *)
Theorem polls_of_interleaved_sessions (evs0 : list event) (t : float)
    (now : datetime) (request : AnalysisRequest.t) (evs1 : list event) :
  unissued (id_of t) (finally boot evs0) ->
  Forall (fun e => ~ issues (id_of t) e) evs1 ->
  exists sts : list AnalysisStatus.t,
    map (fun p => get_analysis_status (state p) (id_of t))
      (step (finally boot evs0) (Serve t now request)
       :: history (step (finally boot evs0) (Serve t now request)) evs1)
    = map Ok sts
    /\ StronglySorted Z.le (map AnalysisStatus.progress sts)
    /\ Forall (fun st => AnalysisStatus.progress st = 100
                         <-> AnalysisStatus.status st = completed) sts
    /\ (forall (i : nat) a b,
          sts !! i = Some a -> sts !! S i = Some b ->
          AnalysisStatus.status b = error ->
          AnalysisStatus.progress b = AnalysisStatus.progress a)
    /\ Forall (fun st =>
         0 <= AnalysisStatus.progress st <= 100
         /\ (AnalysisStatus.status st = running
             \/ AnalysisStatus.status st = completed
             \/ AnalysisStatus.status st = error)) sts.
Proof.
  intros Hun Hno.
  pose proof (sound_finally evs0 boot sound_boot) as Hsound.
  pose proof (owned_start _ t now request Hsound Hun) as Hown.
  pose proof (sound_step _ (Serve t now request) Hsound) as Hsound1.
  set (p1 := step (finally boot evs0) (Serve t now request)) in *.
  set (r := length (heap (state (finally boot evs0)))) in *.
  set (j := length (tasks (finally boot evs0))) in *.
  destruct (history_observed (id_of t) r j evs1 p1 Hsound1 Hown Hno)
    as (H1 & H2 & H3 & H4).
  set (l := p1 :: history p1 evs1) in *.
  assert (Hall : Forall (fun p => analysis_sessions (state p) !! id_of t = Some r) l)
    by (constructor; [apply Hown|assumption]).
  assert (Hgood : Forall (fun p =>
            Session.progress (deref (state p) r) = 100
            <-> Session.status (deref (state p) r) = completed) l).
  { constructor.
    - exact (owned_good _ _ _ _ Hown).
    - eapply Forall_impl; [|exact H2]. simpl. tauto. }
  assert (Hin : Forall (owned (id_of t) r j) l).
  { constructor; [exact Hown|].
    exact (history_owned (id_of t) r j evs1 p1 Hsound1 Hown Hno). }
  clearbody l.
  exists (map (fun p =>
            {| AnalysisStatus.analysis_id := id_of t;
               AnalysisStatus.status := Session.status (deref (state p) r);
               AnalysisStatus.progress := Session.progress (deref (state p) r);
               AnalysisStatus.current_step :=
                 Session.current_step (deref (state p) r);
               AnalysisStatus.estimated_time_remaining :=
                 Session.estimated_time_remaining (deref (state p) r) |}) l).
  repeat apply conj.
  - rewrite map_map. apply map_ext_Forall.
    eapply Forall_impl; [|exact Hall]. simpl. intros s Hs.
    now apply get_analysis_status_at.
  - rewrite map_map. simpl. exact H3.
  - apply Forall_map. eapply Forall_impl; [|exact Hgood]. simpl. tauto.
  - intros i a b Ha Hb. rewrite list_lookup_fmap in Ha, Hb.
    destruct (l !! i) as [sa|] eqn:Ea; [|discriminate].
    destruct (l !! S i) as [sb|] eqn:Eb; [|discriminate].
    simpl in Ha, Hb. injection Ha as <-. injection Hb as <-. simpl.
    now apply (H4 i).
  - apply Forall_map. eapply Forall_impl; [|exact Hin]. simpl.
    intros p. apply owned_bounds.
Qed.

(** X2. Completion while other analyses run. In a process that has served any
    requests and run any tasks in any order, an analysis is started under an
    id that no task is still waiting to look up, and no later start request
    is given that id. Among the later events, in any interleaving with other
    requests and tasks, its task is run seven times: first up to the sleep
    of step 0, then six times with the step's work succeeding. Then the
    results request succeeds and returns the query with exactly six
    insights, numbered 1 to 6 and titled by the six steps in order, the
    completion time, and as total processing time the seconds between the
    start time and the completion time; the status is [completed] with
    progress 100. Along the way, when the task has been through [k] of its
    steps, the session holds the insights of steps 0 to [k-1], in that
    order. *)
Theorem interleaved_analysis_completes (evs0 : list event) (t : float) (now : datetime)
    (request : AnalysisRequest.t) (evs1 : list event) (fault0 : option str)
    (n0 n1 n2 n3 n4 n5 n6 : datetime) :
  unissued (id_of t) (finally boot evs0) ->
  Forall (fun e => ~ issues (id_of t) e) evs1 ->
  runs_of (length (tasks (finally boot evs0))) evs1
  = [(fault0, n0); (None, n1); (None, n2); (None, n3); (None, n4);
     (None, n5); (None, n6)] ->
  get_analysis_results
    (state (finally (step (finally boot evs0) (Serve t now request)) evs1))
    (id_of t)
  = Ok {| Results.analysis_id := id_of t;
          Results.query := AnalysisRequest.query request;
          Results.insights := insights_of request 6;
          Results.completion_time := Some n6;
          Results.total_processing_time := Some (total_seconds n6 now) |}
  /\ get_analysis_status
       (state (finally (step (finally boot evs0) (Serve t now request)) evs1))
       (id_of t)
     = Ok {| AnalysisStatus.analysis_id := id_of t;
             AnalysisStatus.status := completed;
             AnalysisStatus.progress := 100;
             AnalysisStatus.current_step := u "分析完成";
             AnalysisStatus.estimated_time_remaining := Some 30 |}
  /\ length (insights_of request 6) = 6%nat
  /\ map InsightResult.insight_id (insights_of request 6) = [1; 2; 3; 4; 5; 6]
  /\ map InsightResult.title (insights_of request 6) = steps
  /\ (forall (k : nat) (done rest : list event),
        evs1 = done ++ rest ->
        runs_of (length (tasks (finally boot evs0))) done
        = (fault0, n0)
          :: map (fun n => (None, n)) (take k [n1; n2; n3; n4; n5; n6]) ->
        (k < 6)%nat ->
        Session.insights
          (deref
             (state
                (finally (step (finally boot evs0) (Serve t now request)) done))
             (length (heap (state (finally boot evs0)))))
        = insights_of request k).
Proof.
  intros Hun Hno Hruns.
  pose proof (sound_finally evs0 boot sound_boot) as Hsound.
  pose proof (owned_start _ t now request Hsound Hun) as Hown.
  pose proof (sound_step _ (Serve t now request) Hsound) as Hsound1.
  assert (Hj : tasks (step (finally boot evs0) (Serve t now request))
               !! length (tasks (finally boot evs0))
               = Some (Created (id_of t) request)).
  { rewrite step_Serve. cbn [tasks]. now apply list_lookup_middle. }
  assert (Hsim : forall evs,
    Forall (fun e => ~ issues (id_of t) e) evs ->
    analysis_sessions
      (state (finally (step (finally boot evs0) (Serve t now request)) evs))
      !! id_of t = Some (length (heap (state (finally boot evs0))))
    /\ deref
         (state (finally (step (finally boot evs0) (Serve t now request)) evs))
         (length (heap (state (finally boot evs0))))
       = deref
           (exec (Created (id_of t) request)
              (runs_of (length (tasks (finally boot evs0))) evs)
              (start_analysis t now request (state (finally boot evs0))).1.2).2
           (length (heap (state (finally boot evs0))))).
  { intros evs Hevs.
    apply (finally_simulates (id_of t) _ _ evs _ _ _ Hsound1 Hown Hj Hevs).
    - apply start_analysis_lookup.
    - rewrite start_analysis_heap, length_app. simpl. lia.
    - reflexivity. }
  set (p0 := finally boot evs0) in *.
  repeat apply conj.
  - destruct (Hsim evs1 Hno) as [Hk Hd]. rewrite Hruns in Hd.
    destruct (exec_six_steps t now request (state p0) fault0
                n0 n1 n2 n3 n4 n5 n6) as (step & Hstep & Hd').
    unfold get_analysis_results. rewrite Hk, Hd, Hd'.
    cbn [complete append_insight in_progress Session.status Session.query
         Session.insights Session.completion_time Session.start_time
         Session.total_processing_time].
    rewrite bool_decide_eq_false_2 by (intros H; now apply H).
    now rewrite <- (insights_of_S _ _ _ Hstep).
  - destruct (Hsim evs1 Hno) as [Hk Hd]. rewrite Hruns in Hd.
    destruct (exec_six_steps t now request (state p0) fault0
                n0 n1 n2 n3 n4 n5 n6) as (step & Hstep & Hd').
    rewrite (get_analysis_status_at _ _ _ Hk), Hd, Hd'. reflexivity.
  - reflexivity.
  - reflexivity.
  - vm_compute. reflexivity.
  - intros k done rest -> Hdone Hlt.
    apply Forall_app in Hno as [Hno _].
    destruct (Hsim done Hno) as [_ Hd]. rewrite Hdone in Hd.
    assert (Hlen : length (take k [n1; n2; n3; n4; n5; n6]) = k)
      by (rewrite length_take_le; simpl; lia).
    destruct (exec_steps_done t now request (state p0) fault0 n0
                (take k [n1; n2; n3; n4; n5; n6]))
      as (step' & srv'' & _ & Hexec & _ & _ & Hd');
      [rewrite steps_length; lia|].
    rewrite start_analysis_task in Hexec.
    rewrite Hd, Hexec. cbn [snd]. rewrite Hd', Hlen. reflexivity.
Qed.

(** ** Ids are never withdrawn *)

Lemma step_keeps_ids p e (k : str) :
  is_Some (analysis_sessions (state p) !! k) ->
  is_Some (analysis_sessions (state (step p e)) !! k).
Proof.
  intros H. destruct e as [t now request|j fault now].
  - rewrite step_Serve. cbn [state].
    destruct (decide (k = id_of t)) as [->|Hne].
    + rewrite start_analysis_lookup. eauto.
    + now rewrite start_analysis_lookup_ne.
  - destruct (tasks p !! j) as [tj|] eqn:Ej;
      [|now rewrite step_Run_idle].
    rewrite (step_Run _ _ _ _ _ Ej). cbn [state].
    now destruct (resume_table tj fault now (state p)) as [-> _].
Qed.

Lemma finally_keeps_ids evs (k : str) : forall p,
  is_Some (analysis_sessions (state p) !! k) ->
  is_Some (analysis_sessions (state (finally p evs)) !! k).
Proof.
  induction evs as [|e evs IH]; intros p H; [exact H|].
  apply IH. now apply step_keeps_ids.
Qed.

(** X3. Once a start request has returned an id, no later state of the process
    answers a status or a results request for that id with 404, whatever
    requests are served and tasks are run afterwards, start requests that
    are given the same id included. *)
Theorem issued_id_stays_known (p : process) (t : float) (now : datetime)
    (request : AnalysisRequest.t) (evs : list event) :
  (exists st,
     get_analysis_status
       (state (finally (step p (Serve t now request)) evs)) (id_of t) = Ok st
     /\ AnalysisStatus.analysis_id st = id_of t)
  /\ get_analysis_results
       (state (finally (step p (Serve t now request)) evs)) (id_of t)
     <> HTTPException 404 (u "分析ID不存在").
Proof.
  assert (H : is_Some
            (analysis_sessions
               (state (finally (step p (Serve t now request)) evs))
             !! id_of t)).
  { apply finally_keeps_ids. rewrite step_Serve. cbn [state].
    rewrite start_analysis_lookup. eauto. }
  destruct H as [r Hr]. split.
  - rewrite (get_analysis_status_at _ _ _ Hr). eexists. split; reflexivity.
  - unfold get_analysis_results. rewrite Hr.
    destruct (bool_decide _); discriminate.
Qed.

(** ** The task always finds its session *)

Lemma resume_bound t fault now srv :
  match t with
  | Created k _ => is_Some (analysis_sessions srv !! k)
  | Crashed => False
  | _ => True
  end ->
  match (resume t fault now srv).1 with
  | Created k _ => is_Some (analysis_sessions (resume t fault now srv).2 !! k)
  | Crashed => False
  | _ => True
  end.
Proof.
  destruct t as [k q|r k q i| |]; simpl; trivial.
  - intros [r Hr]. rewrite Hr. unfold enter.
    destruct (steps !! 0%nat); exact I.
  - intros _. destruct fault; [exact I|].
    unfold enter. destruct (steps !! S i); exact I.
Qed.

Lemma bound_step p e : bound p -> bound (step p e).
Proof.
  intros Hb. destruct e as [t now request|k fault now].
  - rewrite step_Serve. intros j tj H. cbn [state tasks] in *.
    apply lookup_app_Some in H as [H|[_ H]].
    + specialize (Hb j tj H). destruct tj as [k q|r k q i| |]; trivial.
      apply (step_keeps_ids p (Serve t now request) k Hb).
    + destruct (j - length (tasks p))%nat; [|discriminate H].
      injection H as <-. rewrite start_analysis_lookup. eauto.
  - destruct (tasks p !! k) as [tk|] eqn:Ek;
      [|now rewrite step_Run_idle].
    pose proof (step_keeps_ids p (Run k fault now)) as Hkeep.
    rewrite (step_Run _ _ _ _ _ Ek) in Hkeep |- *.
    intros j tj H. cbn [state tasks] in *.
    destruct (decide (j = k)) as [->|Hne].
    + rewrite list_lookup_insert_eq in H by (now apply lookup_lt_Some in Ek).
      injection H as <-. apply resume_bound. exact (Hb _ _ Ek).
    + rewrite list_lookup_insert_ne in H by congruence.
      specialize (Hb j tj H). destruct tj as [k' q|r k' q i| |]; trivial.
      now apply Hkeep.
Qed.

(** X4. From the start of the process on, whatever requests are served and tasks
    are run in whatever order, no task of an analysis dies of a missing
    session: the lookup [analysis_sessions[analysis_id]] that opens
    [run_six_layer_analysis] always succeeds, and each run of a task leaves
    it suspended in a step or finished. *)
Theorem task_finds_session (evs : list event) (j : nat) :
  tasks (finally boot evs) !! j <> Some Crashed
  /\ (forall k q,
        tasks (finally boot evs) !! j = Some (Created k q) ->
        is_Some (analysis_sessions (state (finally boot evs)) !! k)).
Proof.
  assert (H : bound (finally boot evs)).
  { assert (H0 : bound boot) by (intros j' t H; discriminate H).
    generalize dependent boot. induction evs as [|e evs IH]; intros p H0.
    - exact H0.
    - apply IH. now apply bound_step. }
  split.
  - intros E. exact (H _ _ E).
  - intros k q E. exact (H _ _ E).
Qed.

(** ** Terminal states *)

Lemma exec_Finished evs srv : exec Finished evs srv = (Finished, srv).
Proof.
  induction evs as [|[fault now] evs IH]; [reflexivity|].
  now rewrite exec_cons.
Qed.

Lemma finally_app p evs1 evs2 :
  finally p (evs1 ++ evs2) = finally (finally p evs1) evs2.
Proof. unfold finally. apply foldl_app. Qed.

Lemma owned_finally analysis_id r j evs : forall p,
  sound p -> owned analysis_id r j p ->
  Forall (fun e => ~ issues analysis_id e) evs ->
  owned analysis_id r j (finally p evs).
Proof.
  induction evs as [|e evs IH]; intros p Hsound Hown Hno; [exact Hown|].
  inversion Hno as [|? ? Hno1 Hno2]; subst.
  destruct (owned_step analysis_id r j p e Hsound Hown Hno1) as (Hown' & _).
  apply (IH (step p e)); [now apply sound_step|exact Hown'|exact Hno2].
Qed.

(** X5. In a process that has served any requests and run any tasks in any
    order, an analysis is started under an id that no task is still waiting
    to look up, and no later start request is given that id. Once a poll
    shows a status other than [running], every later status request and
    every later results request for the id is answered as at that moment: a
    completed or failed analysis never changes again, and a failed one never
    becomes ready. *)
Theorem finished_analysis_frozen (evs0 : list event) (t : float)
    (now : datetime) (request : AnalysisRequest.t) (evs1 evs2 : list event) :
  unissued (id_of t) (finally boot evs0) ->
  Forall (fun e => ~ issues (id_of t) e) (evs1 ++ evs2) ->
  (exists st,
     get_analysis_status
       (state (finally (step (finally boot evs0) (Serve t now request)) evs1))
       (id_of t) = Ok st
     /\ AnalysisStatus.status st <> running) ->
  get_analysis_status
    (state (finally (step (finally boot evs0) (Serve t now request))
              (evs1 ++ evs2))) (id_of t)
  = get_analysis_status
      (state (finally (step (finally boot evs0) (Serve t now request)) evs1))
      (id_of t)
  /\ get_analysis_results
       (state (finally (step (finally boot evs0) (Serve t now request))
                 (evs1 ++ evs2))) (id_of t)
     = get_analysis_results
         (state (finally (step (finally boot evs0) (Serve t now request)) evs1))
         (id_of t).
Proof.
  intros Hun Hno (st & Hst & Hnr).
  apply Forall_app in Hno as [Hno1 Hno2].
  pose proof (sound_finally evs0 boot sound_boot) as Hsound.
  pose proof (owned_start _ t now request Hsound Hun) as Hown.
  pose proof (sound_step _ (Serve t now request) Hsound) as Hsound1.
  set (p1 := step (finally boot evs0) (Serve t now request)) in *.
  set (r := length (heap (state (finally boot evs0)))) in *.
  set (j := length (tasks (finally boot evs0))) in *.
  pose proof (sound_finally evs1 p1 Hsound1) as Hsound2.
  pose proof (owned_finally (id_of t) r j evs1 p1 Hsound1 Hown Hno1) as Hown2.
  rewrite finally_app. set (p2 := finally p1 evs1) in *.
  assert (Hk2 : analysis_sessions (state p2) !! id_of t = Some r)
    by apply Hown2.
  rewrite (get_analysis_status_at _ _ _ Hk2) in Hst.
  injection Hst as <-. cbn [AnalysisStatus.status] in Hnr.
  assert (Hj : tasks p2 !! j = Some Finished).
  { destruct Hown2 as (_ & _ & (tj & Hj & Hin) & _).
    destruct tj as [k q|r' k q i| |]; simpl in Hin.
    - now destruct Hnr.
    - now destruct Hnr.
    - exact Hj.
    - contradiction. }
  destruct (finally_simulates (id_of t) r j evs2 p2 Finished (state p2)
              Hsound2 Hown2 Hj Hno2 Hk2) as [Hk3 Hd3];
    [apply Hown2|reflexivity|].
  rewrite exec_Finished in Hd3. cbn [snd] in Hd3.
  split.
  - now rewrite (get_analysis_status_at _ _ _ Hk2),
      (get_analysis_status_at _ _ _ Hk3), Hd3.
  - unfold get_analysis_results. now rewrite Hk2, Hk3, Hd3.
Qed.

(** ** Two analyses under one id *)

Lemma resume_Created k q fault now srv (r : nat) step :
  analysis_sessions srv !! k = Some r -> steps !! 0%nat = Some step ->
  resume (Created k q) fault now srv
  = (Sleeping r k q 0, mutate r (begin_step 0 step) srv).
Proof. intros Hk Hs. simpl. rewrite Hk. now apply enter_some. Qed.

Lemma resume_Sleeping r k q (i : nat) now srv step step' :
  steps !! i = Some step -> steps !! S i = Some step' ->
  resume (Sleeping r k q i) None now srv
  = (Sleeping r k q (S i),
     mutate r (begin_step (S i) step')
       (mutate r (append_insight (make_insight q i step)) srv)).
Proof. intros Hs Hs'. simpl. rewrite Hs. simpl. now apply enter_some. Qed.

Lemma step_Run_at srv (l : list task) (k : nat) fault now t :
  l !! k = Some t ->
  step {| state := srv; tasks := l |} (Run k fault now)
  = {| state := (resume t fault now srv).2;
       tasks := <[k := (resume t fault now srv).1]> l |}.
Proof. intros H. unfold step. cbn [tasks state]. now rewrite H. Qed.

(** X6. Two start requests are given the same id, and both are served before the
    task of the first is run. Then both tasks take the session of the second
    request for their own: each appends its insights to it, so after one
    step of each it holds two insights numbered 1, while the session of the
    first request stays as it was created and can no longer be reached under
    the id. *)
Theorem colliding_starts_share_session (p : process) (t1 t2 : float)
    (now1 now2 : datetime) (q1 q2 : AnalysisRequest.t)
    (n1 n2 n3 n4 : datetime) :
  id_of t1 = id_of t2 ->
  exists step0 p',
    steps !! 0%nat = Some step0
    /\ p' = finally p
              [Serve t1 now1 q1; Serve t2 now2 q2;
               Run (length (tasks p)) None n1;
               Run (S (length (tasks p))) None n2;
               Run (length (tasks p)) None n3;
               Run (S (length (tasks p))) None n4]
    /\ tasks p' !! length (tasks p)
       = Some (Sleeping (S (length (heap (state p)))) (id_of t1) q1 1)
    /\ tasks p' !! S (length (tasks p))
       = Some (Sleeping (S (length (heap (state p)))) (id_of t2) q2 1)
    /\ analysis_sessions (state p') !! id_of t1
       = Some (S (length (heap (state p))))
    /\ Session.query (deref (state p') (S (length (heap (state p)))))
       = AnalysisRequest.query q2
    /\ Session.insights (deref (state p') (S (length (heap (state p)))))
       = [make_insight q1 0 step0; make_insight q2 0 step0]
    /\ map InsightResult.insight_id
         (Session.insights (deref (state p') (S (length (heap (state p))))))
       = [1; 1]
    /\ Session.query (deref (state p') (length (heap (state p))))
       = AnalysisRequest.query q1
    /\ Session.progress (deref (state p') (length (heap (state p)))) = 0
    /\ Session.insights (deref (state p') (length (heap (state p)))) = [].
Proof.
  intros Hid.
  destruct (lookup_lt_is_Some_2 steps 0%nat) as [step0 Hs0];
    [rewrite steps_length; lia|].
  destruct (lookup_lt_is_Some_2 steps 1%nat) as [step1 Hs1];
    [rewrite steps_length; lia|].
  exists step0. eexists. split; [exact Hs0|]. split; [reflexivity|].
  set (a := length (tasks p)). set (r1 := length (heap (state p))).
  unfold finally. cbn [foldl]. rewrite !step_Serve. cbn [state tasks].
  pose proof (start_analysis_deref t1 now1 q1 (state p)) as Hd1.
  pose proof (start_analysis_deref t2 now2 q2
                (start_analysis t1 now1 q1 (state p)).1.2) as Hd2.
  pose proof (start_analysis_lookup t2 now2 q2
                (start_analysis t1 now1 q1 (state p)).1.2) as Hk2.
  pose proof (start_analysis_heap t2 now2 q2
                (start_analysis t1 now1 q1 (state p)).1.2) as Hh2.
  assert (Hl1 : length (heap (start_analysis t1 now1 q1 (state p)).1.2) = S r1).
  { rewrite start_analysis_heap, length_app. simpl. unfold r1. lia. }
  rewrite <- (start_analysis_frame t2 now2 q2
                (start_analysis t1 now1 q1 (state p)).1.2) in Hd1
    by (rewrite Hl1; unfold r1; lia).
  rewrite Hl1 in Hd2, Hk2. fold r1 in Hd1.
  assert (Hl2 : (S r1 < length
                   (heap (start_analysis t2 now2 q2
                            (start_analysis t1 now1 q1 (state p)).1.2).1.2))%nat).
  { rewrite Hh2, length_app, Hl1. simpl. lia. }
  clear Hh2 Hl1.
  set (srv2 := (start_analysis t2 now2 q2
                  (start_analysis t1 now1 q1 (state p)).1.2).1.2) in *.
  assert (Ha : ((tasks p ++ [Created (id_of t1) q1]) ++ [Created (id_of t2) q2])
               !! a = Some (Created (id_of t1) q1)).
  { rewrite lookup_app_l by (rewrite length_app; simpl; unfold a; lia).
    now apply list_lookup_middle. }
  assert (Hb : ((tasks p ++ [Created (id_of t1) q1]) ++ [Created (id_of t2) q2])
               !! S a = Some (Created (id_of t2) q2)).
  { apply list_lookup_middle. rewrite length_app. simpl. unfold a. lia. }
  set (T := (tasks p ++ [Created (id_of t1) q1]) ++ [Created (id_of t2) q2]) in *.
  assert (HaT : (a < length T)%nat) by (now apply lookup_lt_Some in Ha).
  assert (HbT : (S a < length T)%nat) by (now apply lookup_lt_Some in Hb).
  clearbody T srv2.
  (* first run of the first task *)
  rewrite (step_Run_at _ _ _ _ _ _ Ha).
  rewrite (resume_Created _ _ _ _ _ (S r1) step0) by (rewrite ?Hid; assumption).
  cbn [fst snd].
  (* first run of the second task *)
  erewrite step_Run_at
    by (rewrite list_lookup_insert_ne by lia; exact Hb).
  rewrite (resume_Created _ _ _ _ _ (S r1) step0) by assumption.
  cbn [fst snd].
  (* second run of the first task *)
  erewrite step_Run_at
    by (rewrite list_lookup_insert_ne by lia;
        apply list_lookup_insert_eq; exact HaT).
  rewrite (resume_Sleeping _ _ _ _ _ _ step0 step1) by assumption.
  cbn [fst snd].
  (* second run of the second task *)
  erewrite step_Run_at
    by (rewrite list_lookup_insert_ne by lia;
        apply list_lookup_insert_eq; rewrite length_insert; exact HbT).
  rewrite (resume_Sleeping _ _ _ _ _ _ step0 step1) by assumption.
  cbn [fst snd state tasks].
  repeat apply conj.
  - rewrite list_lookup_insert_ne by lia.
    apply list_lookup_insert_eq. now rewrite !length_insert.
  - apply list_lookup_insert_eq. now rewrite !length_insert.
  - cbn [mutate analysis_sessions]. now rewrite Hid.
  - rewrite !deref_mutate_live by (rewrite ?heap_length_mutate; exact Hl2).
    rewrite Hd2. reflexivity.
  - rewrite !deref_mutate_live by (rewrite ?heap_length_mutate; exact Hl2).
    rewrite Hd2. reflexivity.
  - rewrite !deref_mutate_live by (rewrite ?heap_length_mutate; exact Hl2).
    rewrite Hd2. reflexivity.
  - rewrite !deref_mutate_ne by lia. rewrite Hd1. reflexivity.
  - rewrite !deref_mutate_ne by lia. rewrite Hd1. reflexivity.
  - rewrite !deref_mutate_ne by lia. rewrite Hd1. reflexivity.
Qed.

(** ** Sessions started in a second of their own *)






End event_loop.

Section event_loop_examples.

Import main examples.
Local Open Scope Z_scope.

(** The id of the analysis of the end-to-end scenario is given to no other
    start request of the two schedules. *)
Ltac issued_once :=
  repeat (apply Forall_cons;
          [let H := fresh in
           intros H; vm_compute in H; first [exact H|discriminate H]|]);
  apply Forall_nil.

Ltac none_waiting :=
  let j := fresh "j" in
  let H := fresh in
  intros j ? H;
  do 2 (destruct j as [|j]; [vm_compute in H; discriminate H|]);
  vm_compute in H; discriminate H.

(** The polls along the schedule in which the third step of the analysis fails. *)
Lemma polls_of_interleaved_sessions_witness :
  exists sts : list AnalysisStatus.t,
    map (fun p => get_analysis_status (state p) (id_of 1700000003.5))
      (step (finally boot earlier)
         (Serve 1700000003.5 1700000003500000 earbuds)
       :: history
            (step (finally boot earlier)
               (Serve 1700000003.5 1700000003500000 earbuds))
            later_failing)
    = map Ok sts
    /\ StronglySorted Z.le (map AnalysisStatus.progress sts)
    /\ Forall (fun st => AnalysisStatus.progress st = 100
                         <-> AnalysisStatus.status st = completed) sts
    /\ (forall (i : nat) a b,
          sts !! i = Some a -> sts !! S i = Some b ->
          AnalysisStatus.status b = error ->
          AnalysisStatus.progress b = AnalysisStatus.progress a)
    /\ Forall (fun st =>
         0 <= AnalysisStatus.progress st <= 100
         /\ (AnalysisStatus.status st = running
             \/ AnalysisStatus.status st = completed
             \/ AnalysisStatus.status st = error)) sts.
Proof.
  apply (polls_of_interleaved_sessions earlier 1700000003.5 1700000003500000 earbuds
           later_failing).
  - none_waiting.
  - issued_once.
Defined.

(** What the poller of that schedule reads. *)
Example progress_read_along_later_failing :
  map (fun p =>
         match get_analysis_status (state p) (id_of 1700000003.5) with
         | Ok st => Some (AnalysisStatus.status st, AnalysisStatus.progress st)
         | HTTPException _ _ => None
         end)
    (step (finally boot earlier) (Serve 1700000003.5 1700000003500000 earbuds)
     :: history
          (step (finally boot earlier)
             (Serve 1700000003.5 1700000003500000 earbuds))
          later_failing)
  = [Some (running, 0); Some (running, 0); Some (running, 0);
     Some (running, 16); Some (running, 16); Some (running, 33);
     Some (running, 33); Some (error, 33); Some (error, 33);
     Some (error, 33)].
Proof. vm_compute. reflexivity. Qed.

(** The completion along the schedule in which every step of the analysis succeeds. *)
Lemma interleaved_analysis_completes_witness :
  get_analysis_results
    (state
       (finally
          (step (finally boot earlier)
             (Serve 1700000003.5 1700000003500000 earbuds)) later))
    (id_of 1700000003.5)
  = Ok {| Results.analysis_id := id_of 1700000003.5;
          Results.query := AnalysisRequest.query earbuds;
          Results.insights := insights_of earbuds 6;
          Results.completion_time := Some 1700000021510000;
          Results.total_processing_time :=
            Some (total_seconds 1700000021510000 1700000003500000) |}
  /\ get_analysis_status
       (state
          (finally
             (step (finally boot earlier)
                (Serve 1700000003.5 1700000003500000 earbuds)) later))
       (id_of 1700000003.5)
     = Ok {| AnalysisStatus.analysis_id := id_of 1700000003.5;
             AnalysisStatus.status := completed;
             AnalysisStatus.progress := 100;
             AnalysisStatus.current_step := u "分析完成";
             AnalysisStatus.estimated_time_remaining := Some 30 |}
  /\ length (insights_of earbuds 6) = 6%nat
  /\ map InsightResult.insight_id (insights_of earbuds 6) = [1; 2; 3; 4; 5; 6]
  /\ map InsightResult.title (insights_of earbuds 6) = steps
  /\ (forall (k : nat) (done rest : list event),
        later = done ++ rest ->
        runs_of (length (tasks (finally boot earlier))) done
        = (None, 1700000003510000)
          :: map (fun n => (None, n))
               (take k [1700000006510000; 1700000009510000; 1700000012510000;
                        1700000015510000; 1700000018510000; 1700000021510000]) ->
        (k < 6)%nat ->
        Session.insights
          (deref
             (state
                (finally
                   (step (finally boot earlier)
                      (Serve 1700000003.5 1700000003500000 earbuds)) done))
             (length (heap (state (finally boot earlier)))))
        = insights_of earbuds k).
Proof.
  apply (interleaved_analysis_completes earlier 1700000003.5 1700000003500000 earbuds
           later None 1700000003510000 1700000006510000 1700000009510000
           1700000012510000 1700000015510000 1700000018510000
           1700000021510000).
  - none_waiting.
  - issued_once.
  - vm_compute. reflexivity.
Defined.


(** A failed analysis stays as it failed: the schedule in which the third
    step fails, and what follows it. *)
Lemma finished_analysis_frozen_witness :
  get_analysis_status
    (state (finally (step (finally boot earlier)
                       (Serve 1700000003.5 1700000003500000 earbuds))
              (later_failing ++ after_failure))) (id_of 1700000003.5)
  = get_analysis_status
      (state (finally (step (finally boot earlier)
                         (Serve 1700000003.5 1700000003500000 earbuds))
                later_failing)) (id_of 1700000003.5)
  /\ get_analysis_results
       (state (finally (step (finally boot earlier)
                          (Serve 1700000003.5 1700000003500000 earbuds))
                 (later_failing ++ after_failure))) (id_of 1700000003.5)
     = get_analysis_results
         (state (finally (step (finally boot earlier)
                            (Serve 1700000003.5 1700000003500000 earbuds))
                   later_failing)) (id_of 1700000003.5).
Proof.
  apply (finished_analysis_frozen earlier 1700000003.5 1700000003500000
           earbuds later_failing after_failure).
  - none_waiting.
  - unfold later_failing, after_failure. cbn [app]. issued_once.
  - eexists. split; [vm_compute; reflexivity|].
    intros E. vm_compute in E. discriminate E.
Defined.

(** Two start requests within the second 1700000000, both served before
    either task runs. *)
Lemma colliding_starts_share_session_witness :
  exists step0 p',
    steps !! 0%nat = Some step0
    /\ p' = finally boot
              [Serve 1700000000.25 1700000000250000 earbuds;
               Serve 1700000000.75 1700000000750000 speakers;
               Run (length (tasks boot)) None 1700000000760000;
               Run (S (length (tasks boot))) None 1700000000770000;
               Run (length (tasks boot)) None 1700000003760000;
               Run (S (length (tasks boot))) None 1700000003770000]
    /\ tasks p' !! length (tasks boot)
       = Some (Sleeping (S (length (heap (state boot))))
                 (id_of 1700000000.25) earbuds 1)
    /\ tasks p' !! S (length (tasks boot))
       = Some (Sleeping (S (length (heap (state boot))))
                 (id_of 1700000000.75) speakers 1)
    /\ analysis_sessions (state p') !! id_of 1700000000.25
       = Some (S (length (heap (state boot))))
    /\ Session.query (deref (state p') (S (length (heap (state boot)))))
       = AnalysisRequest.query speakers
    /\ Session.insights (deref (state p') (S (length (heap (state boot)))))
       = [make_insight earbuds 0 step0; make_insight speakers 0 step0]
    /\ map InsightResult.insight_id
         (Session.insights (deref (state p') (S (length (heap (state boot))))))
       = [1; 1]
    /\ Session.query (deref (state p') (length (heap (state boot))))
       = AnalysisRequest.query earbuds
    /\ Session.progress (deref (state p') (length (heap (state boot)))) = 0
    /\ Session.insights (deref (state p') (length (heap (state boot)))) = [].
Proof.
  apply (colliding_starts_share_session boot 1700000000.25 1700000000.75
           1700000000250000 1700000000750000 earbuds speakers
           1700000000760000 1700000000770000 1700000003760000
           1700000003770000).
  vm_compute. reflexivity.
Defined.





(** The total processing time of that analysis: 18.01 seconds. *)
Example total_processing_time_of_later :
  total_seconds 1700000021510000 1700000003500000 = 18.01%float.
Proof. vm_compute. reflexivity. Qed.

End event_loop_examples.

(* ===================================================================== *)
(** * The provider registry and the mock reply *)
(* ===================================================================== *)

Section registry_properties.

Import llm_service.

Variable getenv : str -> option str.
Variable constructs : BaseChatModel -> bool.

Lemma dict_get_set_eq {V} (d : dict V) (k : str) (v : V) :
  dict_get (dict_set d k v) k = Some v.
Proof.
  induction d as [|[k0 v0] d IH]; simpl.
  - now rewrite bool_decide_eq_true_2.
  - destruct (bool_decide (k0 = k)) eqn:E; simpl.
    + now rewrite bool_decide_eq_true_2.
    + now rewrite E.
Qed.

(** A new key goes last. *)
Lemma dict_set_fresh {V} (d : dict V) (k : str) (v : V) :
  dict_get d k = None -> dict_set d k v = d ++ [(k, v)].
Proof.
  induction d as [|[k0 v0] d IH]; simpl; [reflexivity|].
  destruct (bool_decide (k0 = k)); [discriminate|].
  intros H. now rewrite IH.
Qed.

Lemma dict_mem_set_ne {V} (d : dict V) (k k' : str) (v : V) :
  k <> k' -> dict_mem (dict_set d k v) k' = dict_mem d k'.
Proof. intros H. unfold dict_mem. now rewrite dict_get_set_ne. Qed.

Lemma filter_ext_Forall {A} (f g : A -> bool) (l : list A) :
  Forall (fun x => f x = g x) l -> List.filter f l = List.filter g l.
Proof.
  induction 1 as [|x l Hx _ IH]; simpl; [reflexivity|].
  now rewrite Hx, IH.
Qed.

(** One block of [_initialize_providers] keeps the keys in the order of the
    blocks. *)
Lemma register_keys providers name key make (done : list str) :
  dict_keys providers = List.filter (dict_mem providers) done ->
  Forall (fun n => n <> name) done ->
  dict_get providers name = None ->
  dict_keys (register constructs providers name key make)
  = List.filter (dict_mem (register constructs providers name key make))
      (done ++ [name]).
Proof.
  intros Hkeys Hne Hfresh. rewrite List.filter_app.
  assert (Hskip : dict_keys providers
                  = List.filter (dict_mem providers) done
                    ++ List.filter (dict_mem providers) [name]).
  { simpl. unfold dict_mem at 2. rewrite Hfresh. now rewrite app_nil_r. }
  unfold register.
  destruct (configured key); [|exact Hskip].
  destruct (constructs _); [|exact Hskip].
  rewrite (dict_set_fresh _ _ _ Hfresh) at 1.
  unfold dict_keys. rewrite map_app. fold (dict_keys providers).
  rewrite Hkeys. f_equal.
  - apply filter_ext_Forall. eapply Forall_impl; [|exact Hne].
    intros n Hn. simpl in Hn. symmetry. apply dict_mem_set_ne. congruence.
  - simpl. unfold dict_mem. now rewrite dict_get_set_eq.
Qed.

Lemma choose_primary_spec order (d : dict BaseChatModel) :
  dict_get d (u "primary") = None ->
  dict_get (choose_primary order d) (u "primary")
  = foldr (fun name rest =>
             match dict_get d name with Some c => Some c | None => rest end)
      None order.
Proof.
  intros H. induction order as [|n order IH]; simpl; [exact H|].
  destruct (dict_get d n); [apply dict_get_set_eq|exact IH].
Qed.

Ltac registry d :=
  unfold _initialize_providers; cbv zeta;
  match goal with |- context [truthy_dict ?r] => set (d := r) end.

Ltac unregistered :=
  repeat (rewrite dict_get_register_ne by names_differ); reflexivity.

Ltac other_names := repeat (constructor; [names_differ|]); constructor.

(** X9. The [primary] entry of the registry is the client of the first provider
    registered in the order deepseek, moonshot, volcengine, xai, google,
    anthropic, openai; there is none exactly when no provider is registered. *)
Theorem primary_is_first_registered :
  dict_get (_initialize_providers getenv constructs) (u "primary")
  = foldr (fun name rest =>
             match dict_get (_initialize_providers getenv constructs) name with
             | Some c => Some c
             | None => rest
             end)
      None
      [u "deepseek"; u "moonshot"; u "volcengine"; u "xai"; u "google";
       u "anthropic"; u "openai"].
Proof.
  registry d.
  assert (Hp : dict_get d (u "primary") = None) by (subst d; unregistered).
  destruct (truthy_dict d) eqn:Et.
  - rewrite (choose_primary_spec _ _ Hp). unfold primary_order. cbn [foldr].
    now rewrite !dict_get_choose_primary by names_differ.
  - destruct d; [reflexivity|discriminate Et].
Qed.

(** X10. [get_available_providers] lists the registered providers in the order
    of the blocks of [_initialize_providers] (openai, anthropic, google,
    xai, deepseek, moonshot, volcengine), followed by the name [primary]
    when at least one is registered; it lists nothing else. *)
Theorem available_providers_in_order :
  get_available_providers (new getenv constructs)
  = let real :=
      List.filter (dict_mem (providers (new getenv constructs)))
        [u "openai"; u "anthropic"; u "google"; u "xai"; u "deepseek";
         u "moonshot"; u "volcengine"] in
    real ++ match real with [] => [] | _ :: _ => [u "primary"] end.
Proof.
  cbv zeta. unfold get_available_providers, new. cbn [providers].
  registry d.
  assert (Hp : dict_get d (u "primary") = None) by (subst d; unregistered).
  assert (Hkeys : dict_keys d
                  = List.filter (dict_mem d)
                      [u "openai"; u "anthropic"; u "google"; u "xai";
                       u "deepseek"; u "moonshot"; u "volcengine"]).
  { subst d.
    apply (register_keys _ _ _ _
             [u "openai"; u "anthropic"; u "google"; u "xai"; u "deepseek";
              u "moonshot"]); [|other_names|unregistered].
    apply (register_keys _ _ _ _
             [u "openai"; u "anthropic"; u "google"; u "xai"; u "deepseek"]);
      [|other_names|unregistered].
    apply (register_keys _ _ _ _
             [u "openai"; u "anthropic"; u "google"; u "xai"]);
      [|other_names|unregistered].
    apply (register_keys _ _ _ _ [u "openai"; u "anthropic"; u "google"]);
      [|other_names|unregistered].
    apply (register_keys _ _ _ _ [u "openai"; u "anthropic"]);
      [|other_names|unregistered].
    apply (register_keys _ _ _ _ [u "openai"]); [|other_names|unregistered].
    apply (register_keys _ _ _ _ []); [reflexivity|other_names|unregistered]. }
  clearbody d.
  destruct (truthy_dict d) eqn:Et;
    [|destruct d; [reflexivity|discriminate Et]].
  assert (Hsome : exists c,
            choose_primary primary_order d = dict_set d (u "primary") c).
  { unfold primary_order. cbn [choose_primary].
    repeat match goal with
           | |- context [dict_get d ?n] =>
               let E := fresh "E" in
               destruct (dict_get d n) eqn:E; [eauto|]
           end.
    exfalso. unfold dict_mem in Hkeys. cbn [List.filter] in Hkeys.
    repeat match goal with
           | E : dict_get d _ = None |- _ => rewrite E in Hkeys; clear E
           end.
    destruct d; [discriminate Et|discriminate Hkeys]. }
  destruct Hsome as [c ->].
  rewrite (dict_set_fresh _ _ _ Hp). unfold dict_keys at 1.
  rewrite map_app. fold (dict_keys d). cbn [map fst].
  rewrite <- (dict_set_fresh _ _ c Hp).
  assert (Hsame : List.filter (dict_mem (dict_set d (u "primary") c))
                    [u "openai"; u "anthropic"; u "google"; u "xai";
                     u "deepseek"; u "moonshot"; u "volcengine"]
                  = dict_keys d).
  { rewrite Hkeys. apply filter_ext_Forall.
    repeat (constructor; [apply dict_mem_set_ne; names_differ|]).
    constructor. }
  rewrite Hsame.
  destruct d as [|[k v] d]; [discriminate Et|reflexivity].
Qed.

End registry_properties.

Section conversation_properties.

Import llm_service.

Variable ainvoke : world -> BaseChatModel -> list BaseMessage -> option AIMessage.

(** ** Substrings *)

Lemma startswith_app (p s : str) : startswith (p ++ s) p = true.
Proof.
  induction p as [|a p IH]; simpl; [now destruct s|].
  now rewrite N.eqb_refl.
Qed.

Lemma startswith_inv (p : str) : forall s : str,
  startswith s p = true -> exists rest, s = p ++ rest.
Proof.
  induction p as [|a p IH]; intros s H; simpl in H.
  - now exists s.
  - destruct s as [|b s]; [discriminate|].
    apply andb_prop in H as [Hab Hs]. apply N.eqb_eq in Hab as ->.
    destruct (IH s Hs) as [rest ->]. now exists rest.
Qed.

(** [needle in hay] holds exactly when [hay] has [needle] as a contiguous
    part. *)
Lemma contains_spec (needle hay : str) :
  contains needle hay = true
  <-> exists before after, hay = before ++ needle ++ after.
Proof.
  split.
  - induction hay as [|c hay IH]; cbn [contains].
    + rewrite orb_false_r. intros H.
      destruct (startswith_inv _ _ H) as [rest E]. now exists [], rest.
    + intros H. apply orb_prop in H as [H|H].
      * destruct (startswith_inv _ _ H) as [rest E]. now exists [], rest.
      * destruct (IH H) as (before & after & ->).
        now exists (c :: before), after.
  - intros (before & after & ->).
    induction before as [|c before IH].
    + cbn [app]. destruct (needle ++ after) eqn:E; cbn [contains];
        rewrite <- E, startswith_app; reflexivity.
    + cbn [app contains]. now rewrite IH, orb_true_r.
Qed.

(** X12. The reply that stands in for a provider is chosen by the first keyword
    found in the message: a message holding 沃尔玛 or 圣诞 anywhere gets the
    holiday analysis, whatever else it holds; otherwise one holding 评价 or 问题
    gets the review analysis; any other message is echoed back, cut to its
    first 50 characters, inside the general greeting. The reply is always
    labelled [mock], with model [mock-model] and no token usage. *)
Theorem mock_reply_by_keyword (message : str) :
  let occurs (word : str) :=
    exists before after, message = before ++ word ++ after in
  (occurs (u "沃尔玛") \/ occurs (u "圣诞") ->
   response (_generate_mock_response message) = mock_holiday)
  /\ (~ occurs (u "沃尔玛") -> ~ occurs (u "圣诞") ->
      occurs (u "评价") \/ occurs (u "问题") ->
      response (_generate_mock_response message) = mock_reviews)
  /\ (~ occurs (u "沃尔玛") -> ~ occurs (u "圣诞") ->
      ~ occurs (u "评价") -> ~ occurs (u "问题") ->
      response (_generate_mock_response message)
      = mock_generic_head ++ quote ++ take 50 message ++ u "..." ++ quote
        ++ mock_generic_tail)
  /\ llm_provider (_generate_mock_response message) = u "mock"
  /\ tokens_used (_generate_mock_response message) = []
  /\ model (_generate_mock_response message) = u "mock-model".
Proof.
  cbv zeta.
  assert (Hno : forall word,
            ~ (exists before after, message = before ++ word ++ after) ->
            contains word message = false).
  { intros word H. destruct (contains word message) eqn:E; [|reflexivity].
    destruct H. now apply contains_spec. }
  unfold _generate_mock_response. cbn [response llm_provider tokens_used model].
  repeat apply conj; try reflexivity.
  - intros [H|H]; apply contains_spec in H; rewrite H;
      now rewrite ?orb_true_r.
  - intros H1 H2 H. rewrite (Hno _ H1), (Hno _ H2). cbn [orb].
    destruct H as [H|H]; apply contains_spec in H; rewrite H;
      now rewrite ?orb_true_r.
  - intros H1 H2 H3 H4. now rewrite (Hno _ H1), (Hno _ H2), (Hno _ H3), (Hno _ H4).
Qed.

(** ** Who is called *)

(** X11. Whatever provider is named, [chat] either finds the registry empty and
    answers with the mock reply without calling anything, or makes exactly
    one call, to a client of the registry, with the system prompt (when it
    is not empty) followed by the user's message. When that call returns,
    the answer is the reply's content under the registry key the client was
    taken from; when it raises, the answer is the mock reply. *)
Theorem chat_calls_one_registered_client (self : LLMService)
    (message : str) (system_prompt provider : option str) (w : world) :
  (providers self = []
   /\ chat ainvoke self message system_prompt provider w
      = (_generate_mock_response message, w))
  \/ (exists name llm,
        dict_get (providers self) name = Some llm
        /\ snd (chat ainvoke self message system_prompt provider w)
           = w ++ [(llm,
                    match system_prompt with
                    | Some (c :: s) => [SystemMessage (c :: s)]
                    | _ => []
                    end ++ [HumanMessage message])]
        /\ (forall reply,
              ainvoke w llm (build_messages message system_prompt) = Some reply ->
              response (fst (chat ainvoke self message system_prompt provider w))
              = content reply
              /\ llm_provider
                   (fst (chat ainvoke self message system_prompt provider w))
                 = name)
        /\ (ainvoke w llm (build_messages message system_prompt) = None ->
            fst (chat ainvoke self message system_prompt provider w)
            = _generate_mock_response message)).
Proof.
  assert (Hcall : forall name llm,
    dict_get (providers self) name = Some llm ->
    exists name' llm',
      dict_get (providers self) name' = Some llm'
      /\ snd (call_llm ainvoke llm name message system_prompt w)
         = w ++ [(llm',
                  match system_prompt with
                  | Some (c :: s) => [SystemMessage (c :: s)]
                  | _ => []
                  end ++ [HumanMessage message])]
      /\ (forall reply,
            ainvoke w llm' (build_messages message system_prompt) = Some reply ->
            response (fst (call_llm ainvoke llm name message system_prompt w))
            = content reply
            /\ llm_provider
                 (fst (call_llm ainvoke llm name message system_prompt w))
               = name')
      /\ (ainvoke w llm' (build_messages message system_prompt) = None ->
          fst (call_llm ainvoke llm name message system_prompt w)
          = _generate_mock_response message)).
  { intros name llm H. exists name, llm. split; [exact H|]. split.
    - rewrite call_llm_log. unfold build_messages.
      now destruct system_prompt as [[|c s]|].
    - split; intros; unfold call_llm.
      + now rewrite H0.
      + now rewrite H0. }
  unfold chat.
  destruct provider as [p|]; cbn [default from_option id];
    [destruct (truthy p);
       [destruct (dict_get (providers self) p) eqn:Ep;
          [right; now apply Hcall|]|]|];
    (destruct (dict_get (providers self) (u "primary")) eqn:Epr;
       [right; now apply Hcall|]);
    (destruct (providers self) as [|[k v] l] eqn:El; [now left|right]);
    (apply Hcall; simpl; now rewrite bool_decide_eq_true_2).
Qed.

(** X13. [analyze_with_best_llm] always sends a system prompt followed by the
    content. The call goes to the provider the task type is mapped to
    (google for market trends, anthropic for sentiment analysis and report
    generation, openai for innovation, the [primary] entry for data analysis
    and for every other task type) when that provider is registered, and is
    answered under its name; when it is not registered the request is served
    as a [chat] that names no provider. *)
Theorem analyze_with_best_llm_routes (self : LLMService)
    (task_type content : str) (w : world) :
  let preferred := default (u "primary") (dict_get task_llm_mapping task_type) in
  let prompt := _get_task_specific_prompt task_type in
  build_messages content (Some prompt)
  = [SystemMessage prompt; HumanMessage content]
  /\ match dict_get (providers self) preferred with
     | Some llm =>
         analyze_with_best_llm ainvoke self task_type content w
         = call_llm ainvoke llm preferred content (Some prompt) w
     | None =>
         analyze_with_best_llm ainvoke self task_type content w
         = chat ainvoke self content (Some prompt) None w
     end.
Proof.
  cbv zeta.
  assert (Hprompt : truthy (_get_task_specific_prompt task_type) = true).
  { unfold _get_task_specific_prompt. cbn [dict_get].
    repeat (destruct (bool_decide _); [reflexivity|]). reflexivity. }
  assert (Hpref : truthy (default (u "primary")
                            (dict_get task_llm_mapping task_type)) = true).
  { unfold task_llm_mapping. cbn [dict_get].
    repeat (destruct (bool_decide _); [reflexivity|]). reflexivity. }
  split.
  - unfold build_messages. cbn [otruthy default from_option id].
    now rewrite Hprompt.
  - unfold analyze_with_best_llm, chat. cbn [default from_option id] in *.
    rewrite Hpref.
    now destruct (dict_get (providers self) _).
Qed.

End conversation_properties.

(* ===================================================================== *)
(** * The client cache and the task router *)
(* ===================================================================== *)

Section cache_properties.

Import llm_manager.

Variable getenv : str -> option str.
Variable constructs : BaseChatModel -> bool.

(** ** What [_create_llm] builds *)

Lemma construct_inv env c (llm : BaseChatModel) :
  (if negb (otruthy (getenv env)) then None else construct constructs c)
  = Some llm ->
  exists key, getenv env = Some key /\ key <> [] /\ llm = c
              /\ constructs c = true.
Proof.
  intros H. destruct (getenv env) as [[|a k]|]; try discriminate H.
  simpl in H. unfold construct in H.
  destruct (constructs c) eqn:Ec; [|discriminate H].
  injection H as <-. exists (a :: k). now repeat split.
Qed.

(** X14. A client that [_create_llm] returns is of one of the four providers the
    manager knows (google, openai, anthropic, xai; any other name gives
    [None]); it is built from the provider's own key variable, which is set
    and not empty, for the model asked for, at the temperature the
    configuration gives that model (0.7 when it gives none), with a base URL
    for xai only; and its constructor did not raise. *)
Theorem _create_llm_builds (self : LLMManager) (provider model : str)
    (llm : BaseChatModel) :
  _create_llm getenv constructs self provider model = Some llm ->
  exists env key,
    In (provider, env, cls llm)
      [(u "google", u "GOOGLE_API_KEY", ChatGoogleGenerativeAI);
       (u "openai", u "OPENAI_API_KEY", ChatOpenAI);
       (u "anthropic", u "ANTHROPIC_API_KEY", ChatAnthropic);
       (u "xai", u "XAI_API_KEY", ChatOpenAI)]
    /\ getenv env = Some key /\ key <> []
    /\ api_key llm = key
    /\ langchain.model llm = model
    /\ langchain.temperature llm
       = default 0.7%float
           (model_entry (config self) provider model ≫= temperature)
    /\ base_url llm
       = (if bool_decide (provider = u "xai")
          then Some (default (u "https://api.x.ai/v1") (getenv (u "XAI_BASE_URL")))
          else None)
    /\ constructs llm = true.
Proof.
  assert (Htemp : _get_model_temperature self provider model
                  = default 0.7%float
                      (model_entry (config self) provider model ≫= temperature)).
  { unfold _get_model_temperature.
    now destruct (model_entry (config self) provider model ≫= temperature). }
  unfold _create_llm. rewrite Htemp. clear Htemp. intros Hb.
  repeat case_bool_decide; try discriminate Hb; subst provider;
    apply construct_inv in Hb as (key & Hk & Hne & -> & Hc);
    rewrite Hk in Hc |- *; cbn [default from_option id] in Hc |- *;
    eexists _, key;
    cbn [cls api_key langchain.model langchain.temperature base_url];
    (split; [simpl; auto 6|]);
    (split; [exact Hk|]); (split; [exact Hne|]);
    (split; [reflexivity|]); (split; [reflexivity|]);
    (split; [reflexivity|]); (split; [|exact Hc]);
    first
      [ reflexivity
      | now (unfold getenv_or; destruct (getenv (u "XAI_BASE_URL")))
      | exfalso;
        match goal with
        | E : u _ = u _ |- _ => vm_compute in E; discriminate E
        | E : u _ <> u _ |- _ => now apply E
        end ].
Qed.

(** ** The cache *)

(** X15. A client that [get_llm] has returned is returned again for the same
    provider and model, from the cache, whatever has become of the
    environment and of the constructor since. A failure is not cached: it
    leaves the manager as it was, so the next call tries again. *)
Theorem get_llm_reuses_client (getenv' : str -> option str)
    (constructs' : BaseChatModel -> bool) (self : LLMManager)
    (provider model : str) :
  match get_llm getenv constructs self provider model with
  | (Some llm, self') =>
      llm_cache self' !! cache_key provider model = Some llm
      /\ get_llm getenv' constructs' self' provider model = (Some llm, self')
  | (None, self') =>
      self' = self
      /\ llm_cache self !! cache_key provider model = None
      /\ get_llm getenv' constructs' self' provider model
         = get_llm getenv' constructs' self provider model
  end.
Proof.
  unfold get_llm at 1.
  destruct (llm_cache self !! cache_key provider model) as [llm|] eqn:E.
  - split; [exact E|]. unfold get_llm. now rewrite E.
  - destruct (_create_llm getenv constructs self provider model) as [llm|].
    + split; [apply lookup_insert_eq|].
      unfold get_llm. cbn [llm_cache]. now rewrite lookup_insert_eq.
    + now repeat split.
Qed.

Lemma cache_key_split (p p' : str) : forall m m' : str,
  ~ In 58%N p -> ~ In 58%N p' ->
  p ++ 58%N :: m = p' ++ 58%N :: m' -> p = p' /\ m = m'.
Proof.
  revert p'. induction p as [|a p IH]; intros [|a' p'] m m' Hp Hp' E;
    simpl in *.
  - now injection E.
  - injection E as <- _. destruct Hp'. now left.
  - injection E as -> _. destruct Hp. now left.
  - injection E as -> E. destruct (IH p' m m') as [-> ->]; auto.
Qed.

(** X16. Two requests whose provider names hold no colon (as the names of the
    four supported providers) share a cache slot only when they ask for the
    same provider and the same model. *)
Theorem cache_key_inj (provider model provider' model' : str) :
  ~ In 58%N provider -> ~ In 58%N provider' ->
  cache_key provider model = cache_key provider' model' ->
  provider = provider' /\ model = model'.
Proof.
  intros Hp Hp' E. unfold cache_key in E.
  change (u ":") with [58%N] in E. now apply cache_key_split in E.
Qed.

(** ** The router *)

Lemma grown_get_llm self provider model :
  grown self (get_llm getenv constructs self provider model).2
    (get_llm getenv constructs self provider model).1.
Proof.
  unfold get_llm, grown.
  destruct (llm_cache self !! cache_key provider model) as [llm|] eqn:E;
    cbn [fst snd].
  - split; [reflexivity|]. split; [reflexivity|]. split; [reflexivity|].
    intros ? [= <-]. eauto.
  - destruct (_create_llm getenv constructs self provider model) as [llm|];
      cbn [fst snd llm_cache config development_mode].
    + split; [reflexivity|]. split; [reflexivity|].
      split; [now apply insert_subseteq|].
      intros ? [= <-]. eexists. apply lookup_insert_eq.
    + split; [reflexivity|]. split; [reflexivity|]. split; [reflexivity|].
      discriminate.
Qed.

Lemma grown_trans a b c o o' : grown a b o -> grown b c o' -> grown a c o'.
Proof.
  intros (H1 & H2 & H3 & _) (H1' & H2' & H3' & H4').
  split; [congruence|]. split; [congruence|].
  split; [now transitivity (llm_cache b)|exact H4'].
Qed.

Lemma grown_get_llm_of self d r :
  get_llm_of getenv constructs self d = inr r -> grown self r.2 r.1.
Proof.
  unfold get_llm_of.
  destruct (subscript d (u "provider")); [discriminate|].
  destruct (subscript d (u "model")); [discriminate|].
  intros [= <-]. apply grown_get_llm.
Qed.

Lemma grown_try_fallback self a r :
  try_fallback getenv constructs self a = inr r -> grown self r.2 r.1.
Proof.
  unfold try_fallback.
  destruct (_ && _).
  - destruct (get_llm_of getenv constructs self (default ∅ (a !! u "fallback")))
      as [e|[[llm|] self']] eqn:E; [discriminate| |].
    + intros [= <-]. exact (grown_get_llm_of _ _ _ E).
    + intros [= <-]. eapply grown_trans; [exact (grown_get_llm_of _ _ _ E)|].
      apply grown_get_llm.
  - intros [= <-]. apply grown_get_llm.
Qed.

(** X17. Resolving the client of a task never changes the configuration or the
    mode of the manager and never drops or replaces a cached client; and the
    client it returns, if any, is in the cache afterwards. *)
Theorem get_llm_for_task_grows_cache (self self' : LLMManager) (t : task)
    (o : option BaseChatModel) :
  get_llm_for_task getenv constructs self t = inr (o, self') ->
  config self' = config self
  /\ development_mode self' = development_mode self
  /\ llm_cache self ⊆ llm_cache self'
  /\ (forall llm, o = Some llm ->
        exists key, llm_cache self' !! key = Some llm).
Proof.
  intros H. change (grown self (o, self').2 (o, self').1).
  revert H. generalize (o, self'). intros r. unfold get_llm_for_task.
  destruct (negb _).
  - apply grown_get_llm_of.
  - destruct (bool_decide (assignment_of _ _ = ∅)).
    + intros [= <-]. apply grown_get_llm.
    + destruct (negb _).
      * destruct (get_llm_of getenv constructs self _)
          as [e|[[llm|] self1]] eqn:E; [discriminate| |].
        -- intros [= <-]. exact (grown_get_llm_of _ _ _ E).
        -- intros H. eapply grown_trans; [exact (grown_get_llm_of _ _ _ E)|].
           eapply grown_try_fallback. exact H.
      * intros H. eapply grown_try_fallback. exact H.
Qed.

(** X18. With the built-in configuration (the one used when the configuration
    file is missing or unreadable), every task, in either mode, is resolved
    to the default client, Gemini Flash, and every cost estimate is zero. *)
Theorem default_config_routes_to_gemini (self : LLMManager) (t : task)
    (input_tokens output_tokens : Z) :
  config self = _get_default_config ->
  get_llm_for_task getenv constructs self t
  = inr (get_llm getenv constructs self (u "google") (u "gemini-1.5-flash"))
  /\ estimate_cost self t input_tokens output_tokens = inr 0%float.
Proof.
  intros Hc. unfold get_llm_for_task, estimate_cost, assignment_of.
  rewrite Hc. cbn [override_all_to task_assignments _get_default_config
                   default from_option id].
  rewrite lookup_empty. cbn [default from_option id].
  unfold primary_of. rewrite lookup_empty. cbn [default from_option id].
  split.
  - destruct (development_mode self);
      rewrite !bool_decide_eq_true_2 by reflexivity; reflexivity.
  - now rewrite bool_decide_eq_true_2.
Qed.

(** ** Failures of the cost estimator *)

(** X19. [estimate_cost] lets a [KeyError] escape exactly when the task has a
    primary entry that is not empty and lacks its [provider] key, or holds
    it and lacks its [model] key; the error names the missing key. (The two
    subscripts are outside the [try] that turns a missing price into zero.) *)
Theorem estimate_cost_raises (self : LLMManager) (t : task)
    (input_tokens output_tokens : Z) (e : exn) :
  estimate_cost self t input_tokens output_tokens = inl e
  <-> primary_of (assignment_of (config self) (task_name t)) <> ∅
      /\ ((primary_of (assignment_of (config self) (task_name t))
             !! u "provider" = None
           /\ e = KeyError (u "provider"))
          \/ (is_Some (primary_of (assignment_of (config self) (task_name t))
                         !! u "provider")
              /\ primary_of (assignment_of (config self) (task_name t))
                   !! u "model" = None
              /\ e = KeyError (u "model"))).
Proof.
  unfold estimate_cost.
  set (primary := primary_of (assignment_of (config self) (task_name t))).
  destruct (bool_decide (primary = ∅)) eqn:Ep.
  - apply bool_decide_eq_true_1 in Ep. split; [discriminate|].
    intros [H _]. contradiction.
  - apply bool_decide_eq_false_1 in Ep. unfold subscript.
    destruct (primary !! u "provider") as [provider|] eqn:E1.
    + destruct (primary !! u "model") as [model|] eqn:E2.
      * split.
        -- destruct (price (config self) provider model); discriminate.
        -- intros [_ [[H _]|(_ & H & _)]]; discriminate H.
      * split.
        -- intros [= <-]. split; [exact Ep|]. right. eauto.
        -- intros [_ [[H _]|(_ & _ & ->)]]; [discriminate H|reflexivity].
    + split.
      * intros [= <-]. split; [exact Ep|]. now left.
      * intros [_ [[_ ->]|([? H] & _)]]; [reflexivity|discriminate H].
Qed.

(** ** The provider listing *)

Variable model_names : gmap str ModelEntry -> list str.

(** X20. [list_available_providers] has one entry for each provider of the
    configuration and no other. The entry reports a key exactly when the
    provider names a key variable and that variable is set to a value that
    is not empty (the value is not inspected further), and its status is
    [available] in that case and [missing_api_key] otherwise. *)
Theorem listed_provider_status (self : LLMManager) (provider : str) :
  match default ∅ (providers (config self)) !! provider with
  | None => list_available_providers getenv model_names self !! provider = None
  | Some entry =>
      exists info,
        list_available_providers getenv model_names self !! provider
        = Some info
        /\ ProviderInfo.models info = model_names (default ∅ (models entry))
        /\ (ProviderInfo.has_api_key info = true
            <-> exists env key,
                  api_key_env entry = Some env /\ env <> []
                  /\ getenv env = Some key /\ key <> [])
        /\ ProviderInfo.status info
           = (if ProviderInfo.has_api_key info
              then u "available" else u "missing_api_key")
  end.
Proof.
  unfold list_available_providers. rewrite lookup_fmap.
  destruct (default ∅ (providers (config self)) !! provider) as [entry|];
    [|reflexivity].
  cbn [fmap option_fmap option_map]. eexists. split; [reflexivity|].
  cbn [ProviderInfo.models ProviderInfo.has_api_key ProviderInfo.status].
  repeat split.
  - destruct (api_key_env entry) as [[|a env]|]; try discriminate.
    cbn [otruthy truthy default from_option id].
    destruct (getenv (a :: env)) as [[|b key]|] eqn:E; try discriminate.
    intros _. exists (a :: env), (b :: key). now repeat split.
  - intros (env & key & -> & Hne & Hk & Hkne).
    destruct env as [|a env]; [contradiction|].
    cbn [otruthy truthy default from_option id]. rewrite Hk.
    now destruct key.
Qed.

End cache_properties.

Section cache_examples.

Import llm_manager examples.

(** The Gemini client of the two-key environment. *)
Lemma _create_llm_builds_witness :
  exists env key,
    In (u "google", env, cls google_client)
      [(u "google", u "GOOGLE_API_KEY", ChatGoogleGenerativeAI);
       (u "openai", u "OPENAI_API_KEY", ChatOpenAI);
       (u "anthropic", u "ANTHROPIC_API_KEY", ChatAnthropic);
       (u "xai", u "XAI_API_KEY", ChatOpenAI)]
    /\ env_two env = Some key /\ key <> []
    /\ api_key google_client = key
    /\ langchain.model google_client = u "gemini-1.5-flash"
    /\ langchain.temperature google_client
       = default 0.7%float
           (model_entry (config (manager_of _get_default_config))
              (u "google") (u "gemini-1.5-flash") ≫= temperature)
    /\ base_url google_client
       = (if bool_decide (u "google" = u "xai")
          then Some (default (u "https://api.x.ai/v1")
                       (env_two (u "XAI_BASE_URL")))
          else None)
    /\ always_constructs google_client = true.
Proof.
  apply (_create_llm_builds env_two always_constructs
           (manager_of _get_default_config) (u "google")
           (u "gemini-1.5-flash") google_client).
  vm_compute. reflexivity.
Defined.

Lemma cache_key_inj_witness :
  u "google" = u "google" /\ u "gemini-1.5-flash" = u "gemini-1.5-flash".
Proof.
  apply (cache_key_inj (u "google") (u "gemini-1.5-flash") (u "google")
           (u "gemini-1.5-flash"));
    try reflexivity;
    intros H; vm_compute in H;
    repeat (destruct H as [H|H]; [discriminate H|]); exact H.
Defined.

(** Resolving trend analysis at the routed configuration caches the Gemini
    client. *)
Lemma get_llm_for_task_grows_cache_witness :
  config (get_llm env_two always_constructs (manager_of config_routed)
            (u "google") (u "gemini-1.5-flash")).2
  = config (manager_of config_routed)
  /\ development_mode
       (get_llm env_two always_constructs (manager_of config_routed)
          (u "google") (u "gemini-1.5-flash")).2
     = development_mode (manager_of config_routed)
  /\ llm_cache (manager_of config_routed)
     ⊆ llm_cache
         (get_llm env_two always_constructs (manager_of config_routed)
            (u "google") (u "gemini-1.5-flash")).2
  /\ (forall llm, Some google_client = Some llm ->
        exists key,
          llm_cache
            (get_llm env_two always_constructs (manager_of config_routed)
               (u "google") (u "gemini-1.5-flash")).2 !! key = Some llm).
Proof.
  apply (get_llm_for_task_grows_cache env_two always_constructs
           (manager_of config_routed)
           (get_llm env_two always_constructs (manager_of config_routed)
              (u "google") (u "gemini-1.5-flash")).2
           (inl TREND_ANALYSIS) (Some google_client)).
  vm_compute. reflexivity.
Defined.

(** The built-in configuration without any credential: every task resolves
    to the default client, which cannot be built. *)
Lemma default_config_routes_to_gemini_witness :
  get_llm_for_task env_none always_constructs (manager_of _get_default_config)
    (inl PRODUCT_RECOMMENDATIONS)
  = inr (get_llm env_none always_constructs (manager_of _get_default_config)
           (u "google") (u "gemini-1.5-flash"))
  /\ estimate_cost (manager_of _get_default_config)
       (inl PRODUCT_RECOMMENDATIONS) 1000 500 = inr 0%float.
Proof.
  apply (default_config_routes_to_gemini env_none always_constructs
           (manager_of _get_default_config) (inl PRODUCT_RECOMMENDATIONS)
           1000 500).
  reflexivity.
Defined.

End cache_examples.

Section converse_properties.

Import main.

Variable lower : str -> str.
Variable str_of_HTTPException : Z -> str -> str.
Variable ainvoke : world -> BaseChatModel -> list BaseMessage -> option AIMessage.

(** X8. The data sources a chat response reports are read off the user's message
    alone, whoever produced the reply (a provider or the mock): MindsDB
    always, Vertex AI exactly when the message holds 搜索 or its lower-cased
    text holds [trend], PyTrends exactly when the message holds 趋势; they
    come in that order. The response carries the clock reading as timestamp,
    the difference of the two timer readings as processing time, and no
    analysis id. *)
Theorem data_sources_by_keyword (service : llm_service.LLMService)
    (chat_message : ChatMessage.t) (t0 t1 : float) (now : datetime)
    (w w' : world) (r : ChatResponse.t) :
  send_chat_message lower str_of_HTTPException ainvoke (Some service)
    chat_message t0 t1 now w = (Ok r, w') ->
  (exists vertex trends : bool,
     ChatResponse.data_sources_used r
     = [u "MindsDB"] ++ (if vertex then [u "Vertex AI"] else [])
       ++ (if trends then [u "PyTrends"] else [])
     /\ (vertex = true
         <-> (exists before after,
                ChatMessage.message chat_message
                = before ++ u "搜索" ++ after)
             \/ (exists before after,
                   lower (ChatMessage.message chat_message)
                   = before ++ u "trend" ++ after))
     /\ (trends = true
         <-> exists before after,
               ChatMessage.message chat_message = before ++ u "趋势" ++ after))
  /\ ChatResponse.timestamp r = now
  /\ ChatResponse.processing_time r = PrimFloat.sub t1 t0
  /\ ChatResponse.analysis_id r = None.
Proof.
  unfold send_chat_message.
  destruct (llm_service.chat _ _ _ _ _ _) as [llm_result w''].
  intros [= <- _].
  cbn [ChatResponse.data_sources_used ChatResponse.timestamp
       ChatResponse.processing_time ChatResponse.analysis_id].
  split; [|now repeat split].
  exists (contains (u "搜索") (ChatMessage.message chat_message)
          || contains (u "trend") (lower (ChatMessage.message chat_message))),
         (contains (u "趋势") (ChatMessage.message chat_message)).
  split; [|split].
  - destruct (_ || _), (contains (u "趋势") _); reflexivity.
  - rewrite orb_true_iff, !contains_spec. reflexivity.
  - now rewrite contains_spec.
Qed.

End converse_properties.

Section session_id_properties.

Import main.

(** X7. Two start requests are given the same id exactly when their clock
    readings have the same whole second. *)
Theorem session_id_per_second (t1 t2 : float) (now1 now2 : datetime)
    (request1 request2 : AnalysisRequest.t) (srv1 srv2 : server) :
  Started.analysis_id (start_analysis t1 now1 request1 srv1).1.1
  = Started.analysis_id (start_analysis t2 now2 request2 srv2).1.1
  <-> int_of_float t1 = int_of_float t2.
Proof. rewrite !start_analysis_id. apply id_of_eq_iff. Qed.

End session_id_properties.

Section converse_examples.

Import main examples.

(** A question about trends, answered by DeepSeek in the two-key
    deployment. *)
Lemma data_sources_by_keyword_witness :
  (exists vertex trends : bool,
     [u "MindsDB"; u "Vertex AI"]
     = [u "MindsDB"] ++ (if vertex then [u "Vertex AI"] else [])
       ++ (if trends then [u "PyTrends"] else [])
     /\ (vertex = true
         <-> (exists before after,
                u "earbuds trend 2024" = before ++ u "搜索" ++ after)
             \/ (exists before after,
                   u "earbuds trend 2024" = before ++ u "trend" ++ after))
     /\ (trends = true
         <-> exists before after,
               u "earbuds trend 2024" = before ++ u "趋势" ++ after))
  /\ 1700000001000000%Z = 1700000001000000%Z
  /\ PrimFloat.sub 1700000001.5 1700000000.25
     = PrimFloat.sub 1700000001.5 1700000000.25
  /\ @None str = None.
Proof.
  apply (data_sources_by_keyword (fun s => s) (fun _ detail => detail) google_down
           service_two
           {| ChatMessage.message := u "earbuds trend 2024";
              ChatMessage.user_id := Some (u "default");
              ChatMessage.session_id := Some (u "default") |}
           1700000000.25 1700000001.5 1700000001000000 []
           [(deepseek_client,
             [SystemMessage (assistant_prompt);
              HumanMessage (u "earbuds trend 2024")])]
           {| ChatResponse.response := u "ok";
              ChatResponse.timestamp := 1700000001000000;
              ChatResponse.processing_time :=
                PrimFloat.sub 1700000001.5 1700000000.25;
              ChatResponse.llm_provider := u "primary";
              ChatResponse.data_sources_used := [u "MindsDB"; u "Vertex AI"];
              ChatResponse.analysis_id := None |}).
  vm_compute. reflexivity.
Defined.

End converse_examples.
